(** * AbrenCare health-data analytics: a shallow embedding of the backend's
    analysis code and the properties its specification states about it.

    Embedded modules (all under [backend/health_data/]):
    - [heart_rate_processor.py]: [HeartRateProcessor]
    - [sleep_processor.py]: [SleepProcessor]
    - [health_analyzer.py]: [HealthAnalyzer]
    - [models.py]: [HeartRateReading], [SleepSession], [DailySummary]

    Numbers.  Python [int] is [Z].  Python [float] is idealised as an exact
    rational ([Q]): sums, products, quotients and comparisons are exact.  The
    one irrational operation the code uses, the square root behind [np.std] and
    [np.sqrt], is a parameter ([NumpySqrt]) constrained only by the laws the
    proofs need ([NumpySqrtLaws]); [sqrt_approx] is a concrete instance used to run the
    model.  Timestamps are microseconds since the epoch ([Z]), the resolution
    of Python's [datetime]. *)

From Stdlib Require Import ZArith QArith Qround Qabs String List Bool Lia Lqa
  Morphisms Setoid Permutation.
From Stdlib Require Import DecimalString.
Import ListNotations.

Local Open Scope Z_scope.
Local Open Scope Q_scope.

(* ================================================================== *)
(** ** Python and numpy primitives *)
(* ================================================================== *)

Module Py.

Definition Qlt_bool (a b : Q) : bool := negb (Qle_bool b a).
Definition Qeq_bool0 (a : Q) : bool := Qeq_bool a 0.

(** [int / int] and [float / float]: true division. *)
Definition Zdiv_true (a b : Z) : Q := inject_Z a / inject_Z b.

(** [int(x)] on a float: truncation toward zero. *)
Definition int_of (x : Q) : Z := Z.quot (Qnum x) (Zpos (Qden x)).

(** Nearest integer, ties to the even neighbour. *)
Definition round_half_even (x : Q) : Z :=
  let f := Qfloor x in
  match Qcompare (x - inject_Z f) (1 # 2) with
  | Lt => f
  | Gt => (f + 1)%Z
  | Eq => if Z.even f then f else (f + 1)%Z
  end.

(** [round(x, ndigits)]. *)
Definition round (x : Q) (ndigits : nat) : Q :=
  let scale := inject_Z (10 ^ Z.of_nat ndigits) in
  inject_Z (round_half_even (x * scale)) / scale.

(** Truthiness of an [Optional[float]] / [Optional[int]] field:
    [None] and zero are falsy. *)
Definition truthyQ (o : option Q) : bool :=
  match o with
  | Some q => negb (Qeq_bool0 q)
  | None => false
  end.

Definition truthyZ (o : option Z) : bool :=
  match o with
  | Some z => negb (Z.eqb z 0)
  | None => false
  end.

(** [o or d] for an optional float [o]. *)
Definition orQ (o : option Q) (d : Q) : Q :=
  match o with
  | Some q => if Qeq_bool0 q then d else q
  | None => d
  end.

Definition orZ (o : option Z) (d : Z) : Z :=
  match o with
  | Some z => if Z.eqb z 0 then d else z
  | None => d
  end.

(** [sum(iterable)]: left fold starting from 0. *)
Definition sum (l : list Q) : Q := fold_left Qplus l 0.

(** [min(a, b)] and [max(a, b)] return the first argument on ties. *)
Definition min (a b : Q) : Q := if Qlt_bool b a then b else a.
Definition max (a b : Q) : Q := if Qlt_bool a b then b else a.

(** Values stored in the result dictionaries. *)
Inductive value : Type :=
| VStr (s : string)
| VInt (z : Z)
| VFloat (q : Q)
| VTime (t : Z)
| VNone.

(** A [dict] with string keys, in insertion order. *)
Definition dict : Type := list (string * value).

Fixpoint get (k : string) (d : dict) : option value :=
  match d with
  | [] => None
  | (k', v) :: d' => if String.eqb k k' then Some v else get k d'
  end.

(** [k in d]. *)
Definition contains (k : string) (d : dict) : bool :=
  match get k d with Some _ => true | None => false end.

End Py.

(** Exceptions the modelled code can raise. *)
Inductive exn : Type :=
| TypeError
| ValueError
| IndexError.

Inductive result (A : Type) : Type :=
| Ok (a : A)
| Raise (e : exn).
Arguments Ok {A} a.
Arguments Raise {A} e.

Definition bind {A B : Type} (r : result A) (k : A -> result B) : result B :=
  match r with
  | Ok a => k a
  | Raise e => Raise e
  end.

Notation "x <- r ;; k" := (bind r (fun x => k))
  (at level 61, r at next level, right associativity).

(** The square root used by numpy, kept abstract. *)
Class NumpySqrt : Type := np_sqrt : Q -> Q.

Class NumpySqrtLaws (S : NumpySqrt) : Prop := {
  np_sqrt_proper : Proper (Qeq ==> Qeq) (@np_sqrt S);
  np_sqrt_zero : @np_sqrt S 0 == 0;
  np_sqrt_nonneg : forall x, 0 <= @np_sqrt S x
}.

Module Np.

(** [np.sum], [np.mean]. *)
Definition sum (l : list Q) : Q := fold_left Qplus l 0.

Definition mean (l : list Q) : Q :=
  sum l / inject_Z (Z.of_nat (length l)).

(** [np.square]. *)
Definition square (l : list Q) : list Q := map (fun x => x * x) l.

(** The population variance: [mean(abs(x - mean(x)) ** 2)]. *)
Definition var (l : list Q) : Q :=
  let m := mean l in
  mean (map (fun x => Qabs (x - m) * Qabs (x - m)) l).

(** [np.std] (population standard deviation, [ddof = 0]). *)
Definition std `{NumpySqrt} (l : list Q) : Q := np_sqrt (var l).

(** [np.diff]: successive differences [a[i+1] - a[i]]. *)
Fixpoint diff (l : list Q) : list Q :=
  match l with
  | a :: ((b :: _) as tl) => (b - a) :: diff tl
  | _ => []
  end.

(** [np.arange(n)]. *)
Definition arange (n : nat) : list Q :=
  map (fun i => inject_Z (Z.of_nat i)) (seq 0 n).

(** [np.polyfit(x, y, 1)]: the least-squares line, returned as
    [(slope, intercept)]. *)
Definition polyfit1 (x y : list Q) : Q * Q :=
  let mx := mean x in
  let my := mean y in
  let sxy := sum (map (fun p => (fst p - mx) * (snd p - my)) (combine x y)) in
  let sxx := sum (map (fun a => (a - mx) * (a - mx)) x) in
  let slope := sxy / sxx in
  (slope, my - slope * mx).

End Np.

(** A concrete square root: rounded down to nine decimal places. *)
Definition sqrt_approx : NumpySqrt := fun q =>
  let r := Qred q in
  let d := Zpos (Qden r) in
  let k := (10 ^ 9)%Z in
  Qmake (Z.sqrt (Qnum r * d * (k * k)))%Z (Qden r * 1000000000)%positive.

(* ================================================================== *)
(** ** models.py: HeartRateReading and its table *)
(* ================================================================== *)

(** The columns of [HeartRateReading] that the analysis code reads or
    writes.  [hr_id] is the primary key (the UUID in its string form, which
    is how the detector passes it around).  Django's bookkeeping columns
    ([updated_at], refreshed by every [save()]) are left out. *)
Record HeartRateReading : Type := mkReading {
  hr_id : string;
  hr_user : N;
  hr_bpm : Z;
  hr_timestamp : Z;
  hr_context : string;
  hr_is_anomaly : bool;
  hr_anomaly_type : string
}.

(** The [heart_rate_readings] table: its rows in storage order. *)
Definition table : Type := list HeartRateReading.

Module Objects.

Definition in_range (lo hi t : Z) : bool := ((lo <=? t) && (t <=? hi))%Z.

(** [.filter(user=user, timestamp__range=[start, end])] *)
Definition filter (db : table) (user : N) (start_time end_time : Z) : table :=
  List.filter
    (fun r => N.eqb (hr_user r) user
              && in_range start_time end_time (hr_timestamp r)) db.

Fixpoint insert_by_timestamp (r : HeartRateReading) (l : table) : table :=
  match l with
  | [] => [r]
  | x :: l' =>
      if (hr_timestamp r <=? hr_timestamp x)%Z then r :: x :: l'
      else x :: insert_by_timestamp r l'
  end.

(** [.order_by('timestamp')]: ascending; rows with equal timestamps, whose
    order the query leaves to the database, are kept in storage order. *)
Fixpoint order_by_timestamp (l : table) : table :=
  match l with
  | [] => []
  | r :: l' => insert_by_timestamp r (order_by_timestamp l')
  end.

(** [queryset[k]] on a query set whose rows have been fetched
    ([QuerySet.__getitem__] with an integer).  Django refuses negative
    indices before it looks at the fetched rows: "Negative indexing is not
    supported." (a [ValueError]; an [AssertionError] before Django 4.0). *)
Definition getitem (rows : table) (k : Z) : result HeartRateReading :=
  if (k <? 0)%Z then Raise ValueError
  else
    match nth_error rows (Z.to_nat k) with
    | Some r => Ok r
    | None => Raise IndexError
    end.

(** [.get(id=...)]: [None] stands for [DoesNotExist]. *)
Definition get (db : table) (id : string) : option HeartRateReading :=
  List.find (fun r => String.eqb (hr_id r) id) db.

(** [reading.save()] on an existing row: an update by primary key. *)
Definition save (db : table) (r : HeartRateReading) : table :=
  List.map (fun x => if String.eqb (hr_id x) (hr_id r) then r else x) db.

Fixpoint insert_by_timestamp_desc (r : HeartRateReading) (l : table) : table :=
  match l with
  | [] => [r]
  | x :: l' =>
      if (hr_timestamp x <=? hr_timestamp r)%Z then r :: x :: l'
      else x :: insert_by_timestamp_desc r l'
  end.

(** The default ordering of the model, [Meta.ordering = ['-timestamp']]:
    descending; rows with equal timestamps are kept in storage order. *)
Fixpoint order_by_timestamp_desc (l : table) : table :=
  match l with
  | [] => []
  | r :: l' => insert_by_timestamp_desc r (order_by_timestamp_desc l')
  end.

End Objects.

(** [str(n)] for an int, and [f'{n:02d}'] for the fields of [strftime]. *)
Definition str_of_int (z : Z) : string := NilZero.string_of_int (Z.to_int z).

Definition two_digits (n : Z) : string :=
  if (n <? 10)%Z then ("0" ++ str_of_int n)%string else str_of_int n.

(** [.date()] of a timestamp, as the number of days since the epoch; times
    are kept in UTC ([TIME_ZONE = 'UTC'], [USE_TZ = True]). *)
Definition date_of (t : Z) : Z := (t / 86400000000)%Z.

(** [timedelta.total_seconds()] of a difference of timestamps. *)
Definition total_seconds (delta : Z) : Q := inject_Z delta / 1000000.

Definition kv (k : string) (v : Py.value) : string * Py.value := (k, v).

(** Results that nest (a dict of dicts, a list of dicts, a tuple). *)
#[warnings="-register-all"] Inductive pyobj : Type :=
| PVal (v : Py.value)
| PBool (b : bool)
| PDate (day : Z)
| PTuple (items : list pyobj)
| PList (items : list pyobj)
| PDict (items : list (string * pyobj)).

Module Obj.

Fixpoint lookup {A : Type} (k : string) (items : list (string * A)) : option A :=
  match items with
  | [] => None
  | (k', v) :: items' => if String.eqb k k' then Some v else lookup k items'
  end.

(** [d.get(k)]; the callers only apply it to dicts. *)
Definition get (k : string) (o : pyobj) : option pyobj :=
  match o with
  | PDict items => lookup k items
  | _ => None
  end.

(** [k in d] *)
Definition contains (k : string) (o : pyobj) : bool :=
  match get k o with Some _ => true | None => false end.

(** [d.get(k, {})] *)
Definition get_or_empty (k : string) (o : pyobj) : pyobj :=
  match get k o with Some v => v | None => PDict [] end.

(** [x == s] for a string [s], [x] the result of a [get]. *)
Definition is_str (x : option pyobj) (s : string) : bool :=
  match x with
  | Some (PVal (Py.VStr s')) => String.eqb s' s
  | _ => false
  end.

Definition str (s : string) : pyobj := PVal (Py.VStr s).
Definition int (z : Z) : pyobj := PVal (Py.VInt z).
Definition float (q : Q) : pyobj := PVal (Py.VFloat q).

(** A flat dict as a nested result. *)
Definition of_dict (d : Py.dict) : pyobj :=
  PDict (map (fun kv => (fst kv, PVal (snd kv))) d).

End Obj.

(** The regression block that [HeartRateProcessor._analyze_trend] and
    [HealthAnalyzer._extract_trend] both contain: the least-squares line of
    the values against [0, 1, ..., n-1], returned as [(slope, r_squared)]. *)
Definition regression (values : list Q) : Q * Q :=
  let x := Np.arange (length values) in
  let y := values in
  let '(slope, intercept) := Np.polyfit1 x y in
  let y_pred := map (fun xi => slope * xi + intercept) x in
  let ss_res :=
    Np.sum (map (fun p => (fst p - snd p) * (fst p - snd p)) (combine y y_pred)) in
  let my := Np.mean y in
  let ss_tot := Np.sum (map (fun yi => (yi - my) * (yi - my)) y) in
  let r_squared :=
    if negb (Qeq_bool ss_tot 0) then 1 - ss_res / ss_tot else 0 in
  (slope, r_squared).

(* ================================================================== *)
(** ** heart_rate_processor.py *)
(* ================================================================== *)

Module HeartRateProcessor.

Definition bpm_values (readings : table) : list Q :=
  map (fun r => inject_Z (hr_bpm r)) readings.

(** [(reading.bpm - mean_bpm) / std_bpm if std_bpm > 0 else 0] *)
Definition z_score (bpm : Z) (mean_bpm std_bpm : Q) : Q :=
  if Py.Qlt_bool 0 std_bpm then (inject_Z bpm - mean_bpm) / std_bpm else 0.

(** The body of the loop over [readings] in [detect_anomalies]. *)
Definition point_anomaly (reading : HeartRateReading) (mean_bpm std_bpm : Q)
  : list Py.dict :=
  let z := z_score (hr_bpm reading) mean_bpm std_bpm in
  if Py.Qlt_bool 3 (Qabs z) then
    let anomaly_type :=
      if Py.Qlt_bool 0 z then "high_heart_rate"%string
      else "low_heart_rate"%string in
    let severity :=
      if Py.Qlt_bool 4 (Qabs z) then "critical"%string
      else "high"%string in
    [[kv "type" (Py.VStr anomaly_type);
      kv "value" (Py.VInt (hr_bpm reading));
      kv "timestamp" (Py.VTime (hr_timestamp reading));
      kv "z_score" (Py.VFloat (Py.round z 2));
      kv "severity" (Py.VStr severity);
      kv "context" (Py.VStr (hr_context reading));
      kv "reading_id" (Py.VStr (hr_id reading))]]
  else [].

Definition point_anomalies (readings : table) (mean_bpm std_bpm : Q)
  : list Py.dict :=
  flat_map (fun r => point_anomaly r mean_bpm std_bpm) readings.

(** The RR intervals of [_detect_hrv_issues]: seconds between consecutive
    readings. *)
Fixpoint rr_intervals (timestamps : list Z) : list Q :=
  match timestamps with
  | t0 :: ((t1 :: _) as tl) => total_seconds (t1 - t0) :: rr_intervals tl
  | _ => []
  end.

(** RMSSD in milliseconds. *)
Definition rmssd `{NumpySqrt} (rr : list Q) : Q :=
  let differences := Np.diff rr in
  let squared_diff := Np.square differences in
  let mean_squared := Np.mean squared_diff in
  np_sqrt mean_squared * 1000.

(** SDNN in milliseconds. *)
Definition sdnn `{NumpySqrt} (rr : list Q) : Q := Np.std rr * 1000.

(** [readings] is the query set that [detect_anomalies] built and passes
    down through [_detect_patterns]; the [readings[-1]] of the two reporting
    branches is therefore an index into a query set. *)
Definition _detect_hrv_issues `{NumpySqrt} (readings : table)
  : result (list Py.dict) :=
  if (length readings <? 30)%nat then Ok []
  else
    let timestamps := map hr_timestamp readings in
    let rr := rr_intervals timestamps in
    if (length rr <? 20)%nat then Ok []
    else
      let rmssd_ms := rmssd rr in
      let sdnn_ms := sdnn rr in
      let low_hrv_threshold := 20%Z in
      let very_low_hrv_threshold := 10%Z in
      if Py.Qlt_bool rmssd_ms (inject_Z very_low_hrv_threshold) then
        last_reading <- Objects.getitem readings (-1) ;;
        Ok [[kv "type" (Py.VStr "very_low_hrv");
             kv "value" (Py.VFloat (Py.round rmssd_ms 1));
             kv "unit" (Py.VStr "ms");
             kv "metric" (Py.VStr "RMSSD");
             kv "threshold" (Py.VInt very_low_hrv_threshold);
             kv "severity" (Py.VStr "high");
             kv "timestamp" (Py.VTime (hr_timestamp last_reading));
             kv "interpretation"
               (Py.VStr "Very low HRV may indicate high stress, fatigue, or illness")]]
      else if Py.Qlt_bool rmssd_ms (inject_Z low_hrv_threshold) then
        last_reading <- Objects.getitem readings (-1) ;;
        Ok [[kv "type" (Py.VStr "low_hrv");
             kv "value" (Py.VFloat (Py.round rmssd_ms 1));
             kv "unit" (Py.VStr "ms");
             kv "metric" (Py.VStr "RMSSD");
             kv "threshold" (Py.VInt low_hrv_threshold);
             kv "severity" (Py.VStr "medium");
             kv "timestamp" (Py.VTime (hr_timestamp last_reading));
             kv "interpretation"
               (Py.VStr "Low HRV may indicate increased stress or poor recovery")]]
      else Ok [].

(** [readings[i:i + window_size]]: a slice of the fetched rows, a list. *)
Definition window_at (readings : table) (i window_size : nat) : table :=
  firstn window_size (skipn i readings).

Definition sustained_high (readings : table) (mean_bpm std_bpm : Q) (i : nat)
  : bool :=
  let window_mean := Np.mean (bpm_values (window_at readings i 10)) in
  Py.Qlt_bool (mean_bpm + 2 * std_bpm) window_mean.

Definition _detect_patterns `{NumpySqrt}
  (readings : table) (mean_bpm std_bpm : Q) : result (list Py.dict) :=
  if (length readings <? 20)%nat then Ok []
  else
    let window_size := 10%nat in
    let sustained :=
      (* the loop stops at the first window that qualifies *)
      match find (sustained_high readings mean_bpm std_bpm)
                 (seq 0 (length readings - window_size + 1)) with
      | Some i =>
          let window := window_at readings i window_size in
          let window_mean := Np.mean (bpm_values window) in
          let t0 := hd 0%Z (map hr_timestamp window) in
          let t1 := last (map hr_timestamp window) 0%Z in
          [[kv "type" (Py.VStr "sustained_high_heart_rate");
            kv "average_value" (Py.VFloat (Py.round window_mean 1));
            kv "start_time" (Py.VTime t0);
            kv "end_time" (Py.VTime t1);
            kv "duration_minutes" (Py.VFloat (total_seconds (t1 - t0) / 60));
            kv "severity" (Py.VStr "medium");
            kv "context" (Py.VStr "sustained_high")]]
      | None => []
      end in
    hrv_anomalies <- _detect_hrv_issues readings ;;
    Ok (sustained ++ hrv_anomalies).

(** One iteration of the loop of [_mark_anomalies_in_database].  The
    detector only builds anomalies whose "type" and "reading_id" are strings;
    for any other shape (where Python would raise) the table is left as it
    is. *)
Definition mark_one (db : table) (anomaly : Py.dict) : table :=
  if Py.contains "reading_id" anomaly then
    match Py.get "reading_id" anomaly, Py.get "type" anomaly with
    | Some (Py.VStr id), Some (Py.VStr ty) =>
        match Objects.get db id with
        | Some reading =>
            Objects.save db
              (mkReading (hr_id reading) (hr_user reading) (hr_bpm reading)
                 (hr_timestamp reading) (hr_context reading) true ty)
        | None => db   (* DoesNotExist: continue *)
        end
    | _, _ => db
    end
  else db.

Definition _mark_anomalies_in_database (db : table) (anomalies : list Py.dict)
  : table :=
  fold_left mark_one anomalies db.

(** [detect_anomalies]: the anomalies returned and the table afterwards, or
    the exception that escapes (nothing is written to the table before it).
    [now] is the value of [timezone.now()]. *)
Definition detect_anomalies `{NumpySqrt} (now : Z) (db : table) (user : N)
  (start_time end_time : option Z) (window_hours : Z)
  : result (list Py.dict * table) :=
  let start_time :=
    match start_time with
    | Some t => t
    | None => (now - window_hours * 3600 * 1000000)%Z
    end in
  let end_time := match end_time with Some t => t | None => now end in
  let readings :=
    Objects.order_by_timestamp (Objects.filter db user start_time end_time) in
  if (length readings <? 10)%nat then Ok ([], db)
  else
    let mean_bpm := Np.mean (bpm_values readings) in
    let std_bpm := Np.std (bpm_values readings) in
    let anomalies := point_anomalies readings mean_bpm std_bpm in
    pattern_anomalies <- _detect_patterns readings mean_bpm std_bpm ;;
    let anomalies := anomalies ++ pattern_anomalies in
    Ok (anomalies, _mark_anomalies_in_database db anomalies).

Definition _interpret_trend (direction : string) (strength : Q) : string :=
  if Py.Qlt_bool strength (3 # 10) then "No clear trend detected."%string
  else if String.eqb direction "up" then
    "Heart rate showing an increasing trend. This may indicate increased stress, dehydration, or illness."%string
  else if String.eqb direction "down" then
    "Heart rate showing a decreasing trend. This may indicate improving fitness or better recovery."%string
  else "Heart rate is stable, which is generally a positive sign."%string.

Definition _analyze_trend (bpm_values : list Q) : Py.dict :=
  if (length bpm_values <? 2)%nat then
    [kv "direction" (Py.VStr "insufficient_data"); kv "strength" (Py.VInt 0)]
  else
    let '(slope, r_squared) := regression bpm_values in
    let direction :=
      if Py.Qlt_bool (1 # 10) slope then "up"%string
      else if Py.Qlt_bool slope (- (1 # 10)) then "down"%string
      else "stable"%string in
    [kv "direction" (Py.VStr direction);
     kv "strength" (Py.VFloat (Py.round r_squared 3));
     kv "slope" (Py.VFloat (Py.round slope 3));
     kv "interpretation" (Py.VStr (_interpret_trend direction r_squared))].

(** [calculate_heart_rate_zones] *)
Definition estimated_max_hr : Z := 180.

(** The zones as fractions of the maximum heart rate, in the order of the
    dict literal. *)
Definition zones : list (string * (Q * Q)) :=
  [("zone_1_recovery"%string, (50 # 100, 60 # 100));
   ("zone_2_aerobic"%string, (60 # 100, 70 # 100));
   ("zone_3_aerobic"%string, (70 # 100, 80 # 100));
   ("zone_4_anaerobic"%string, (80 # 100, 90 # 100));
   ("zone_5_maximum"%string, (90 # 100, 100 # 100))].

(** [d[k] += v] for a key of [d]. *)
Fixpoint add_at (k : string) (v : Q) (d : list (string * Q))
  : list (string * Q) :=
  match d with
  | [] => []
  | (k', x) :: d' =>
      if String.eqb k k' then (k', x + v) :: d'
      else (k', x) :: add_at k v d'
  end.

(** The inner loop: the first zone with
    [min_percent <= hr_percentage < max_percent], if any. *)
Definition zone_of (hr_percentage : Q) : option string :=
  option_map fst
    (find (fun z => Qle_bool (fst (snd z)) hr_percentage
                    && Py.Qlt_bool hr_percentage (snd (snd z))) zones).

(** One iteration of the loop over [range(len(readings) - 1)].  The
    [zone_counts] it also keeps are not part of the result. *)
Definition zone_step (zone_times : list (string * Q))
  (reading next_reading : HeartRateReading) : list (string * Q) :=
  let time_diff :=
    total_seconds (hr_timestamp next_reading - hr_timestamp reading) in
  let hr_percentage := Py.Zdiv_true (hr_bpm reading) estimated_max_hr in
  match zone_of hr_percentage with
  | Some zone_name => add_at zone_name time_diff zone_times
  | None => zone_times
  end.

Fixpoint zone_loop (readings : table) (zone_times : list (string * Q))
  : list (string * Q) :=
  match readings with
  | reading :: ((next_reading :: _) as rest) =>
      zone_loop rest (zone_step zone_times reading next_reading)
  | _ => zone_times
  end.

(** [max(l)] and [min(l)] of a non-empty list of ints. *)
Definition int_max (l : list Z) : Z :=
  match l with
  | [] => 0%Z
  | x :: l' => fold_left Z.max l' x
  end.
Definition int_min (l : list Z) : Z :=
  match l with
  | [] => 0%Z
  | x :: l' => fold_left Z.min l' x
  end.

Definition calculate_heart_rate_zones (db : table) (user : N)
  (activity_start activity_end : Z) : pyobj :=
  let readings :=
    Objects.order_by_timestamp
      (Objects.filter db user activity_start activity_end) in
  if (length readings <? 10)%nat then PDict []
  else
    let zone_times :=
      zone_loop readings (map (fun z => (fst z, 0)) zones) in
    (* Convert times to minutes *)
    let zone_times_minutes :=
      map (fun kt => (fst kt, Py.round (snd kt / 60) 1)) zone_times in
    (* Calculate percentages *)
    let total_time := Py.sum (map snd zone_times) in
    let zone_percentages :=
      map (fun kt =>
             (fst kt,
              Py.round (if Py.Qlt_bool 0 total_time
                        then snd kt / total_time * 100 else 0) 1))
        zone_times in
    PDict
      [("zones"%string,
        PDict (map (fun z => (fst z,
                              PTuple [Obj.float (fst (snd z));
                                      Obj.float (snd (snd z))])) zones));
       ("time_in_zones_minutes"%string,
        PDict (map (fun kt => (fst kt, Obj.float (snd kt))) zone_times_minutes));
       ("percentage_in_zones"%string,
        PDict (map (fun kt => (fst kt, Obj.float (snd kt))) zone_percentages));
       ("estimated_max_hr"%string, Obj.int estimated_max_hr);
       ("average_hr"%string,
        Obj.float (Py.round (Np.mean (bpm_values readings)) 1));
       ("max_hr"%string, Obj.int (int_max (map hr_bpm readings)));
       ("min_hr"%string, Obj.int (int_min (map hr_bpm readings)));
       ("total_readings"%string, Obj.int (Z.of_nat (length readings)));
       ("total_time_minutes"%string,
        Obj.float (Py.round (total_time / 60) 1))].

Definition _interpret_resting_hr (hr : Q) : string :=
  if Py.Qlt_bool hr 40 then "Very low. Consult a healthcare provider."
  else if Py.Qlt_bool hr 50 then
    "Low. May indicate good fitness or bradycardia."
  else if Py.Qlt_bool hr 60 then
    "Excellent. Indicates good cardiovascular fitness."
  else if Py.Qlt_bool hr 70 then "Good. Within healthy range."
  else if Py.Qlt_bool hr 80 then
    "Average. Consider more cardiovascular exercise."
  else if Py.Qlt_bool hr 90 then
    "Above average. May benefit from lifestyle improvements."
  else "High. Consider consulting a healthcare provider.".

Fixpoint insert_sorted (x : Z) (l : list Z) : list Z :=
  match l with
  | [] => [x]
  | y :: l' => if (x <=? y)%Z then x :: y :: l' else y :: insert_sorted x l'
  end.

(** [sorted(l)] for a list of ints. *)
Definition sorted (l : list Z) : list Z := fold_right insert_sorted [] l.

(** Midnight (UTC) at the start of a day. *)
Definition midnight (day : Z) : Z := (day * 86400000000)%Z.

(** The query of [calculate_resting_heart_rate]: the user's readings with
    context 'sleep' or 'rest' of the 24 hours before the start of [date]. *)
Definition resting_readings (db : table) (user : N) (date : Z) : table :=
  let start_time := midnight (date - 1) in
  let end_time := midnight date in
  Objects.order_by_timestamp
    (List.filter
       (fun r => N.eqb (hr_user r) user
                 && Objects.in_range start_time end_time (hr_timestamp r)
                 && (String.eqb (hr_context r) "sleep"
                     || String.eqb (hr_context r) "rest")) db).

(** [calculate_resting_heart_rate] for a given date.  The function calls
    itself for the previous day whenever the day has five readings or more;
    [fuel] bounds the depth of these calls ([None]: not enough of it).  The
    result is [Some None] where the code returns [None]. *)
Fixpoint resting_heart_rate_on (fuel : nat) (db : table) (user : N) (date : Z)
  : option (option pyobj) :=
  match fuel with
  | O => None
  | S fuel' =>
      let readings := resting_readings db user date in
      if (length readings <? 5)%nat then Some None
      else
        (* Take the lowest readings during rest/sleep *)
        let bpm_values := map hr_bpm readings in
        let lowest_readings := firstn 5 (sorted bpm_values) in
        let resting_hr := Np.mean (map inject_Z lowest_readings) in
        (* Calculate trend if we have previous data *)
        match resting_heart_rate_on fuel' db user (date - 1) with
        | None => None
        | Some previous_day =>
            let trend :=
              match previous_day with
              | Some previous =>
                  match Obj.get "value" previous with
                  | Some (PVal (Py.VFloat value)) =>
                      let change := resting_hr - value in
                      Obj.str (if Py.Qlt_bool 0 change then "up"
                               else if Py.Qlt_bool change 0 then "down"
                               else "stable")
                  | _ => PVal Py.VNone
                  end
              | None => PVal Py.VNone
              end in
            Some
              (Some
                 (PDict
                    [("value"%string, Obj.float (Py.round resting_hr 1));
                     ("unit"%string, Obj.str "bpm");
                     ("timestamp"%string, PVal (Py.VTime (midnight date)));
                     ("readings_count"%string,
                      Obj.int (Z.of_nat (length readings)));
                     ("confidence"%string,
                      Obj.float
                        (Py.min 1 (Py.Zdiv_true (Z.of_nat (length readings)) 20)));
                     ("trend"%string, trend);
                     ("optimal_range"%string, PTuple [Obj.int 50; Obj.int 70]);
                     ("interpretation"%string,
                      Obj.str (_interpret_resting_hr resting_hr))]))
        end
  end.

(** Fuel that suffices: one call per day back to the oldest reading, and
    one more. *)
Definition days_back (db : table) (date : Z) : nat :=
  S (Z.to_nat
       (date - fold_right Z.min date (map (fun r => date_of (hr_timestamp r)) db)
        + 1)).

(** [calculate_resting_heart_rate]; [now] is the value of
    [timezone.now()]. *)
Definition calculate_resting_heart_rate (now : Z) (db : table) (user : N)
  (date : option Z) : option pyobj :=
  let date := match date with Some d => d | None => date_of now end in
  match resting_heart_rate_on (days_back db date) db user date with
  | Some result => result
  | None => None
  end.

(** The dates of a query set's rows, ascending and without repetition: the
    groups of [.values('date').annotate(...).order_by('date')]. *)
Fixpoint insert_date (d : Z) (l : list Z) : list Z :=
  match l with
  | [] => [d]
  | x :: l' =>
      if (d <? x)%Z then d :: x :: l'
      else if (d =? x)%Z then x :: l'
      else x :: insert_date d l'
  end.

Definition dates_of (rows : table) : list Z :=
  fold_right insert_date [] (map (fun r => date_of (hr_timestamp r)) rows).

(** [get_heart_rate_trends]; [now] is the value of [timezone.now()].  The
    parameter [metric] is not used by the code. *)
Definition get_heart_rate_trends `{NumpySqrt} (now : Z) (db : table)
  (user : N) (days : Z) (metric : string) : pyobj :=
  let end_date := date_of now in
  let start_date := (end_date - days)%Z in
  (* .filter(user=user, timestamp__date__range=[start_date, end_date]) *)
  let rows :=
    List.filter
      (fun r => N.eqb (hr_user r) user
                && Objects.in_range start_date end_date
                     (date_of (hr_timestamp r))) db in
  (* Aggregate heart rate data by day *)
  let daily_stats :=
    map (fun d =>
           let bpm :=
             map hr_bpm
               (List.filter (fun r => (date_of (hr_timestamp r) =? d)%Z) rows) in
           PDict [("date"%string, PDate d);
                  ("avg_bpm"%string, Obj.float (Np.mean (map inject_Z bpm)));
                  ("min_bpm"%string, Obj.int (int_min bpm));
                  ("max_bpm"%string, Obj.int (int_max bpm));
                  ("count"%string, Obj.int (Z.of_nat (length bpm)))])
      (dates_of rows) in
  match daily_stats with
  | [] => PDict []
  | _ :: _ =>
      (* the same filter, without [order_by]: the model's default ordering,
         newest first *)
      let all_readings := Objects.order_by_timestamp_desc rows in
      match all_readings with
      | [] => PDict []
      | _ :: _ =>
          let all_bpm := map hr_bpm all_readings in
          PDict
            [("period"%string,
              PDict [("start_date"%string, PDate start_date);
                     ("end_date"%string, PDate end_date);
                     ("days"%string, Obj.int days)]);
             ("overall"%string,
              PDict [("average"%string,
                      Obj.float (Py.round (Np.mean (map inject_Z all_bpm)) 1));
                     ("minimum"%string, Obj.int (int_min all_bpm));
                     ("maximum"%string, Obj.int (int_max all_bpm));
                     ("std_dev"%string,
                      Obj.float (Py.round (Np.std (map inject_Z all_bpm)) 1));
                     ("total_readings"%string,
                      Obj.int (Z.of_nat (length all_bpm)))]);
             ("daily_data"%string, PList daily_stats);
             ("trend_analysis"%string,
              Obj.of_dict (_analyze_trend (map inject_Z all_bpm)))]
      end
  end.

End HeartRateProcessor.

(* ================================================================== *)
(** ** models.py: SleepSession *)
(* ================================================================== *)

(** The fields of a [SleepSession] instance that the analysis code reads or
    writes.  On an instance that has not been stored yet [start_time],
    [end_time] and [duration_minutes] may still be [None]. *)
Record SleepSession : Type := mkSleep {
  start_time : option Z;
  end_time : option Z;
  duration_minutes : option Z;
  awake_minutes : Z;
  light_minutes : Z;
  deep_minutes : Z;
  rem_minutes : Z;
  quality_score : option Q;
  quality_category : string;
  interruptions : Z;
  sleep_efficiency : option Q
}.

Module Sleep.

(** [total_sleep_minutes]: total sleep minutes, excluding awake time. *)
Definition total_sleep_minutes (s : SleepSession) : Z :=
  (light_minutes s + deep_minutes s + rem_minutes s)%Z.

Definition deep_sleep_percentage (s : SleepSession) : Q :=
  let total := total_sleep_minutes s in
  if (0 <? total)%Z then Py.Zdiv_true (deep_minutes s) total * 100 else 0.

Definition rem_sleep_percentage (s : SleepSession) : Q :=
  let total := total_sleep_minutes s in
  if (0 <? total)%Z then Py.Zdiv_true (rem_minutes s) total * 100 else 0.

(** [SleepSession.save], up to the call of [super().save()]: the field
    derivations it performs on the instance. *)
Definition save (s : SleepSession) : result SleepSession :=
  (* Calculate duration if not provided *)
  let duration1 :=
    if negb (Py.truthyZ (duration_minutes s)) then
      match start_time s, end_time s with
      | Some t0, Some t1 =>
          let duration := total_seconds (t1 - t0) / 60 in
          Some (Py.int_of duration)
      | _, _ => duration_minutes s
      end
    else duration_minutes s in
  (* Calculate sleep efficiency if not provided *)
  efficiency1 <-
    (if negb (Py.truthyQ (sleep_efficiency s)) then
       match duration1 with
       | None => Raise TypeError            (* [None > 0] *)
       | Some d =>
           if (0 <? d)%Z then
             let total_minutes :=
               (awake_minutes s + light_minutes s + deep_minutes s
                + rem_minutes s)%Z in
             if (0 <? total_minutes)%Z then
               Ok (Some (Py.Zdiv_true total_minutes d * 100))
             else Ok (sleep_efficiency s)
           else Ok (sleep_efficiency s)
       end
     else Ok (sleep_efficiency s)) ;;
  (* Set quality category based on score *)
  let category1 :=
    if Py.truthyQ (quality_score s) && String.eqb (quality_category s) "" then
      let q := Py.orQ (quality_score s) 0 in
      if Qle_bool 85 q then "excellent"%string
      else if Qle_bool 70 q then "good"%string
      else if Qle_bool 50 q then "fair"%string
      else "poor"%string
    else quality_category s in
  Ok (mkSleep (start_time s) (end_time s) duration1 (awake_minutes s)
        (light_minutes s) (deep_minutes s) (rem_minutes s) (quality_score s)
        category1 (interruptions s) efficiency1).

End Sleep.

(** A stored session as [analyze_sleep_session] sees it: the fields above,
    the user it belongs to and the [was_restless] flag. *)
Record SleepSessionRow : Type := mkSleepRow {
  session : SleepSession;
  sleep_user : N;
  was_restless : bool
}.

(* ================================================================== *)
(** ** sleep_processor.py *)
(* ================================================================== *)

Module SleepProcessor.

(** The keys of the [weights] and [scores] dictionaries of
    [_calculate_sleep_score]. *)
Inductive factor : Type :=
| duration
| efficiency
| deep_sleep
| rem_sleep
| interruptions_.

Definition weights : list (factor * Q) :=
  [(duration, 30 # 100); (efficiency, 25 # 100); (deep_sleep, 20 # 100);
   (rem_sleep, 15 # 100); (interruptions_, 10 # 100)].

(** [a <= x <= b], [a <= x < b], [a < x <= b] *)
Definition le_le (a x b : Q) : bool := Qle_bool a x && Qle_bool x b.
Definition le_lt (a x b : Q) : bool := Qle_bool a x && Py.Qlt_bool x b.
Definition lt_le (a x b : Q) : bool := Py.Qlt_bool a x && Qle_bool x b.

Definition _calculate_sleep_score (s : SleepSession) : result Q :=
  match duration_minutes s with
  | None => Raise TypeError                 (* [None / 60] *)
  | Some dm =>
      (* Duration score (optimal: 7-9 hours) *)
      let sleep_hours := Py.Zdiv_true dm 60 in
      let duration_score : Q :=
        if le_le 7 sleep_hours 9 then 100
        else if le_lt 6 sleep_hours 7 || lt_le 9 sleep_hours 10 then 70
        else if le_lt 5 sleep_hours 6 || lt_le 10 sleep_hours 11 then 40
        else 20 in
      (* Efficiency score *)
      let eff :=
        Py.orQ (sleep_efficiency s)
          (if (0 <? dm)%Z
           then Py.Zdiv_true (Sleep.total_sleep_minutes s) dm * 100
           else 0) in
      let efficiency_score : Q :=
        if Qle_bool 90 eff then 100
        else if Qle_bool 85 eff then 85
        else if Qle_bool 75 eff then 60
        else 30 in
      (* Deep sleep score (optimal: 15-25% of total sleep) *)
      let deep_sleep_percentage := Sleep.deep_sleep_percentage s in
      let deep_sleep_score : Q :=
        if le_le 15 deep_sleep_percentage 25 then 100
        else if le_lt 10 deep_sleep_percentage 15
                || lt_le 25 deep_sleep_percentage 30 then 70
        else if le_lt 5 deep_sleep_percentage 10
                || lt_le 30 deep_sleep_percentage 35 then 40
        else 20 in
      (* REM sleep score (optimal: 20-25% of total sleep) *)
      let rem_sleep_percentage := Sleep.rem_sleep_percentage s in
      let rem_sleep_score : Q :=
        if le_le 20 rem_sleep_percentage 25 then 100
        else if le_lt 15 rem_sleep_percentage 20
                || lt_le 25 rem_sleep_percentage 30 then 70
        else if le_lt 10 rem_sleep_percentage 15
                || lt_le 30 rem_sleep_percentage 35 then 40
        else 20 in
      (* Interruption score (optimal: <3 interruptions) *)
      let n := interruptions s in
      let interruptions_score : Q :=
        if (n <=? 2)%Z then 100
        else if (n <=? 5)%Z then 70
        else if (n <=? 10)%Z then 40
        else 10 in
      let scores (f : factor) : Q :=
        match f with
        | duration => duration_score
        | efficiency => efficiency_score
        | deep_sleep => deep_sleep_score
        | rem_sleep => rem_sleep_score
        | interruptions_ => interruptions_score
        end in
      (* Calculate weighted score *)
      let total_score :=
        Py.sum (map (fun fw => scores (fst fw) * snd fw) weights) in
      Ok (Py.round total_score 1)
  end.

Definition _analyze_sleep_efficiency (s : SleepSession) : result Py.dict :=
  eff <-
    (if Py.truthyQ (sleep_efficiency s) then Ok (Py.orQ (sleep_efficiency s) 0)
     else
       match duration_minutes s with
       | None => Raise TypeError            (* [None > 0] *)
       | Some dm =>
           Ok (if (0 <? dm)%Z
               then Py.Zdiv_true (Sleep.total_sleep_minutes s) dm * 100
               else 0)
       end) ;;
  let '(status, message) :=
    if Qle_bool 90 eff then ("excellent"%string, "Very efficient sleep"%string)
    else if Qle_bool 85 eff then ("good"%string, "Efficient sleep"%string)
    else if Qle_bool 75 eff then
      ("fair"%string, "Moderate sleep efficiency"%string)
    else
      ("poor"%string,
       "Low sleep efficiency - consider improving sleep habits"%string) in
  Ok [kv "efficiency_percentage" (Py.VFloat (Py.round eff 1));
      kv "status" (Py.VStr status);
      kv "message" (Py.VStr message);
      kv "time_in_bed_minutes"
        (match duration_minutes s with
         | Some dm => Py.VInt dm
         | None => Py.VNone
         end);
      kv "actual_sleep_minutes" (Py.VInt (Sleep.total_sleep_minutes s))].

Definition evaluation (status message : string) : pyobj :=
  PDict [("status"%string, Obj.str status);
         ("message"%string, Obj.str message)].

Definition _analyze_sleep_stages (s : SleepSession) : result pyobj :=
  let total_sleep := Sleep.total_sleep_minutes s in
  if (total_sleep =? 0)%Z then
    Ok (PDict
          [("status"%string, Obj.str "no_sleep_data");
           ("recommendations"%string,
            PList [Obj.str "Ensure sleep tracking is enabled on your device."])])
  else
    match duration_minutes s with
    | None => Raise TypeError               (* [None > 0] *)
    | Some dm =>
        (* Calculate percentages *)
        let awake_percentage :=
          if (0 <? dm)%Z then Py.Zdiv_true (awake_minutes s) dm * 100 else 0 in
        let light_percentage :=
          if (0 <? total_sleep)%Z
          then Py.Zdiv_true (light_minutes s) total_sleep * 100 else 0 in
        let deep_percentage := Sleep.deep_sleep_percentage s in
        let rem_percentage := Sleep.rem_sleep_percentage s in
        (* Awake time evaluation *)
        let awake_evaluation :=
          if Qle_bool awake_percentage 5 then
            evaluation "excellent" "Minimal awake time during sleep"
          else if Qle_bool awake_percentage 10 then
            evaluation "good" "Normal awake time"
          else if Qle_bool awake_percentage 20 then
            evaluation "fair" "Slightly elevated awake time"
          else evaluation "poor" "High awake time during sleep" in
        (* Deep sleep evaluation *)
        let deep_evaluation :=
          if le_le 15 deep_percentage 25 then
            evaluation "excellent" "Optimal deep sleep"
          else if le_lt 10 deep_percentage 15 || lt_le 25 deep_percentage 30 then
            evaluation "good" "Adequate deep sleep"
          else if le_lt 5 deep_percentage 10 || lt_le 30 deep_percentage 35 then
            evaluation "fair" "Moderate deep sleep"
          else evaluation "poor" "Insufficient deep sleep" in
        (* REM sleep evaluation *)
        let rem_evaluation :=
          if le_le 20 rem_percentage 25 then
            evaluation "excellent" "Optimal REM sleep"
          else if le_lt 15 rem_percentage 20 || lt_le 25 rem_percentage 30 then
            evaluation "good" "Adequate REM sleep"
          else if le_lt 10 rem_percentage 15 || lt_le 30 rem_percentage 35 then
            evaluation "fair" "Moderate REM sleep"
          else evaluation "poor" "Insufficient REM sleep" in
        Ok (PDict
              [("percentages"%string,
                PDict [("awake"%string, Obj.float (Py.round awake_percentage 1));
                       ("light"%string, Obj.float (Py.round light_percentage 1));
                       ("deep"%string, Obj.float (Py.round deep_percentage 1));
                       ("rem"%string, Obj.float (Py.round rem_percentage 1))]);
               ("evaluations"%string,
                PDict [("awake"%string, awake_evaluation);
                       ("deep"%string, deep_evaluation);
                       ("rem"%string, rem_evaluation)]);
               ("total_sleep_minutes"%string, Obj.int total_sleep);
               ("duration_minutes"%string, Obj.int dm)])
    end.

(** The query of [_analyze_heart_rate_during_sleep]: the user's readings
    with context 'sleep' between start and end, by ascending timestamp.  A
    bound that is NULL matches no row. *)
Definition sleep_readings (db : table) (row : SleepSessionRow) : table :=
  match start_time (session row), end_time (session row) with
  | Some t0, Some t1 =>
      Objects.order_by_timestamp
        (List.filter
           (fun r => N.eqb (hr_user r) (sleep_user row)
                     && Objects.in_range t0 t1 (hr_timestamp r)
                     && String.eqb (hr_context r) "sleep") db)
  | _, _ => []
  end.

(** The body of the [try]; nothing in it raises on rows of the table, so the
    [except] branch (database errors) is left out. *)
Definition _analyze_heart_rate_during_sleep `{NumpySqrt}
  (db : table) (row : SleepSessionRow) : pyobj :=
  let heart_rate_readings := sleep_readings db row in
  match heart_rate_readings with
  | [] =>
      PDict [("status"%string, Obj.str "no_data");
             ("message"%string, Obj.str "No heart rate data during sleep")]
  | _ :: _ =>
      let bpm_values := map hr_bpm heart_rate_readings in
      (* Calculate statistics *)
      let avg_hr := Np.mean (map inject_Z bpm_values) in
      let min_hr := HeartRateProcessor.int_min bpm_values in
      let max_hr := HeartRateProcessor.int_max bpm_values in
      let hr_std := Np.std (map inject_Z bpm_values) in
      (* Evaluate resting heart rate during sleep *)
      let '(resting_hr_status, message) :=
        if Py.Qlt_bool 70 avg_hr then
          ("elevated"%string,
           "Elevated heart rate during sleep may indicate stress or poor recovery"%string)
        else if Py.Qlt_bool avg_hr 40 then
          ("low"%string, "Very low heart rate during sleep"%string)
        else ("normal"%string, "Normal heart rate during sleep"%string) in
      (* Check for heart rate variability *)
      let '(hrv_status, message) :=
        if Py.Qlt_bool hr_std 5 then
          ("low_variability"%string,
           (message ++ ". Low heart rate variability detected.")%string)
        else if Py.Qlt_bool 15 hr_std then
          ("high_variability"%string,
           (message ++ ". High heart rate variability detected.")%string)
        else ("normal"%string, message) in
      PDict [("average_bpm"%string, Obj.float (Py.round avg_hr 1));
             ("minimum_bpm"%string, Obj.int min_hr);
             ("maximum_bpm"%string, Obj.int max_hr);
             ("variability_std"%string, Obj.float (Py.round hr_std 2));
             ("readings_count"%string,
              Obj.int (Z.of_nat (length bpm_values)));
             ("resting_hr_status"%string, Obj.str resting_hr_status);
             ("hrv_status"%string, Obj.str hrv_status);
             ("message"%string, Obj.str message);
             ("optimal_range"%string, Obj.str "40-70 BPM")]
  end.

Definition issue (type severity description : string)
  (suggestions : list string) : pyobj :=
  PDict [("type"%string, Obj.str type);
         ("severity"%string, Obj.str severity);
         ("description"%string, Obj.str description);
         ("suggestions"%string, PList (map Obj.str suggestions))].

Definition _detect_sleep_issues (row : SleepSessionRow) (analysis : pyobj)
  : list pyobj :=
  let sleep_session := session row in
  (* Check for insomnia patterns *)
  let insomnia :=
    if (60 <? awake_minutes sleep_session)%Z
       || (10 <? interruptions sleep_session)%Z then
      [issue "potential_insomnia" "medium"
         "Extended awake time or frequent interruptions"
         ["Establish a consistent sleep schedule"%string;
          "Avoid screens 1 hour before bed"%string;
          "Create a relaxing bedtime routine"%string]]
    else [] in
  (* Check for insufficient deep sleep *)
  let stage_analysis := Obj.get_or_empty "stage_analysis" analysis in
  let deep :=
    match Obj.get "evaluations" stage_analysis with
    | Some evaluations =>
        let deep_eval := Obj.get_or_empty "deep" evaluations in
        if Obj.is_str (Obj.get "status" deep_eval) "poor" then
          [issue "insufficient_deep_sleep" "medium"
             "Deep sleep is below optimal levels"
             ["Avoid caffeine after 2 PM"%string;
              "Ensure complete darkness in bedroom"%string;
              "Maintain cool room temperature (18-20Â°C)"%string]]
        else []
    | None => []
    end in
  (* Check for sleep efficiency issues *)
  let efficiency_analysis := Obj.get_or_empty "efficiency_analysis" analysis in
  let low_efficiency :=
    if Obj.is_str (Obj.get "status" efficiency_analysis) "poor" then
      [issue "low_sleep_efficiency" "low"
         "Spending too much time in bed awake"
         ["Only go to bed when sleepy"%string;
          "Get out of bed if awake for more than 20 minutes"%string;
          "Use bed only for sleep and intimacy"%string]]
    else [] in
  (* Check for restless sleep *)
  let restless :=
    if was_restless row then
      [issue "restless_sleep" "low" "Restless sleep detected"
         ["Practice relaxation techniques before bed"%string;
          "Consider magnesium supplements"%string;
          "Ensure comfortable bedding"%string]]
    else [] in
  insomnia ++ deep ++ low_efficiency ++ restless.

Definition recommendation (category priority title description : string)
  (actions : list string) : pyobj :=
  PDict [("category"%string, Obj.str category);
         ("priority"%string, Obj.str priority);
         ("title"%string, Obj.str title);
         ("description"%string, Obj.str description);
         ("actions"%string, PList (map Obj.str actions))].

(** [x in ['fair', 'poor']] *)
Definition fair_or_poor (x : option pyobj) : bool :=
  Obj.is_str x "fair" || Obj.is_str x "poor".

Definition _generate_sleep_recommendations
  (stage_analysis efficiency_analysis heart_rate_analysis : pyobj)
  : list pyobj :=
  (* Stage-based recommendations *)
  let stage_based :=
    match Obj.get "evaluations" stage_analysis with
    | Some evaluations =>
        (if fair_or_poor (Obj.get "status" (Obj.get_or_empty "deep" evaluations))
         then
           [recommendation "deep_sleep" "medium" "Improve Deep Sleep"
              "Deep sleep is crucial for physical recovery and memory consolidation."
              ["Exercise regularly but finish at least 3 hours before bedtime"%string;
               "Limit alcohol consumption, especially close to bedtime"%string;
               "Maintain a consistent sleep schedule"%string]]
         else [])
        ++
        (if fair_or_poor (Obj.get "status" (Obj.get_or_empty "rem" evaluations))
         then
           [recommendation "rem_sleep" "medium" "Enhance REM Sleep"
              "REM sleep is important for emotional processing and memory."
              ["Reduce stress through meditation or journaling"%string;
               "Ensure adequate total sleep time (7-9 hours)"%string;
               "Avoid sleeping pills that can suppress REM sleep"%string]]
         else [])
    | None => []
    end in
  (* Efficiency-based recommendations *)
  let efficiency_based :=
    if fair_or_poor (Obj.get "status" efficiency_analysis) then
      [recommendation "efficiency" "high" "Increase Sleep Efficiency"
         "Improve the percentage of time in bed actually spent sleeping."
         ["Establish a relaxing pre-sleep routine"%string;
          "Keep your bedroom dark, quiet, and cool"%string;
          "Avoid naps longer than 30 minutes during the day"%string]]
    else [] in
  (* Heart rate-based recommendations *)
  let heart_rate_based :=
    if Obj.is_str (Obj.get "resting_hr_status" heart_rate_analysis) "elevated"
    then
      [recommendation "heart_rate" "medium"
         "Lower Resting Heart Rate During Sleep"
         "Elevated heart rate during sleep may indicate stress or poor recovery."
         ["Practice deep breathing exercises before bed"%string;
          "Avoid heavy meals close to bedtime"%string;
          "Consider tracking stress levels and addressing stressors"%string]]
    else [] in
  stage_based ++ efficiency_based ++ heart_rate_based.

Definition analyze_sleep_session `{NumpySqrt} (db : table)
  (row : SleepSessionRow) : result pyobj :=
  let sleep_session := session row in
  overall_score <-
    (if Py.truthyQ (quality_score sleep_session)
     then Ok (Py.orQ (quality_score sleep_session) 0)
     else _calculate_sleep_score sleep_session) ;;
  (* Analyze sleep stages *)
  stage_analysis <- _analyze_sleep_stages sleep_session ;;
  (* Analyze sleep efficiency *)
  efficiency_dict <- _analyze_sleep_efficiency sleep_session ;;
  let efficiency_analysis := Obj.of_dict efficiency_dict in
  (* Get heart rate during sleep *)
  let heart_rate_analysis := _analyze_heart_rate_during_sleep db row in
  (* Generate recommendations *)
  let recommendations :=
    _generate_sleep_recommendations stage_analysis efficiency_analysis
      heart_rate_analysis in
  let analysis :=
    [("overall_score"%string, Obj.float overall_score);
     ("stage_analysis"%string, stage_analysis);
     ("efficiency_analysis"%string, efficiency_analysis);
     ("consistency_analysis"%string, PDict []);
     ("recommendations"%string, PList recommendations);
     ("heart_rate_analysis"%string, heart_rate_analysis)] in
  (* Detect sleep issues *)
  let issues := _detect_sleep_issues row (PDict analysis) in
  Ok (PDict (analysis ++ [("issues"%string, PList issues)])).

(** [_calculate_time_variation], on the timestamps whose times of day it is
    given. *)
Definition _calculate_time_variation `{NumpySqrt} (times : list Z) : Q :=
  if (length times <? 2)%nat then 0
  else
    (* Convert times to minutes since midnight *)
    let minutes_list :=
      map (fun t => inject_Z ((t / 3600000000) mod 24 * 60
                              + (t / 60000000) mod 60)%Z) times in
    (* Calculate standard deviation *)
    Np.std minutes_list.

(** [_identify_sleep_patterns], on the start time and the duration of each
    session.  Day 0 (1 January 1970) was a Thursday, weekday 3. *)
Definition _identify_sleep_patterns (sleep_sessions : list (Z * Z))
  : list pyobj :=
  (* Check for weekend oversleep *)
  let weekday t := ((date_of t + 3) mod 7)%Z in
  let weekday_sleep :=
    flat_map (fun s => if (weekday (fst s) <? 5)%Z
                       then [inject_Z (snd s)] else []) sleep_sessions in
  let weekend_sleep :=
    flat_map (fun s => if (weekday (fst s) <? 5)%Z
                       then [] else [inject_Z (snd s)]) sleep_sessions in
  let catchup :=
    match weekday_sleep, weekend_sleep with
    | _ :: _, _ :: _ =>
        let avg_weekday := Np.mean weekday_sleep in
        let avg_weekend := Np.mean weekend_sleep in
        if Py.Qlt_bool 60 (avg_weekend - avg_weekday) then
          [PDict [("type"%string, Obj.str "weekend_catchup");
                  ("description"%string,
                   Obj.str "Sleeping significantly longer on weekends");
                  ("interpretation"%string,
                   Obj.str "May indicate sleep deprivation during weekdays");
                  ("difference_minutes"%string,
                   Obj.int (Py.round_half_even (avg_weekend - avg_weekday)))]]
        else []
    | _, _ => []
    end in
  (* Check for late bedtimes *)
  let late_nights :=
    length (List.filter (fun s => (23 <=? (fst s / 3600000000) mod 24)%Z)
              sleep_sessions) in
  let late :=
    if Py.Qlt_bool (1 # 2)
         (Py.Zdiv_true (Z.of_nat late_nights) (Z.of_nat (length sleep_sessions)))
    then
      [PDict [("type"%string, Obj.str "late_bedtimes");
              ("description"%string,
               Obj.str "Consistently going to bed after 11 PM");
              ("interpretation"%string,
               Obj.str "May affect sleep quality and circadian rhythm")]]
    else [] in
  catchup ++ late.

Definition _generate_pattern_recommendations
  (avg_duration avg_efficiency duration_std bedtime_variation : Q)
  : list string :=
  (* Duration recommendations *)
  (if Py.Qlt_bool avg_duration 420 then
     ["Aim for 7-9 hours of sleep per night for optimal health."%string]
   else if Py.Qlt_bool 540 avg_duration then
     ["Consider if excessive sleep is needed or if there's an underlying health issue."%string]
   else [])
  (* Efficiency recommendations *)
  ++ (if Py.Qlt_bool avg_efficiency 85 then
        ["Improve sleep efficiency by creating a better sleep environment and routine."%string]
      else [])
  (* Consistency recommendations *)
  ++ (if Py.Qlt_bool 120 duration_std then
        ["Try to maintain more consistent sleep duration each night."%string]
      else [])
  ++ (if Py.Qlt_bool 120 bedtime_variation then
        ["Establish a consistent bedtime, even on weekends."%string]
      else []).

Fixpoint insert_by_start (r : Z * SleepSessionRow)
  (l : list (Z * SleepSessionRow)) : list (Z * SleepSessionRow) :=
  match l with
  | [] => [r]
  | x :: l' =>
      if (fst r <=? fst x)%Z then r :: x :: l' else x :: insert_by_start r l'
  end.

(** [.order_by('start_time')] *)
Fixpoint order_by_start (l : list (Z * SleepSessionRow))
  : list (Z * SleepSessionRow) :=
  match l with
  | [] => []
  | r :: l' => insert_by_start r (order_by_start l')
  end.

(** The sessions [analyze_sleep_patterns] works on, each with its start
    time: the user's sessions that start in the period, by ascending start
    time.  A session whose start is NULL matches no date range. *)
Definition period_sessions (now : Z) (db : list SleepSessionRow) (user : N)
  (days : Z) : list (Z * SleepSessionRow) :=
  let end_date := date_of now in
  let start_date := (end_date - days)%Z in
  order_by_start
    (flat_map
       (fun row =>
          match start_time (session row) with
          | Some t =>
              if N.eqb (sleep_user row) user
                 && Objects.in_range start_date end_date (date_of t)
              then [(t, row)] else []
          | None => []
          end) db).

(** [Avg(column)] over the rows where the column is not NULL, then
    [... or 0]. *)
Definition avg_or_0 (values : list Q) : Q :=
  match values with
  | [] => 0
  | _ :: _ => Np.mean values
  end.

(** The values of an optional column that are not NULL. *)
Definition non_null {A : Type} (column : SleepSession -> option A)
  (rows : list (Z * SleepSessionRow)) : list A :=
  flat_map (fun r => match column (session (snd r)) with
                     | Some v => [v]
                     | None => []
                     end) rows.

Definition consistency_label (x : Q) : string :=
  if Py.Qlt_bool x 60 then "high"
  else if Py.Qlt_bool x 120 then "medium" else "low".

(** [analyze_sleep_patterns]; [now] is the value of [timezone.now()].
    [None]: the call fails, which it does when a session of the period has
    no duration or no end time (columns that are NOT NULL in the table). *)
Definition analyze_sleep_patterns `{NumpySqrt} (now : Z)
  (db : list SleepSessionRow) (user : N) (days : Z) : option pyobj :=
  let end_date := date_of now in
  let start_date := (end_date - days)%Z in
  let sleep_sessions := period_sessions now db user days in
  match sleep_sessions with
  | [] =>
      Some (PDict [("status"%string, Obj.str "no_data");
                   ("message"%string,
                    Obj.str ("No sleep data for the last "
                             ++ str_of_int days ++ " days"))])
  | _ :: _ =>
      (* Calculate statistics *)
      let total_sessions := length sleep_sessions in
      let avg_duration :=
        avg_or_0 (map inject_Z (non_null duration_minutes sleep_sessions)) in
      let avg_efficiency := avg_or_0 (non_null sleep_efficiency sleep_sessions) in
      let avg_score := avg_or_0 (non_null quality_score sleep_sessions) in
      let durations := non_null duration_minutes sleep_sessions in
      let waketimes := non_null end_time sleep_sessions in
      if negb (length durations =? total_sessions)%nat
         || negb (length waketimes =? total_sessions)%nat
      then None
      else
        (* Analyze consistency *)
        let duration_std :=
          if (1 <? length durations)%nat
          then Np.std (map inject_Z durations) else 0 in
        (* Bedtime consistency *)
        let bedtimes := map fst sleep_sessions in
        let bedtime_variation := _calculate_time_variation bedtimes in
        (* Wake time consistency *)
        let waketime_variation := _calculate_time_variation waketimes in
        (* Sleep debt calculation *)
        let optimal_hours : Q := 75 # 10 in
        let sleep_debt :=
          Py.sum (map (fun d => Py.max 0 (optimal_hours - Py.Zdiv_true d 60))
                    durations) in
        (* Identify patterns *)
        let patterns :=
          _identify_sleep_patterns (combine bedtimes durations) in
        Some
          (PDict
             [("period"%string,
               PDict [("start_date"%string, PDate start_date);
                      ("end_date"%string, PDate end_date);
                      ("days"%string, Obj.int days)]);
              ("overview"%string,
               PDict [("total_nights"%string,
                       Obj.int (Z.of_nat total_sessions));
                      ("average_duration_hours"%string,
                       Obj.float (Py.round (avg_duration / 60) 1));
                      ("average_efficiency"%string,
                       Obj.float (Py.round avg_efficiency 1));
                      ("average_score"%string,
                       Obj.float (Py.round avg_score 1));
                      ("sleep_debt_hours"%string,
                       Obj.float (Py.round sleep_debt 1))]);
              ("consistency"%string,
               PDict [("duration_consistency"%string,
                       Obj.str (consistency_label duration_std));
                      ("duration_std_minutes"%string,
                       Obj.float (Py.round duration_std 1));
                      ("bedtime_consistency"%string,
                       Obj.str (consistency_label bedtime_variation));
                      ("bedtime_variation_minutes"%string,
                       Obj.float bedtime_variation);
                      ("waketime_consistency"%string,
                       Obj.str (consistency_label waketime_variation));
                      ("waketime_variation_minutes"%string,
                       Obj.float waketime_variation)]);
              ("patterns"%string, PList patterns);
              ("recommendations"%string,
               PList (map Obj.str
                        (_generate_pattern_recommendations avg_duration
                           avg_efficiency duration_std bedtime_variation)))])
  end.

End SleepProcessor.

(* ================================================================== *)
(** ** models.py: DailySummary;  health_analyzer.py *)
(* ================================================================== *)

(** The fields of [DailySummary] read by the health score and the trend
    extraction. *)
Record DailySummary : Type := mkSummary {
  date : Z;
  total_steps : option Z;
  avg_heart_rate : option Q;
  resting_heart_rate : option Z;
  sleep_duration_minutes : option Z;
  sleep_score : option Q;
  recovery_score : option Q;
  overall_score : option Q
}.

(** A row of [daily_summaries]: the fields above, the user it belongs to and
    the [is_complete] flag. *)
Record DailySummaryRow : Type := mkSummaryRow {
  summary : DailySummary;
  summary_user : N;
  is_complete : bool
}.

Module HealthAnalyzer.

Inductive category : Type :=
| activity
| sleep
| heart
| recovery.

Definition weights : list (category * Q) :=
  [(activity, 35 # 100); (sleep, 35 # 100); (heart, 20 # 100);
   (recovery, 10 # 100)].

Definition le_le := SleepProcessor.le_le.
Definition le_lt := SleepProcessor.le_lt.
Definition lt_le := SleepProcessor.lt_le.

Definition _calculate_daily_health_score (daily_summary : DailySummary) : Q :=
  (* Activity score (based on steps) *)
  let steps := Py.orZ (total_steps daily_summary) 0 in
  let step_goal := 10000%Z in
  let activity_score := Py.min 100 (Py.Zdiv_true steps step_goal * 100) in
  (* Sleep score *)
  let sleep_score_ : Q :=
    if Py.truthyQ (sleep_score daily_summary) then
      Py.orQ (sleep_score daily_summary) 0
    else if Py.truthyZ (sleep_duration_minutes daily_summary) then
      let sleep_hours :=
        Py.Zdiv_true (Py.orZ (sleep_duration_minutes daily_summary) 0) 60 in
      if le_le 7 sleep_hours 9 then 90
      else if le_lt 6 sleep_hours 7 || lt_le 9 sleep_hours 10 then 70
      else if le_lt 5 sleep_hours 6 || lt_le 10 sleep_hours 11 then 50
      else 30
    else 50 in
  (* Heart score *)
  let heart_score : Q :=
    if Py.truthyZ (resting_heart_rate daily_summary) then
      let resting_hr := Py.orZ (resting_heart_rate daily_summary) 0 in
      if (resting_hr <? 60)%Z then 90
      else if (resting_hr <? 70)%Z then 80
      else if (resting_hr <? 80)%Z then 70
      else 50
    else 70 in
  (* Recovery score *)
  let recovery_score_ : Q :=
    if Py.truthyQ (recovery_score daily_summary) then
      Py.orQ (recovery_score daily_summary) 0
    else 75 in
  let scores (c : category) : Q :=
    match c with
    | activity => activity_score
    | sleep => sleep_score_
    | heart => heart_score
    | recovery => recovery_score_
    end in
  (* Calculate weighted score *)
  let total_score :=
    Py.sum (map (fun cw => scores (fst cw) * snd cw) weights) in
  Py.round total_score 1.

(** The columns [_extract_trend] is called with. *)
Inductive field : Type :=
| f_total_steps
| f_sleep_duration_minutes
| f_avg_heart_rate
| f_overall_score.

(** [float(getattr(summary, field))], [None] when the column is null. *)
Definition getattr (summary : DailySummary) (f : field) : option Q :=
  match f with
  | f_total_steps => option_map inject_Z (total_steps summary)
  | f_sleep_duration_minutes =>
      option_map inject_Z (sleep_duration_minutes summary)
  | f_avg_heart_rate => avg_heart_rate summary
  | f_overall_score => overall_score summary
  end.

(** The non-null values of the column, in query order. *)
Definition field_values (daily_summaries : list DailySummary) (f : field)
  : list Q :=
  flat_map
    (fun summary =>
       match getattr summary f with
       | Some value => [value]
       | None => []
       end) daily_summaries.

(** [min(values)] / [max(values)] of a non-empty list. *)
Definition list_min (l : list Q) : Q :=
  match l with
  | [] => 0
  | x :: l' => fold_left Py.min l' x
  end.
Definition list_max (l : list Q) : Q :=
  match l with
  | [] => 0
  | x :: l' => fold_left Py.max l' x
  end.

Definition _extract_trend `{NumpySqrt}
  (daily_summaries : list DailySummary) (f : field) : Py.dict :=
  let values := field_values daily_summaries f in
  if (length values <? 2)%nat then
    [kv "status" (Py.VStr "insufficient_data");
     kv "count" (Py.VInt (Z.of_nat (length values)))]
  else
    (* Calculate basic statistics *)
    let avg_value := Np.mean values in
    let std_value := Np.std values in
    (* Linear regression and R-squared *)
    let '(slope, r_squared) := regression values in
    (* Determine trend direction *)
    let direction :=
      if Py.Qlt_bool 0 slope && Py.Qlt_bool (3 # 10) r_squared then
        "increasing"%string
      else if Py.Qlt_bool slope 0 && Py.Qlt_bool (3 # 10) r_squared then
        "decreasing"%string
      else "stable"%string in
    (* Calculate percentage change *)
    let first_value := hd 0 values in
    let last_value := last values 0 in
    let percentage_change :=
      if negb (Qeq_bool first_value 0) then
        (last_value - first_value) / first_value * 100
      else 0 in
    [kv "average" (Py.VFloat (Py.round avg_value 2));
     kv "standard_deviation" (Py.VFloat (Py.round std_value 2));
     kv "trend_direction" (Py.VStr direction);
     kv "trend_strength" (Py.VFloat (Py.round r_squared 3));
     kv "slope" (Py.VFloat (Py.round slope 4));
     kv "percentage_change" (Py.VFloat (Py.round percentage_change 2));
     kv "data_points" (Py.VInt (Z.of_nat (length values)));
     kv "current_value" (Py.VFloat (last values 0));
     kv "min_value" (Py.VFloat (list_min values));
     kv "max_value" (Py.VFloat (list_max values))].

(** [t.strftime("%H:%M")]; times are kept in UTC ([TIME_ZONE = 'UTC'],
    [USE_TZ = True]). *)
Definition strftime_HM (t : Z) : string :=
  (two_digits ((t / 3600000000) mod 24) ++ ":"
   ++ two_digits ((t / 60000000) mod 60))%string.

(** ['critical' in s] *)
Definition contains_critical (s : string) : bool :=
  match String.index 0 "critical" s with
  | Some _ => true
  | None => false
  end.

(** [_check_recent_anomalies]; [now] is [self.now], [user] is [self.user]. *)
Definition _check_recent_anomalies (now : Z) (db : table) (user : N)
  : list pyobj :=
  (* Check heart rate anomalies in last 24 hours *)
  let yesterday := (now - 24 * 3600 * 1000000)%Z in
  let heart_rate_anomalies :=
    Objects.order_by_timestamp_desc
      (List.filter
         (fun r => N.eqb (hr_user r) user
                   && (yesterday <=? hr_timestamp r)%Z
                   && hr_is_anomaly r) db) in
  map (fun anomaly =>
         PDict
           [("type"%string, Obj.str (hr_anomaly_type anomaly));
            ("severity"%string,
             Obj.str (if contains_critical (hr_anomaly_type anomaly)
                      then "high" else "medium"));
            ("title"%string, Obj.str "Heart Rate Anomaly Detected");
            ("message"%string,
             Obj.str ("Unusual heart rate of " ++ str_of_int (hr_bpm anomaly)
                      ++ " BPM detected at "
                      ++ strftime_HM (hr_timestamp anomaly))%string);
            ("metric_value"%string, Obj.int (hr_bpm anomaly));
            ("metric_unit"%string, Obj.str "BPM");
            ("related_model"%string, Obj.str "HeartRateReading");
            ("related_id"%string, Obj.str (hr_id anomaly))])
    heart_rate_anomalies.

(** [t.hour * 60 + t.minute] of a timestamp (UTC). *)
Definition minute_of_day (t : Z) : Z :=
  ((t / 3600000000) mod 24 * 60 + (t / 60000000) mod 60)%Z.

(** [_calculate_consistency_scores].  [daily_summaries] is the query set
    ordered by date, [sleep_sessions] the table of sleep sessions, [user] is
    [self.user].  [None]: the call fails (on an empty query set [first()] is
    [None], which has no [date]). *)
Definition _calculate_consistency_scores `{NumpySqrt}
  (daily_summaries : list DailySummary) (sleep_sessions : list SleepSessionRow)
  (user : N) : option pyobj :=
  (* Steps consistency *)
  let steps_values :=
    flat_map (fun s => if Py.truthyZ (total_steps s)
                       then [inject_Z (Py.orZ (total_steps s) 0)] else [])
      daily_summaries in
  let steps :=
    match steps_values with
    | [] => []
    | _ :: _ =>
        let steps_std := Np.std steps_values in
        [("steps"%string,
          PDict [("score"%string,
                  Obj.float (Py.max 0 (100 - steps_std / 2000 * 100)));
                 ("std"%string, Obj.float (Py.round steps_std 1));
                 ("interpretation"%string,
                  Obj.str (if Py.Qlt_bool steps_std 1000 then "high"
                           else if Py.Qlt_bool steps_std 2000 then "medium"
                           else "low"))])]
    end in
  (* Sleep consistency *)
  let sleep_values :=
    flat_map (fun s => if Py.truthyZ (sleep_duration_minutes s)
                       then [inject_Z (Py.orZ (sleep_duration_minutes s) 0)]
                       else [])
      daily_summaries in
  let sleep :=
    match sleep_values with
    | [] => []
    | _ :: _ =>
        let sleep_std := Np.std sleep_values in
        [("sleep"%string,
          PDict [("score"%string,
                  Obj.float (Py.max 0 (100 - sleep_std / 120 * 100)));
                 ("std"%string, Obj.float (Py.round sleep_std 1));
                 ("interpretation"%string,
                  Obj.str (if Py.Qlt_bool sleep_std 60 then "high"
                           else if Py.Qlt_bool sleep_std 120 then "medium"
                           else "low"))])]
    end in
  (* Bedtime consistency (if we have sleep session data) *)
  match daily_summaries with
  | [] => None
  | first :: _ =>
      let last := List.last daily_summaries first in
      let sessions :=
        flat_map
          (fun row =>
             match start_time (session row) with
             | Some t =>
                 if N.eqb (sleep_user row) user
                    && Objects.in_range (date first) (date last) (date_of t)
                 then [t] else []
             | None => []
             end) sleep_sessions in
      let bedtime :=
        match sessions with
        | [] => []
        | _ :: _ =>
            let bedtimes := map (fun t => inject_Z (minute_of_day t)) sessions in
            let bedtime_std := Np.std bedtimes in
            [("bedtime"%string,
              PDict [("score"%string,
                      Obj.float (Py.max 0 (100 - bedtime_std / 60 * 100)));
                     ("std_minutes"%string, Obj.float (Py.round bedtime_std 1));
                     ("interpretation"%string,
                      Obj.str (if Py.Qlt_bool bedtime_std 30 then "high"
                               else if Py.Qlt_bool bedtime_std 60 then "medium"
                               else "low"))])]
        end in
      Some (PDict (steps ++ sleep ++ bedtime))
  end.

(** [f'{x:.0f}'] *)
Definition format_0f (x : Q) : string :=
  ((if Py.Qlt_bool x 0 then "-" else "")
   ++ str_of_int (Py.round_half_even (Qabs x)))%string.

Definition overall_insight (type title description : string)
  (confidence health_score : Q) : pyobj :=
  PDict [("type"%string, Obj.str type);
         ("category"%string, Obj.str "overall");
         ("title"%string, Obj.str title);
         ("description"%string, Obj.str description);
         ("confidence"%string, Obj.float confidence);
         ("data_points"%string,
          PDict [("score"%string, Obj.float (Py.round health_score 1))])].

(** [_analyze_overall_health_insights]: the insights and the summary as it
    is saved. *)
Definition _analyze_overall_health_insights (daily_summary : DailySummaryRow)
  : list pyobj * DailySummaryRow :=
  (* Calculate overall health score *)
  let health_score := _calculate_daily_health_score (summary daily_summary) in
  let '(scored, daily_summary) :=
    if negb (Qeq_bool health_score 0) then
      let d := summary daily_summary in
      let daily_summary :=
        mkSummaryRow
          (mkSummary (date d) (total_steps d) (avg_heart_rate d)
             (resting_heart_rate d) (sleep_duration_minutes d) (sleep_score d)
             (recovery_score d) (Some health_score))
          (summary_user daily_summary) (is_complete daily_summary) in
      let prefix :=
        ("Your overall health score of " ++ format_0f health_score
         ++ "/100 ")%string in
      if Qle_bool 80 health_score then
        ([overall_insight "achievement" "Excellent Health Day"
            (prefix ++ "indicates a very healthy day!") (9 # 10) health_score],
         daily_summary)
      else if Qle_bool 60 health_score then
        ([overall_insight "progress" "Good Health Day"
            (prefix ++ "shows a solid day.") (8 # 10) health_score],
         daily_summary)
      else
        ([overall_insight "recommendation" "Room for Improvement"
            (prefix ++ "suggests areas to focus on.") (8 # 10) health_score],
         daily_summary)
    else ([], daily_summary) in
  (* Check for complete data *)
  let incomplete :=
    if negb (is_complete daily_summary) then
      [PDict [("type"%string, Obj.str "info");
              ("category"%string, Obj.str "overall");
              ("title"%string, Obj.str "Incomplete Data");
              ("description"%string,
               Obj.str "Some health metrics may be missing for today.");
              ("confidence"%string, Obj.float (7 # 10));
              ("data_points"%string,
               PDict [("is_complete"%string, PBool false)])]]
    else [] in
  (scored ++ incomplete, daily_summary).

(** [f'{x:.1f}'] *)
Definition format_1f (x : Q) : string :=
  let tenths := Py.round_half_even (Qabs x * 10) in
  ((if Py.Qlt_bool x 0 then "-" else "")
   ++ str_of_int (tenths / 10) ++ "." ++ str_of_int (tenths mod 10))%string.

(** [date.weekday()]: Monday is 0; day 0 (1 January 1970) was a Thursday. *)
Definition weekday (day : Z) : Z := ((day + 3) mod 7)%Z.

Definition _identify_health_patterns (daily_summaries : list DailySummary)
  : list pyobj :=
  (* Weekend vs weekday patterns *)
  let weekday_steps :=
    flat_map (fun s => if (weekday (date s) <? 5)%Z && Py.truthyZ (total_steps s)
                       then [inject_Z (Py.orZ (total_steps s) 0)] else [])
      daily_summaries in
  let weekend_steps :=
    flat_map (fun s => if negb (weekday (date s) <? 5)%Z
                          && Py.truthyZ (total_steps s)
                       then [inject_Z (Py.orZ (total_steps s) 0)] else [])
      daily_summaries in
  let activity :=
    match weekday_steps, weekend_steps with
    | _ :: _, _ :: _ =>
        let avg_weekday := Np.mean weekday_steps in
        let avg_weekend := Np.mean weekend_steps in
        if Py.Qlt_bool 2000 (avg_weekend - avg_weekday) then
          [PDict [("type"%string, Obj.str "weekend_activity_surge");
                  ("description"%string,
                   Obj.str "Significantly more active on weekends");
                  ("difference"%string,
                   Obj.int (Py.round_half_even (avg_weekend - avg_weekday)));
                  ("interpretation"%string,
                   Obj.str "May indicate sedentary work week")]]
        else if Py.Qlt_bool 2000 (avg_weekday - avg_weekend) then
          [PDict [("type"%string, Obj.str "weekend_activity_dip");
                  ("description"%string, Obj.str "Less active on weekends");
                  ("difference"%string,
                   Obj.int (Py.round_half_even (avg_weekday - avg_weekend)));
                  ("interpretation"%string,
                   Obj.str "Consider adding weekend activities")]]
        else []
    | _, _ => []
    end in
  (* Sleep patterns *)
  let sleep_durations :=
    flat_map (fun s => if Py.truthyZ (sleep_duration_minutes s)
                       then [inject_Z (Py.orZ (sleep_duration_minutes s) 0)]
                       else [])
      daily_summaries in
  let sleep_ :=
    match sleep_durations with
    | [] => []
    | _ :: _ =>
        let avg_sleep := Np.mean sleep_durations in
        if Py.Qlt_bool avg_sleep 420 then
          [PDict [("type"%string, Obj.str "chronic_sleep_deficit");
                  ("description"%string,
                   Obj.str "Consistently getting less than 7 hours of sleep");
                  ("average_hours"%string,
                   Obj.float (Py.round (avg_sleep / 60) 1));
                  ("interpretation"%string,
                   Obj.str "Consider prioritizing sleep duration")]]
        else []
    end in
  activity ++ sleep_.

Definition trend_insight (type category title description : string)
  (confidence : Q) : pyobj :=
  PDict [("type"%string, Obj.str type);
         ("category"%string, Obj.str category);
         ("title"%string, Obj.str title);
         ("description"%string, Obj.str description);
         ("confidence"%string, Obj.float confidence)].

(** [trend.get('trend_direction') == direction] *)
Definition direction_is (trend : Py.dict) (direction : string) : bool :=
  match Py.get "trend_direction" trend with
  | Some (Py.VStr d) => String.eqb d direction
  | _ => false
  end.

(** [trend.get('percentage_change', 0)] *)
Definition percentage_change (trend : Py.dict) : Q :=
  match Py.get "percentage_change" trend with
  | Some (Py.VFloat q) => q
  | _ => 0
  end.

(** [trends.get(metric, {})] *)
Definition trend_of (trends : list (string * Py.dict)) (metric : string)
  : Py.dict :=
  match Obj.lookup metric trends with
  | Some trend => trend
  | None => []
  end.

Definition _generate_trend_insights (trends : list (string * Py.dict))
  (consistency : pyobj) (patterns : list pyobj) : list pyobj :=
  (* Step trend insights *)
  let steps_trend := trend_of trends "steps" in
  let steps :=
    if direction_is steps_trend "increasing"
       && Py.Qlt_bool 10 (percentage_change steps_trend) then
      [trend_insight "achievement" "activity" "Improving Activity Level"
         ("Your step count has increased by "
          ++ format_1f (percentage_change steps_trend)
          ++ "% over this period.") (9 # 10)]
    else if direction_is steps_trend "decreasing"
            && Py.Qlt_bool (percentage_change steps_trend) (- (10)) then
      [trend_insight "warning" "activity" "Declining Activity Level"
         ("Your step count has decreased by "
          ++ format_1f (Qabs (percentage_change steps_trend))
          ++ "% over this period.") (8 # 10)]
    else [] in
  (* Sleep trend insights *)
  let sleep_trend := trend_of trends "sleep_duration" in
  let sleep_ :=
    if direction_is sleep_trend "increasing"
       && Py.Qlt_bool 10 (percentage_change sleep_trend) then
      [trend_insight "achievement" "sleep" "Improving Sleep Habits"
         "You're consistently getting more sleep over time." (9 # 10)]
    else [] in
  (* Consistency insights *)
  let steps_consistency := Obj.get_or_empty "steps" consistency in
  let consistent :=
    if Obj.is_str (Obj.get "interpretation" steps_consistency) "high" then
      [trend_insight "pattern" "activity" "Consistent Activity Level"
         "You maintain very consistent daily step counts." (8 # 10)]
    else [] in
  (* Pattern insights *)
  let from_patterns :=
    flat_map
      (fun pattern =>
         if Obj.is_str (Obj.get "type" pattern) "weekend_activity_dip" then
           [trend_insight "recommendation" "activity"
              "Weekend Activity Opportunity"
              "Consider adding more movement to your weekends." (7 # 10)]
         else if Obj.is_str (Obj.get "type" pattern) "chronic_sleep_deficit"
         then
           [trend_insight "recommendation" "sleep" "Prioritize Sleep Duration"
              "Aim for at least 7 hours of sleep each night." (9 # 10)]
         else [])
      patterns in
  steps ++ sleep_ ++ consistent ++ from_patterns.

Definition _generate_trend_summary (trends : list (string * Py.dict))
  (consistency : pyobj) : pyobj :=
  (* Evaluate overall trend *)
  let improving_count :=
    length (List.filter
              (fun mt => direction_is (snd mt) "increasing"
                         && negb (String.eqb (fst mt) "heart_rate")) trends) in
  let declining_count :=
    length (List.filter
              (fun mt => negb (direction_is (snd mt) "increasing"
                               && negb (String.eqb (fst mt) "heart_rate"))
                         && direction_is (snd mt) "decreasing") trends) in
  let overall_trend :=
    if (declining_count <? improving_count)%nat then "improving"%string
    else if (improving_count <? declining_count)%nat then "declining"%string
    else "stable"%string in
  (* Identify strengths *)
  let steps_trend := trend_of trends "steps" in
  let sleep_trend := trend_of trends "sleep_duration" in
  let key_strengths :=
    (if direction_is steps_trend "increasing"
     then ["Increasing physical activity"%string] else [])
    ++ (if direction_is sleep_trend "increasing"
        then ["Improving sleep duration"%string] else []) in
  (* Identify areas for improvement *)
  let heart_trend := trend_of trends "heart_rate" in
  let areas_for_improvement :=
    (if direction_is heart_trend "increasing"
     then ["Managing heart rate levels"%string] else [])
    ++ (if direction_is steps_trend "decreasing"
        then ["Maintaining activity levels"%string] else []) in
  (* Generate recommendations *)
  let recommendations :=
    (if existsb (String.eqb "Managing heart rate levels") areas_for_improvement
     then ["Consider stress management techniques"%string] else [])
    ++ (if existsb (String.eqb "Maintaining activity levels")
             areas_for_improvement
        then ["Set small, achievable activity goals"%string] else []) in
  PDict [("overall_trend"%string, Obj.str overall_trend);
         ("key_strengths"%string, PList (map Obj.str key_strengths));
         ("areas_for_improvement"%string,
          PList (map Obj.str areas_for_improvement));
         ("recommendations"%string, PList (map Obj.str recommendations))].

Fixpoint insert_by_date (r : DailySummaryRow) (l : list DailySummaryRow)
  : list DailySummaryRow :=
  match l with
  | [] => [r]
  | x :: l' =>
      if (date (summary r) <=? date (summary x))%Z then r :: x :: l'
      else x :: insert_by_date r l'
  end.

(** [.order_by('date')] *)
Fixpoint order_by_date (l : list DailySummaryRow) : list DailySummaryRow :=
  match l with
  | [] => []
  | r :: l' => insert_by_date r (order_by_date l')
  end.

(** [analyze_health_trends]; [now] is [self.now], [user] is [self.user],
    [db] the table of daily summaries.  [None]: the call fails. *)
Definition analyze_health_trends `{NumpySqrt} (now : Z)
  (db : list DailySummaryRow) (sleep_sessions : list SleepSessionRow)
  (user : N) (days : Z) : option pyobj :=
  let end_date := date_of now in
  let start_date := (end_date - days)%Z in
  (* Get daily summaries for the period *)
  let daily_summaries :=
    map summary
      (order_by_date
         (List.filter
            (fun r => N.eqb (summary_user r) user
                      && Objects.in_range start_date end_date
                           (date (summary r))) db)) in
  match daily_summaries with
  | [] =>
      Some (PDict [("status"%string, Obj.str "no_data");
                   ("message"%string,
                    Obj.str ("No health data for the last " ++ str_of_int days
                             ++ " days"))])
  | _ :: _ =>
      (* Extract trends for different metrics *)
      let trends :=
        [("steps"%string, _extract_trend daily_summaries f_total_steps);
         ("sleep_duration"%string,
          _extract_trend daily_summaries f_sleep_duration_minutes);
         ("heart_rate"%string, _extract_trend daily_summaries f_avg_heart_rate);
         ("overall_score"%string,
          _extract_trend daily_summaries f_overall_score)] in
      (* Calculate consistency scores *)
      match _calculate_consistency_scores daily_summaries sleep_sessions user
      with
      | None => None
      | Some consistency =>
          (* Identify patterns *)
          let patterns := _identify_health_patterns daily_summaries in
          (* Generate trend insights *)
          let trend_insights :=
            _generate_trend_insights trends consistency patterns in
          Some
            (PDict
               [("period"%string,
                 PDict [("start_date"%string, PDate start_date);
                        ("end_date"%string, PDate end_date);
                        ("days"%string, Obj.int days)]);
                ("trends"%string,
                 PDict (map (fun mt => (fst mt, Obj.of_dict (snd mt))) trends));
                ("consistency"%string, consistency);
                ("patterns"%string, PList patterns);
                ("insights"%string, PList trend_insights);
                ("summary"%string, _generate_trend_summary trends consistency)])
      end
  end.

End HealthAnalyzer.

(* ================================================================== *)
(** ** models.py: HealthGoal and Activity *)
(* ================================================================== *)

(** The columns of [HealthGoal] that [save] reads or writes. *)
Record HealthGoal : Type := mkGoal {
  goal_id : string;
  goal_user : N;
  target_value : Q;
  current_value : Q;
  progress_percentage : Q;
  is_completed : bool;
  completed_at : option Z;
  is_primary : bool
}.

Module Goal.

(** The [health_goals] table: its rows in storage order. *)
Definition goals : Type := list HealthGoal.

Definition with_primary (g : HealthGoal) (b : bool) : HealthGoal :=
  mkGoal (goal_id g) (goal_user g) (target_value g) (current_value g)
    (progress_percentage g) (is_completed g) (completed_at g) b.

(** [HealthGoal.objects.filter(user=self.user, is_primary=True)
      .exclude(id=self.id).update(is_primary=False)] *)
Definition unset_other_primaries (db : goals) (self : HealthGoal) : goals :=
  map (fun g =>
         if N.eqb (goal_user g) (goal_user self) && is_primary g
            && negb (String.eqb (goal_id g) (goal_id self))
         then with_primary g false else g) db.

(** [super().save()]: an update of the row with this primary key, or an
    insert when there is none. *)
Definition write (db : goals) (self : HealthGoal) : goals :=
  if existsb (fun g => String.eqb (goal_id g) (goal_id self)) db then
    map (fun g => if String.eqb (goal_id g) (goal_id self) then self else g) db
  else db ++ [self].

(** [HealthGoal.save]: the instance and the table afterwards.  [now] is the
    value of [timezone.now()]. *)
Definition save (now : Z) (db : goals) (self : HealthGoal)
  : HealthGoal * goals :=
  (* Calculate progress percentage *)
  let progress :=
    if Py.Qlt_bool 0 (target_value self) then
      Py.min 100 (current_value self / target_value self * 100)
    else progress_percentage self in
  (* Check if goal is completed *)
  let '(completed, at_) :=
    if negb (is_completed self) && Qle_bool 100 progress then
      (true, Some now)
    else (is_completed self, completed_at self) in
  let self :=
    mkGoal (goal_id self) (goal_user self) (target_value self)
      (current_value self) progress completed at_ (is_primary self) in
  (* Ensure only one primary goal per user *)
  let db :=
    if is_primary self then unset_other_primaries db self else db in
  (self, write db self).

End Goal.

(** The columns of [Activity] that [save] reads or writes. *)
Record Activity : Type := mkActivity {
  act_start_time : option Z;
  act_end_time : option Z;
  act_duration_minutes : option Z;
  distance_km : option Q;
  avg_speed_kmh : option Q;
  avg_pace_min_per_km : option Q
}.

Module Act.

(** [Activity.save], up to the call of [super().save()]: the field
    derivations it performs on the instance. *)
Definition save (a : Activity) : result Activity :=
  (* Calculate duration if not provided *)
  let duration1 :=
    if negb (Py.truthyZ (act_duration_minutes a)) then
      match act_start_time a, act_end_time a with
      | Some t0, Some t1 =>
          let duration := total_seconds (t1 - t0) / 60 in
          Some (Py.int_of duration)
      | _, _ => act_duration_minutes a
      end
    else act_duration_minutes a in
  (* Calculate pace if distance and duration are available *)
  pace1 <-
    (if negb (Py.truthyQ (avg_pace_min_per_km a)) && Py.truthyQ (distance_km a)
     then
       match duration1 with
       | None => Raise TypeError            (* [None > 0] *)
       | Some d =>
           if (0 <? d)%Z
           then Ok (Some (inject_Z d / Py.orQ (distance_km a) 0))
           else Ok (avg_pace_min_per_km a)
       end
     else Ok (avg_pace_min_per_km a)) ;;
  (* Calculate average speed if distance and duration are available *)
  speed1 <-
    (if negb (Py.truthyQ (avg_speed_kmh a)) && Py.truthyQ (distance_km a)
     then
       match duration1 with
       | None => Raise TypeError
       | Some d =>
           if (0 <? d)%Z
           then Ok (Some (Py.orQ (distance_km a) 0 / inject_Z d * 60))
           else Ok (avg_speed_kmh a)
       end
     else Ok (avg_speed_kmh a)) ;;
  Ok (mkActivity (act_start_time a) (act_end_time a) duration1
        (distance_km a) speed1 pace1).

End Act.

(* ================================================================== *)
(** ** Vocabulary of the properties, and the inputs they are run on *)
(* ================================================================== *)

(** The readings [detect_anomalies] analyses: the user's rows in the time
    window, by ascending timestamp. *)
Definition window_readings (now : Z) (db : table) (user : N)
  (start_time end_time : option Z) (window_hours : Z) : table :=
  let start_time :=
    match start_time with
    | Some t => t
    | None => (now - window_hours * 3600 * 1000000)%Z
    end in
  let end_time := match end_time with Some t => t | None => now end in
  Objects.order_by_timestamp (Objects.filter db user start_time end_time).

(** The dictionary [a] reports the reading [r]. *)
Definition reports (a : Py.dict) (r : HeartRateReading) : Prop :=
  Py.get "reading_id" a = Some (Py.VStr (hr_id r)) /\
  Py.get "value" a = Some (Py.VInt (hr_bpm r)) /\
  Py.get "timestamp" a = Some (Py.VTime (hr_timestamp r)).


(** A minute-by-minute series of [n] resting readings of user 1, [base] bpm
    throughout except [spike] bpm at index 5. *)
Definition reading_at (base spike : Z) (i : nat) : HeartRateReading :=
  mkReading (String (Ascii.ascii_of_nat (65 + i)) EmptyString) 1%N
    (if Nat.eqb i 5 then spike else base) (Z.of_nat i * 60000000)%Z
    "rest" false "".

Definition series (base spike : Z) (n : nat) : table :=
  map (reading_at base spike) (seq 0 n).

(** A reading without its processing fields: what the detector reads. *)
Definition erase (r : HeartRateReading) : HeartRateReading :=
  mkReading (hr_id r) (hr_user r) (hr_bpm r) (hr_timestamp r) (hr_context r)
    false "".

(** The reading ids an anomaly list names, in order. *)
Definition reading_ids (anomalies : list Py.dict) : list string :=
  flat_map
    (fun a =>
       match Py.get "reading_id" a with
       | Some (Py.VStr id) => [id]
       | _ => []
       end) anomalies.

(** The row [r] after the marking of one anomaly. *)
Definition set_flag (r : HeartRateReading) (ty : string) : HeartRateReading :=
  mkReading (hr_id r) (hr_user r) (hr_bpm r) (hr_timestamp r) (hr_context r)
    true ty.

Definition mark_row (a : Py.dict) (r : HeartRateReading) : HeartRateReading :=
  if Py.contains "reading_id" a then
    match Py.get "reading_id" a, Py.get "type" a with
    | Some (Py.VStr id), Some (Py.VStr ty) =>
        if String.eqb (hr_id r) id then set_flag r ty else r
    | _, _ => r
    end
  else r.

(** The row [r] after the marking of a list of anomalies. *)
Definition mark_rows (anomalies : list Py.dict) (r : HeartRateReading)
  : HeartRateReading :=
  fold_left (fun r a => mark_row a r) anomalies r.

(** The analysis part of [detect_anomalies]: the anomalies of a window. *)
Definition analysis `{NumpySqrt} (readings : table) : result (list Py.dict) :=
  let mean_bpm := Np.mean (HeartRateProcessor.bpm_values readings) in
  let std_bpm := Np.std (HeartRateProcessor.bpm_values readings) in
  pattern_anomalies <-
    HeartRateProcessor._detect_patterns readings mean_bpm std_bpm ;;
  Ok (HeartRateProcessor.point_anomalies readings mean_bpm std_bpm
      ++ pattern_anomalies).

(** Daily summaries, one per consecutive day, that record only step counts. *)
Definition summaries_of_steps (steps : list Z) : list DailySummary :=
  map (fun p => mkSummary (Z.of_nat (fst p)) (Some (snd p)) None None None
                  None None None)
    (combine (seq 0 (length steps)) steps).

(** The noisy, flat week of the specification. *)
Definition noisy_flat_steps : list Z := [4000; 4200; 3900; 4100; 4050]%Z.

(** The piecewise factor tables of the sleep score, as nested bands around
    the optimal range of each factor. *)
Definition within (lo x hi : Q) : bool := Qle_bool lo x && Qle_bool x hi.

Definition duration_factor (sleep_hours : Q) : Q :=
  if within 7 sleep_hours 9 then 100
  else if within 6 sleep_hours 10 then 70
  else if within 5 sleep_hours 11 then 40
  else 20.

Definition efficiency_factor (efficiency : Q) : Q :=
  if Qle_bool 90 efficiency then 100
  else if Qle_bool 85 efficiency then 85
  else if Qle_bool 75 efficiency then 60
  else 30.

Definition deep_factor (deep_percentage : Q) : Q :=
  if within 15 deep_percentage 25 then 100
  else if within 10 deep_percentage 30 then 70
  else if within 5 deep_percentage 35 then 40
  else 20.

Definition rem_factor (rem_percentage : Q) : Q :=
  if within 20 rem_percentage 25 then 100
  else if within 15 rem_percentage 30 then 70
  else if within 10 rem_percentage 35 then 40
  else 20.

Definition interruption_factor (n : Z) : Q :=
  if (n <=? 2)%Z then 100
  else if (n <=? 5)%Z then 70
  else if (n <=? 10)%Z then 40
  else 10.

(** The efficiency the processors work with: the stored one, or, when that is
    missing, sleep minutes (awake time excluded) over the duration [dm]. *)
Definition effective_efficiency (s : SleepSession) (dm : Z) : Q :=
  Py.orQ (sleep_efficiency s)
    (if (0 <? dm)%Z
     then Py.Zdiv_true (light_minutes s + deep_minutes s + rem_minutes s) dm * 100
     else 0).

Definition weighted_sleep_score (s : SleepSession) (dm : Z) : Q :=
  duration_factor (Py.Zdiv_true dm 60) * (30 # 100)
  + efficiency_factor (effective_efficiency s dm) * (25 # 100)
  + deep_factor (Sleep.deep_sleep_percentage s) * (20 # 100)
  + rem_factor (Sleep.rem_sleep_percentage s) * (15 # 100)
  + interruption_factor (interruptions s) * (10 # 100).

(** The session of the specification's scenario. *)
Definition scenario_session : SleepSession :=
  mkSleep None None (Some 420%Z) 20 210 90 100 None "" 1 (Some 95).

(** A night whose weighted sum has a second decimal: efficiency 87 scores
    85, which weighs 21.25. *)
Definition quarter_point_night : SleepSession :=
  mkSleep None None (Some 480%Z) 0 55 20 25 None "" 0 (Some 87).

(** A night of 8 hours in bed with stored efficiency 95 and no
    interruptions, split into the given stage minutes. *)
Definition night (light deep rem : Z) : SleepSession :=
  mkSleep None None (Some 480%Z) 0 light deep rem None "" 0 (Some 95).

(** Sessions that carry stage minutes only. *)
Definition stages_only (duration : option Z) : SleepSession :=
  mkSleep None None duration 20 210 90 100 None "" 1 None.




(* ================================================================== *)
(** ** Vocabulary of the further properties *)
(* ================================================================== *)

(** The quantities of [regression], named. *)
Definition reg_sxx (values : list Q) : Q :=
  let x := Np.arange (length values) in
  Np.sum (map (fun a => (a - Np.mean x) * (a - Np.mean x)) x).

Definition reg_sxy (values : list Q) : Q :=
  let x := Np.arange (length values) in
  Np.sum (map (fun p => (fst p - Np.mean x) * (snd p - Np.mean values))
            (combine x values)).

Definition reg_ss_tot (values : list Q) : Q :=
  Np.sum (map (fun yi => (yi - Np.mean values) * (yi - Np.mean values)) values).

Definition reg_ss_res (values : list Q) : Q :=
  let x := Np.arange (length values) in
  let slope := fst (regression values) in
  let intercept := Np.mean values - slope * Np.mean x in
  Np.sum (map (fun p => (fst p - snd p) * (fst p - snd p))
            (combine values (map (fun xi => slope * xi + intercept) x))).

(** The series [values] lies on the line [a + b * i], [i] the position. *)
Definition on_line (a b : Q) (values : list Q) : Prop :=
  Forall2 (fun xi yi => yi == a + b * xi) (Np.arange (length values)) values.



(** The float stored under [k] in the dict stored under [section]. *)
Definition entry (report : pyobj) (section k : string) : option Q :=
  match Obj.get section report with
  | Some d =>
      match Obj.get k d with
      | Some (PVal (Py.VFloat q)) => Some q
      | _ => None
      end
  | None => None
  end.

Definition float_at (report : pyobj) (k : string) : option Q :=
  match Obj.get k report with
  | Some (PVal (Py.VFloat q)) => Some q
  | _ => None
  end.

(** Ten readings of user 1, one a minute, all at [bpm]. *)
Definition steady_readings (bpm : Z) : table :=
  map (fun i => mkReading (String (Ascii.ascii_of_nat (65 + i)) EmptyString)
                  1%N bpm (Z.of_nat i * 60000000)%Z "workout" false "")
    (seq 0 10).


(** The values stored under [k] in the dicts of the list stored under
    [section]: the types of the issues, the categories of the
    recommendations. *)
Definition listed (analysis : pyobj) (section k : string) : list string :=
  match Obj.get section analysis with
  | Some (PList items) =>
      flat_map
        (fun item =>
           match Obj.get k item with
           | Some (PVal (Py.VStr v)) => [v]
           | _ => []
           end) items
  | _ => []
  end.

Definition issue_types (analysis : pyobj) : list string :=
  listed analysis "issues" "type".

Definition recommendation_categories (analysis : pyobj) : list string :=
  listed analysis "recommendations" "category".

(** The label that goes with a factor of the sleep score. *)
Definition label_of_factor (factor : Q) : string :=
  if Qle_bool 100 factor then "excellent"
  else if Qle_bool 70 factor then "good"
  else if Qle_bool 40 factor then "fair"
  else "poor".

(** The status stored under [section] (and, within it, under the stage). *)
Definition status_of (analysis : pyobj) (section : string)
  (stage : option string) : option pyobj :=
  match Obj.get section analysis with
  | Some a =>
      match stage with
      | Some st =>
          Obj.get "status"
            (Obj.get_or_empty st (Obj.get_or_empty "evaluations" a))
      | None => Obj.get "status" a
      end
  | None => None
  end.

(** A night of eight hours with far more deep sleep than the optimal range
    (300 of 470 sleep minutes), for user 1. *)
Definition deep_heavy_night : SleepSessionRow :=
  mkSleepRow (mkSleep (Some 0%Z) (Some 28800000000%Z) (Some 480%Z) 10 100 300 70
                None "" 0 None) 1%N false.

(** Readings of user 1 during that night, context 'sleep', at the given
    bpm, one an hour. *)
Definition sleep_bpm (bpm : list Z) : table :=
  map (fun p => mkReading (String (Ascii.ascii_of_nat (65 + fst p)) EmptyString)
                  1%N (snd p) (Z.of_nat (fst p) * 3600000000)%Z "sleep" false "")
    (combine (seq 0 (length bpm)) bpm).

(** The primary goals of a user. *)
Definition primary_goals (db : Goal.goals) (user : N) : Goal.goals :=
  List.filter (fun g => N.eqb (goal_user g) user && is_primary g) db.

(** Two goals of user 1, the first primary, and a third to be saved as
    primary. *)
Definition two_goals : Goal.goals :=
  [mkGoal "a" 1%N 10000 2500 25 false None true;
   mkGoal "b" 1%N 8 8 100 true (Some 5%Z) false].

Definition third_goal : HealthGoal :=
  mkGoal "c" 1%N 30 45 0 false None true.


(** Timestamps never increase along the list: the newest reading first. *)
Fixpoint descending (readings : table) : Prop :=
  match readings with
  | reading :: ((next_reading :: _) as rest) =>
      (hr_timestamp next_reading <= hr_timestamp reading)%Z /\ descending rest
  | _ => True
  end.

(** The readings [get_heart_rate_trends] analyses: the user's readings of
    the last [days] days and today, in the order the query returns them. *)
Definition trend_readings (now : Z) (db : table) (user : N) (days : Z) : table :=
  Objects.order_by_timestamp_desc
    (List.filter
       (fun r => N.eqb (hr_user r) user
                 && Objects.in_range (date_of now - days)%Z (date_of now)
                      (date_of (hr_timestamp r))) db).

(** A reading every hour for user 1, at the given bpm, oldest first. *)
Definition hourly (bpm : list Z) : table :=
  map (fun p => mkReading (String (Ascii.ascii_of_nat (65 + fst p)) EmptyString)
                  1%N (snd p) (Z.of_nat (fst p) * 3600000000)%Z "rest" false "")
    (combine (seq 0 (length bpm)) bpm).

(** A week of daily summaries with the given step counts and sleep
    durations, from day 0 on. *)
Definition week_of (days : list (Z * Z)) : list DailySummary :=
  map (fun p => mkSummary (Z.of_nat (fst p)) (Some (fst (snd p))) None None
                  (Some (snd (snd p))) None None None)
    (combine (seq 0 (length days)) days).

(** The daily summaries [analyze_health_trends] works on: the user's rows
    of the period, by ascending date. *)
Definition period_summaries (now : Z) (db : list DailySummaryRow) (user : N)
  (days : Z) : list DailySummary :=
  map summary
    (HealthAnalyzer.order_by_date
       (List.filter
          (fun r => N.eqb (summary_user r) user
                    && Objects.in_range (date_of now - days)%Z (date_of now)
                         (date (summary r))) db)).

(** What the report of [analyze_health_trends] says about a metric's trend,
    and the entries of its summary. *)
Definition reported_trend (report : pyobj) (metric k : string) : option pyobj :=
  Obj.get k (Obj.get_or_empty metric (Obj.get_or_empty "trends" report)).

Definition summary_entry (report : pyobj) (k : string) : option pyobj :=
  Obj.get k (Obj.get_or_empty "summary" report).

Definition summary_list (report : pyobj) (k : string) : list string :=
  match summary_entry report k with
  | Some (PList items) =>
      flat_map (fun item =>
                  match item with
                  | PVal (Py.VStr s) => [s]
                  | _ => []
                  end) items
  | _ => []
  end.

Definition insight_titles (report : pyobj) : list string :=
  listed report "insights" "title".

(** Five days of user 1 with constant steps and sleep and an average heart
    rate that falls by 2 bpm a day. *)
Definition falling_heart_rate : list DailySummaryRow :=
  map (fun i => mkSummaryRow
                  (mkSummary (Z.of_nat i) (Some 8000%Z)
                     (Some (80 - 2 * inject_Z (Z.of_nat i))) None
                     (Some 450%Z) None None None) 1%N true)
    (seq 0 5).

(** The five lowest bpm among the resting readings of a day. *)
Definition five_lowest (db : table) (user : N) (date : Z) : list Z :=
  firstn 5 (HeartRateProcessor.sorted
              (map hr_bpm (HeartRateProcessor.resting_readings db user date))).

(** Six resting readings of user 1 in the night before day [day], at the
    given bpm. *)
Definition night_before (day : Z) (bpm : list Z) : table :=
  map (fun p => mkReading
                  (String (Ascii.ascii_of_nat (65 + Z.to_nat day))
                     (String (Ascii.ascii_of_nat (65 + fst p)) EmptyString))
                  1%N (snd p)
                  (HeartRateProcessor.midnight day
                   - Z.of_nat (S (fst p)) * 3600000000)%Z
                  "sleep" false "")
    (combine (seq 0 (length bpm)) bpm).

(** The strings of the list stored under [k]. *)
Definition strings_at (report : pyobj) (k : string) : list string :=
  match Obj.get k report with
  | Some (PList items) =>
      flat_map (fun item =>
                  match item with
                  | PVal (Py.VStr s) => [s]
                  | _ => []
                  end) items
  | _ => []
  end.

(** The durations of the sessions of the period. *)
Definition period_durations (now : Z) (db : list SleepSessionRow) (user : N)
  (days : Z) : list Z :=
  SleepProcessor.non_null duration_minutes
    (SleepProcessor.period_sessions now db user days).

(** Nights of user 1 (from day 1 on, from 22:00), of the given durations,
    recorded without stage minutes and so without an efficiency. *)
Definition three_nights (durations : list Z) : list SleepSessionRow :=
  map (fun p =>
         let t0 := (Z.of_nat (S (fst p)) * 86400000000 + 79200000000)%Z in
         mkSleepRow
           (mkSleep (Some t0) (Some (t0 + snd p * 60000000)%Z) (Some (snd p))
              0 0 0 0 None "" 1 None) 1%N false)
    (combine (seq 0 (length durations)) durations).


(* ================================================================== *)
(** * Properties *)
(* ================================================================== *)

(** ** Comparisons and rounding *)

Lemma Qlt_bool_iff (a b : Q) : Py.Qlt_bool a b = true <-> a < b.
Proof.
  unfold Py.Qlt_bool. rewrite negb_true_iff.
  split; intro H.
  - apply Qnot_le_lt. intro Hle. apply Qle_bool_iff in Hle. congruence.
  - destruct (Qle_bool b a) eqn:E; [|reflexivity].
    apply Qle_bool_iff in E. exfalso. exact (Qlt_not_le _ _ H E).
Qed.

Lemma Qlt_bool_false_iff (a b : Q) : Py.Qlt_bool a b = false <-> b <= a.
Proof.
  unfold Py.Qlt_bool. rewrite negb_false_iff. apply Qle_bool_iff.
Qed.

Lemma Qle_bool_false_iff (a b : Q) : Qle_bool a b = false <-> b < a.
Proof.
  rewrite <- Qlt_bool_iff. unfold Py.Qlt_bool.
  destruct (Qle_bool a b); simpl; split; congruence.
Qed.

#[global] Instance Qlt_bool_proper : Proper (Qeq ==> Qeq ==> eq) Py.Qlt_bool.
Proof.
  intros a a' Ha b b' Hb.
  destruct (Py.Qlt_bool a b) eqn:E; symmetry.
  - apply Qlt_bool_iff. apply Qlt_bool_iff in E. now rewrite <- Ha, <- Hb.
  - apply Qlt_bool_false_iff. apply Qlt_bool_false_iff in E.
    now rewrite <- Ha, <- Hb.
Qed.

#[global] Instance Qle_bool_proper : Proper (Qeq ==> Qeq ==> eq) Qle_bool.
Proof.
  intros a a' Ha b b' Hb.
  destruct (Qle_bool a b) eqn:E; symmetry.
  - apply Qle_bool_iff. apply Qle_bool_iff in E. now rewrite <- Ha, <- Hb.
  - apply Qle_bool_false_iff. apply Qle_bool_false_iff in E.
    now rewrite <- Ha, <- Hb.
Qed.

(** *** Rounding *)

Lemma round_half_even_floor (x : Q) :
  (Qfloor x <= Py.round_half_even x <= Qfloor x + 1)%Z.
Proof.
  unfold Py.round_half_even.
  destruct (Qcompare _ _); [destruct (Z.even _)| |]; lia.
Qed.

Lemma round_half_even_Z (k : Z) : Py.round_half_even (inject_Z k) = k.
Proof.
  unfold Py.round_half_even. rewrite Qfloor_Z.
  assert (E : Qcompare (inject_Z k - inject_Z k) (1 # 2) = Lt).
  { apply Qlt_alt. setoid_replace (inject_Z k - inject_Z k) with 0 by ring.
    reflexivity. }
  now rewrite E.
Qed.

#[global] Instance round_half_even_proper : Proper (Qeq ==> eq) Py.round_half_even.
Proof.
  intros x y E. unfold Py.round_half_even.
  rewrite (Qfloor_comp _ _ E).
  assert (C : Qcompare (x - inject_Z (Qfloor y)) (1 # 2)
              = Qcompare (y - inject_Z (Qfloor y)) (1 # 2)).
  { apply Qcompare_comp; [now rewrite E | reflexivity]. }
  now rewrite C.
Qed.

Lemma round_half_even_mono (x y : Q) :
  x <= y -> (Py.round_half_even x <= Py.round_half_even y)%Z.
Proof.
  intro H.
  pose proof (Qfloor_resp_le _ _ H) as Hf.
  destruct (Z.eq_dec (Qfloor x) (Qfloor y)) as [E | NE].
  - unfold Py.round_half_even. rewrite E.
    destruct (Qcompare (x - inject_Z (Qfloor y)) (1 # 2)) eqn:Cx;
      destruct (Qcompare (y - inject_Z (Qfloor y)) (1 # 2)) eqn:Cy;
      try (destruct (Z.even (Qfloor y))); try lia.
    all: exfalso; repeat match goal with
           | C : Qcompare _ _ = Eq |- _ => apply Qeq_alt in C
           | C : Qcompare _ _ = Lt |- _ => apply Qlt_alt in C
           | C : Qcompare _ _ = Gt |- _ => apply Qgt_alt in C
           end; lra.
  - pose proof (round_half_even_floor x). pose proof (round_half_even_floor y).
    lia.
Qed.

Lemma scale_pos (n : nat) : 0 < inject_Z (10 ^ Z.of_nat n).
Proof.
  replace 0 with (inject_Z 0) by reflexivity. rewrite <- Zlt_Qlt.
  apply Z.pow_pos_nonneg; lia.
Qed.

#[global] Instance round_proper : Proper (Qeq ==> eq ==> eq) Py.round.
Proof.
  intros x y E n ? <-. unfold Py.round.
  assert (E' : x * inject_Z (10 ^ Z.of_nat n) == y * inject_Z (10 ^ Z.of_nat n))
    by now rewrite E.
  now rewrite (round_half_even_proper _ _ E').
Qed.

Lemma round_mono (x y : Q) (n : nat) : x <= y -> Py.round x n <= Py.round y n.
Proof.
  intro H. unfold Py.round.
  pose proof (scale_pos n) as Hs.
  apply Qmult_le_compat_r.
  - rewrite <- Zle_Qle. apply round_half_even_mono.
    apply Qmult_le_compat_r; [exact H | now apply Qlt_le_weak].
  - apply Qlt_le_weak, Qinv_lt_0_compat, Hs.
Qed.

Lemma round_Z (k : Z) (n : nat) : Py.round (inject_Z k) n == inject_Z k.
Proof.
  unfold Py.round.
  pose proof (scale_pos n) as Hs.
  assert (E : inject_Z k * inject_Z (10 ^ Z.of_nat n)
              == inject_Z (k * 10 ^ Z.of_nat n)) by now rewrite inject_Z_mult.
  rewrite (round_half_even_proper _ _ E), round_half_even_Z, inject_Z_mult.
  field. intro H0. rewrite H0 in Hs. now apply Qlt_irrefl in Hs.
Qed.

Lemma round_bounds (x : Q) (lo hi : Z) (n : nat) :
  inject_Z lo <= x <= inject_Z hi ->
  inject_Z lo <= Py.round x n <= inject_Z hi.
Proof.
  intros [Hlo Hhi]. split.
  - rewrite <- (round_Z lo n). now apply round_mono.
  - rewrite <- (round_Z hi n). now apply round_mono.
Qed.


(** ** Sums and means *)

Lemma fold_left_Qplus (l : list Q) (a : Q) :
  fold_left Qplus l a == a + fold_right Qplus 0 l.
Proof.
  revert a. induction l as [|x l IH]; intro a; simpl.
  - ring.
  - rewrite IH. ring.
Qed.

Lemma np_sum_cons (x : Q) (l : list Q) : Np.sum (x :: l) == x + Np.sum l.
Proof.
  unfold Np.sum. simpl. rewrite !fold_left_Qplus. ring.
Qed.

Lemma np_sum_ext {A : Type} (f g : A -> Q) (l : list A) :
  (forall x, In x l -> f x == g x) ->
  Np.sum (map f l) == Np.sum (map g l).
Proof.
  induction l as [|x l IH]; intro H; simpl.
  - reflexivity.
  - rewrite !np_sum_cons, IH, (H x).
    + reflexivity.
    + now left.
    + intros y Hy. apply H. now right.
Qed.

Lemma np_sum_const {A : Type} (f : A -> Q) (c : Q) (l : list A) :
  (forall x, In x l -> f x == c) ->
  Np.sum (map f l) == inject_Z (Z.of_nat (length l)) * c.
Proof.
  induction l as [|x l IH]; intro H.
  - simpl. unfold Np.sum. simpl. ring.
  - cbn [map length]. rewrite np_sum_cons, IH, (H x), Nat2Z.inj_succ.
    + unfold Z.succ. rewrite inject_Z_plus. ring.
    + now left.
    + intros y Hy. apply H. now right.
Qed.

Lemma length_pos_Q {A : Type} (l : list A) :
  l <> [] -> 0 < inject_Z (Z.of_nat (length l)).
Proof.
  intro H. destruct l as [|x l]; [congruence|].
  replace 0 with (inject_Z 0) by reflexivity. rewrite <- Zlt_Qlt.
  simpl length. lia.
Qed.

Lemma np_mean_const {A : Type} (f : A -> Q) (c : Q) (l : list A) :
  l <> [] ->
  (forall x, In x l -> f x == c) ->
  Np.mean (map f l) == c.
Proof.
  intros Hne H. unfold Np.mean.
  rewrite (np_sum_const f c l H), length_map.
  pose proof (length_pos_Q l Hne) as Hp.
  field. intro E. rewrite E in Hp. now apply Qlt_irrefl in Hp.
Qed.

Lemma np_var_const {A : Type} (f : A -> Q) (c : Q) (l : list A) :
  l <> [] ->
  (forall x, In x l -> f x == c) ->
  Np.var (map f l) == 0.
Proof.
  intros Hne H. unfold Np.var.
  rewrite map_map.
  apply np_mean_const; [exact Hne|].
  intros x Hx.
  rewrite (H x Hx), (np_mean_const f c l Hne H).
  setoid_replace (c - c) with 0 by ring. reflexivity.
Qed.

(** ** The concrete square root satisfies the laws *)

#[global] Instance sqrt_approx_laws : NumpySqrtLaws sqrt_approx.
Proof.
  split.
  - intros x y E. unfold np_sqrt, sqrt_approx.
    now rewrite (Qred_complete _ _ E).
  - reflexivity.
  - intro x. unfold np_sqrt, sqrt_approx, Qle. cbn [Qnum Qden].
    rewrite Z.mul_1_r. cbn [Z.mul]. apply Z.sqrt_nonneg.
Qed.

(* ================================================================== *)
(** ** HeartRateProcessor.detect_anomalies: the z-score pass *)
(* ================================================================== *)

Lemma detect_anomalies_unfold `{NumpySqrt} now db user st et wh :
  let readings := window_readings now db user st et wh in
  let mean_bpm := Np.mean (HeartRateProcessor.bpm_values readings) in
  let std_bpm := Np.std (HeartRateProcessor.bpm_values readings) in
  HeartRateProcessor.detect_anomalies now db user st et wh =
  if (length readings <? 10)%nat then Ok ([], db)
  else
    pattern_anomalies <-
      HeartRateProcessor._detect_patterns readings mean_bpm std_bpm ;;
    Ok (HeartRateProcessor.point_anomalies readings mean_bpm std_bpm
        ++ pattern_anomalies,
        HeartRateProcessor._mark_anomalies_in_database db
          (HeartRateProcessor.point_anomalies readings mean_bpm std_bpm
           ++ pattern_anomalies)).
Proof. reflexivity. Qed.

Lemma point_anomaly_cases (r : HeartRateReading) (mean_bpm std_bpm : Q) :
  let z := HeartRateProcessor.z_score (hr_bpm r) mean_bpm std_bpm in
  (Qabs z <= 3 /\ HeartRateProcessor.point_anomaly r mean_bpm std_bpm = [])
  \/ (3 < Qabs z /\
      exists a, HeartRateProcessor.point_anomaly r mean_bpm std_bpm = [a]
                /\ reports a r
                /\ Py.get "severity" a =
                   Some (Py.VStr (if Py.Qlt_bool 4 (Qabs z) then "critical"
                                  else "high"))
                /\ Py.get "type" a =
                   Some (Py.VStr (if Py.Qlt_bool 0 z then "high_heart_rate"
                                  else "low_heart_rate"))).
Proof.
  intro z. unfold HeartRateProcessor.point_anomaly. fold z.
  destruct (Py.Qlt_bool 3 (Qabs z)) eqn:E.
  - right. apply Qlt_bool_iff in E. split; [exact E|].
    eexists. split; [reflexivity|].
    repeat split; reflexivity.
  - left. apply Qlt_bool_false_iff in E. now split.
Qed.

Lemma in_point_anomalies (readings : table) (mean_bpm std_bpm : Q) (a : Py.dict) :
  In a (HeartRateProcessor.point_anomalies readings mean_bpm std_bpm) <->
  exists r, In r readings /\ In a (HeartRateProcessor.point_anomaly r mean_bpm std_bpm).
Proof. unfold HeartRateProcessor.point_anomalies. apply in_flat_map. Qed.

(** Whenever the HRV check has something to report it raises instead: its
    [readings[-1]] indexes a query set. *)
Lemma hrv_issues_cases `{NumpySqrt} (readings : table) :
  HeartRateProcessor._detect_hrv_issues readings = Ok []
  \/ HeartRateProcessor._detect_hrv_issues readings = Raise ValueError.
Proof.
  unfold HeartRateProcessor._detect_hrv_issues.
  destruct (length readings <? 30)%nat; [now left|].
  destruct (length _ <? 20)%nat; [now left|].
  cbv zeta.
  destruct (Py.Qlt_bool _ _); [now right|].
  destruct (Py.Qlt_bool _ _); [now right | now left].
Qed.

(** The pattern pass never names a reading. *)
Lemma patterns_no_reading_id `{NumpySqrt} (readings : table) (m s : Q)
  (l : list Py.dict) (a : Py.dict) :
  HeartRateProcessor._detect_patterns readings m s = Ok l ->
  In a l ->
  Py.contains "reading_id" a = false.
Proof.
  unfold HeartRateProcessor._detect_patterns.
  destruct (length readings <? 20)%nat.
  - intros E Hin. inversion E; subst. destruct Hin.
  - cbv zeta.
    destruct (hrv_issues_cases readings) as [-> | ->]; cbn [bind];
      [|discriminate].
    intros E Hin. inversion E; subst. rewrite app_nil_r in Hin.
    destruct (find _ _); [|destruct Hin].
    destruct Hin as [<- | []]. reflexivity.
Qed.






(* ================================================================== *)
(** ** Constant windows *)
(* ================================================================== *)

Lemma mark_nothing (db : table) (anomalies : list Py.dict) :
  (forall a, In a anomalies -> Py.contains "reading_id" a = false) ->
  HeartRateProcessor._mark_anomalies_in_database db anomalies = db.
Proof.
  unfold HeartRateProcessor._mark_anomalies_in_database.
  induction anomalies as [|a l IH]; intro H; simpl.
  - reflexivity.
  - unfold HeartRateProcessor.mark_one at 2.
    rewrite (H a) by now left.
    apply IH. intros b Hb. apply H. now right.
Qed.

Lemma point_anomalies_zero_z (l : table) (m s : Q) :
  (forall r, In r l -> HeartRateProcessor.z_score (hr_bpm r) m s = 0) ->
  HeartRateProcessor.point_anomalies l m s = [].
Proof.
  unfold HeartRateProcessor.point_anomalies.
  induction l as [|r l IH]; intro Hz; [reflexivity|].
  cbn [flat_map]. unfold HeartRateProcessor.point_anomaly at 1.
  rewrite (Hz r) by now left.
  simpl. apply IH. intros r' Hr'. apply Hz. now right.
Qed.

Lemma std_of_constant `{S : NumpySqrt} `{!NumpySqrtLaws S}
  (readings : table) (c : Z) :
  readings <> [] ->
  (forall r, In r readings -> hr_bpm r = c) ->
  Np.std (HeartRateProcessor.bpm_values readings) == 0.
Proof.
  intros Hne Hc. unfold Np.std, HeartRateProcessor.bpm_values.
  rewrite <- np_sqrt_zero.
  apply np_sqrt_proper.
  apply (np_var_const _ (inject_Z c)); [exact Hne|].
  intros r Hr. now rewrite (Hc r Hr).
Qed.

(** C4.  In a window of at least 10 readings that all have the same bpm the
    standard deviation is 0, the guard makes every z-score 0 (nothing is
    divided by the standard deviation), and the z-score pass flags nothing:
    whatever [detect_anomalies] returns holds only what the pattern pass
    reports, no entry names a reading, and no row of the table is marked. *)
Theorem constant_window_no_point_anomalies `{S : NumpySqrt} `{!NumpySqrtLaws S}
  (now : Z) (db : table) (user : N) (st et : option Z) (wh : Z) (c : Z) :
  let readings := window_readings now db user st et wh in
  let mean_bpm := Np.mean (HeartRateProcessor.bpm_values readings) in
  let std_bpm := Np.std (HeartRateProcessor.bpm_values readings) in
  (10 <= length readings)%nat ->
  (forall r, In r readings -> hr_bpm r = c) ->
  std_bpm == 0
  /\ (forall r, In r readings ->
        HeartRateProcessor.z_score (hr_bpm r) mean_bpm std_bpm = 0)
  /\ HeartRateProcessor.point_anomalies readings mean_bpm std_bpm = []
  /\ (forall anomalies db',
        HeartRateProcessor.detect_anomalies now db user st et wh
        = Ok (anomalies, db') ->
        HeartRateProcessor._detect_patterns readings mean_bpm std_bpm
        = Ok anomalies
        /\ (forall a, In a anomalies -> Py.contains "reading_id" a = false)
        /\ db' = db).
Proof.
  intros readings mean_bpm std_bpm Hlen Hc.
  assert (Hne : readings <> []).
  { intro E. rewrite E in Hlen. simpl in Hlen. lia. }
  assert (Hstd : std_bpm == 0) by (eapply std_of_constant; eauto).
  assert (Hz : forall bpm, HeartRateProcessor.z_score bpm mean_bpm std_bpm = 0).
  { intro bpm. unfold HeartRateProcessor.z_score.
    assert (E : Py.Qlt_bool 0 std_bpm = false).
    { apply Qlt_bool_false_iff. rewrite Hstd. apply Qle_refl. }
    now rewrite E. }
  assert (Hpt : HeartRateProcessor.point_anomalies readings mean_bpm std_bpm = []).
  { apply point_anomalies_zero_z. intros r _. apply Hz. }
  split; [exact Hstd|]. split; [intros r _; apply Hz|]. split; [exact Hpt|].
  intros anomalies db' Hrun.
  rewrite detect_anomalies_unfold in Hrun. cbv zeta in Hrun.
  fold readings in Hrun. fold mean_bpm in Hrun. fold std_bpm in Hrun.
  apply Nat.ltb_ge in Hlen. rewrite Hlen, Hpt in Hrun.
  destruct (HeartRateProcessor._detect_patterns readings mean_bpm std_bpm)
    as [patterns|e] eqn:Hpat; cbn [bind app] in Hrun; [|discriminate].
  inversion Hrun; subst anomalies db'.
  assert (Hno : forall a, In a patterns -> Py.contains "reading_id" a = false).
  { intros a Ha. exact (patterns_no_reading_id _ _ _ _ _ Hpat Ha). }
  split; [reflexivity|]. split; [exact Hno|].
  now apply mark_nothing.
Qed.

Lemma constant_window_no_point_anomalies_witness :
  let S : NumpySqrt := sqrt_approx in
  let db := series 70 70 12 in
  let readings := window_readings 0 db 1 (Some 0%Z) (Some 10000000000%Z) 24 in
  let mean_bpm := Np.mean (HeartRateProcessor.bpm_values readings) in
  let std_bpm := Np.std (HeartRateProcessor.bpm_values readings) in
  ((10 <= length readings)%nat /\ (forall r, In r readings -> hr_bpm r = 70%Z)) /\
  HeartRateProcessor.point_anomalies readings mean_bpm std_bpm = [] /\
  HeartRateProcessor.detect_anomalies 0 db 1 (Some 0%Z) (Some 10000000000%Z) 24
  = Ok ([], db).
Proof.
  intros S db readings mean_bpm std_bpm.
  assert (Hlen : (10 <= length readings)%nat) by (vm_compute; lia).
  assert (Hc : forall r, In r readings -> hr_bpm r = 70%Z).
  { intros r Hr. vm_compute in Hr.
    repeat (destruct Hr as [<- | Hr]; [reflexivity|]). destruct Hr. }
  split; [now split|].
  pose proof (@constant_window_no_point_anomalies S sqrt_approx_laws 0%Z db 1%N
                (Some 0%Z) (Some 10000000000%Z) 24%Z 70%Z Hlen Hc)
    as (_ & _ & Hpt & _).
  split; [exact Hpt | vm_compute; reflexivity].
Defined.

(* ================================================================== *)
(** ** HeartRateProcessor._detect_hrv_issues *)
(* ================================================================== *)

(** The HRV check reads nothing of a reading but its timestamp. *)
Lemma hrv_issues_from_timestamps `{NumpySqrt} (readings readings' : table) :
  map hr_timestamp readings' = map hr_timestamp readings ->
  HeartRateProcessor._detect_hrv_issues readings'
  = HeartRateProcessor._detect_hrv_issues readings.
Proof.
  intro E. unfold HeartRateProcessor._detect_hrv_issues.
  rewrite <- (length_map hr_timestamp readings'),
          <- (length_map hr_timestamp readings), E.
  reflexivity.
Qed.

Lemma rr_intervals_regular (t0 step : Z) (n k : nat) :
  HeartRateProcessor.rr_intervals
    (map (fun i => (t0 + Z.of_nat i * step)%Z) (seq k n))
  = repeat (total_seconds step) (n - 1).
Proof.
  revert k. induction n as [|n IH]; intro k; [reflexivity|].
  destruct n as [|n]; [reflexivity|].
  change (seq k (S (S n))) with (k :: seq (S k) (S n)).
  rewrite map_cons.
  specialize (IH (S k)).
  change (seq (S k) (S n)) with (S k :: seq (S (S k)) n) in *.
  rewrite map_cons in *.
  cbn [HeartRateProcessor.rr_intervals]. cbn [HeartRateProcessor.rr_intervals] in IH.
  replace (S (S n) - 1)%nat with (S (S n - 1)) by lia.
  cbn [repeat]. f_equal.
  - f_equal. rewrite Nat2Z.inj_succ. ring.
  - exact IH.
Qed.

Lemma diff_repeat (c : Q) (n : nat) :
  Np.diff (repeat c n) = repeat (c - c) (n - 1).
Proof.
  induction n as [|n IH]; [reflexivity|].
  destruct n as [|n]; [reflexivity|].
  cbn [repeat Np.diff] in *. rewrite IH.
  replace (S (S n) - 1)%nat with (S (S n - 1)) by lia.
  reflexivity.
Qed.

Lemma rmssd_regular `{S : NumpySqrt} `{!NumpySqrtLaws S} (c : Q) (n : nat) :
  (3 <= n)%nat ->
  HeartRateProcessor.rmssd (repeat c n) == 0.
Proof.
  intro Hn. unfold HeartRateProcessor.rmssd. cbv zeta.
  rewrite diff_repeat. unfold Np.square.
  assert (E : Np.mean (map (fun x : Q => x * x) (repeat (c - c) (n - 1))) == 0).
  { apply np_mean_const.
    - destruct (n - 1)%nat eqn:En; [lia | discriminate].
    - intros x Hx. apply repeat_spec in Hx. subst x. ring. }
  rewrite (np_sqrt_proper _ _ E), np_sqrt_zero. ring.
Qed.

(** C10.  The HRV check of [detect_anomalies] is a function of the reading
    timestamps alone (any readings with the same timestamps, whatever their
    bpm, give the same outcome), and for a window of at least 30 readings
    with perfectly regularly spaced timestamps RMSSD is 0, so the check
    enters its "very_low_hrv" branch.  It does not get to emit the anomaly:
    building it indexes the query set with [-1], which raises, and
    [detect_anomalies] fails with that exception. *)
Theorem regular_timestamps_raise_in_hrv_check `{S : NumpySqrt} `{!NumpySqrtLaws S}
  (now : Z) (db : table) (user : N) (st et : option Z) (wh : Z) (t0 step : Z) :
  let readings := window_readings now db user st et wh in
  let timestamps := map hr_timestamp readings in
  let rmssd_ms := HeartRateProcessor.rmssd (HeartRateProcessor.rr_intervals timestamps) in
  (30 <= length readings)%nat ->
  timestamps
  = map (fun i => (t0 + Z.of_nat i * step)%Z) (seq 0 (length readings)) ->
  (forall other : table,
     map hr_timestamp other = timestamps ->
     HeartRateProcessor._detect_hrv_issues other
     = HeartRateProcessor._detect_hrv_issues readings)
  /\ rmssd_ms == 0
  /\ rmssd_ms < 10
  /\ HeartRateProcessor._detect_hrv_issues readings = Raise ValueError
  /\ HeartRateProcessor.detect_anomalies now db user st et wh = Raise ValueError.
Proof.
  intros readings timestamps rmssd_ms Hlen Hreg.
  split; [intros other E; now apply hrv_issues_from_timestamps|].
  assert (Hrr : HeartRateProcessor.rr_intervals timestamps
                = repeat (total_seconds step) (length readings - 1)).
  { rewrite Hreg. apply rr_intervals_regular. }
  assert (Hrm : rmssd_ms == 0).
  { unfold rmssd_ms. rewrite Hrr. apply rmssd_regular. lia. }
  split; [exact Hrm|].
  assert (Hlt : rmssd_ms < 10) by (rewrite Hrm; reflexivity).
  split; [exact Hlt|].
  assert (Hhrv : HeartRateProcessor._detect_hrv_issues readings = Raise ValueError).
  { unfold HeartRateProcessor._detect_hrv_issues. fold timestamps.
    assert (E30 : (length readings <? 30)%nat = false) by (apply Nat.ltb_ge; lia).
    assert (E20 : (length (HeartRateProcessor.rr_intervals timestamps) <? 20)%nat = false).
    { apply Nat.ltb_ge. rewrite Hrr, repeat_length. lia. }
    rewrite E30, E20. cbv zeta. fold rmssd_ms.
    apply Qlt_bool_iff in Hlt. change (inject_Z 10) with 10. now rewrite Hlt. }
  split; [exact Hhrv|].
  rewrite detect_anomalies_unfold. cbv zeta. fold readings.
  assert (E10 : (length readings <? 10)%nat = false) by (apply Nat.ltb_ge; lia).
  rewrite E10.
  unfold HeartRateProcessor._detect_patterns.
  assert (E20 : (length readings <? 20)%nat = false) by (apply Nat.ltb_ge; lia).
  rewrite E20. cbv zeta. now rewrite Hhrv.
Qed.

Lemma regular_timestamps_raise_in_hrv_check_witness :
  let S : NumpySqrt := sqrt_approx in
  let db := series 70 70 30 in
  let readings := window_readings 0 db 1 (Some 0%Z) (Some 10000000000%Z) 24 in
  ((30 <= length readings)%nat /\
   map hr_timestamp readings
   = map (fun i => (0 + Z.of_nat i * 60000000)%Z) (seq 0 (length readings))) /\
  HeartRateProcessor.detect_anomalies 0 db 1 (Some 0%Z) (Some 10000000000%Z) 24
  = Raise ValueError.
Proof.
  intros S db readings.
  assert (Hlen : (30 <= length readings)%nat) by (vm_compute; lia).
  assert (Hreg : map hr_timestamp readings
                 = map (fun i => (0 + Z.of_nat i * 60000000)%Z)
                     (seq 0 (length readings))) by (vm_compute; reflexivity).
  split; [now split|].
  exact (proj2 (proj2 (proj2 (proj2
    (@regular_timestamps_raise_in_hrv_check S sqrt_approx_laws 0%Z db 1%N
       (Some 0%Z) (Some 10000000000%Z) 24%Z 0%Z 60000000%Z Hlen Hreg))))).
Defined.

(** The same failure takes the z-score findings with it: with a 200-bpm
    spike among 29 regular readings at 70 bpm the spike is beyond 3 sigma,
    but the run raises in the HRV check and reports nothing. *)
Lemma spike_lost_when_hrv_check_raises :
  let S : NumpySqrt := sqrt_approx in
  let readings :=
    window_readings 0 (series 70 200 30) 1 (Some 0%Z) (Some 10000000000%Z) 24 in
  3 < Qabs (HeartRateProcessor.z_score 200
              (Np.mean (HeartRateProcessor.bpm_values readings))
              (Np.std (HeartRateProcessor.bpm_values readings)))
  /\ HeartRateProcessor.detect_anomalies 0 (series 70 200 30) 1 (Some 0%Z)
       (Some 10000000000%Z) 24 = Raise ValueError.
Proof.
  intros S readings. split; vm_compute; reflexivity.
Qed.

(* ================================================================== *)
(** ** Re-running the detector *)
(* ================================================================== *)



(** *** The table after marking *)

Lemma get_unique (db : table) (id : string) (reading : HeartRateReading) :
  NoDup (map hr_id db) ->
  Objects.get db id = Some reading ->
  hr_id reading = id /\
  forall x, In x db -> hr_id x = id -> x = reading.
Proof.
  unfold Objects.get.
  induction db as [|r db IH]; intros Hnd Hget; [discriminate|].
  simpl in Hnd. inversion Hnd as [|? ? Hnotin Hnd']; subst.
  simpl in Hget. destruct (String.eqb (hr_id r) id) eqn:E.
  - inversion Hget; subst reading. apply String.eqb_eq in E.
    split; [exact E|].
    intros x [<- | Hx] Hid; [reflexivity|].
    exfalso. apply Hnotin. rewrite E, <- Hid. now apply in_map.
  - destruct (IH Hnd' Hget) as [Hid Huniq]. split; [exact Hid|].
    intros x [<- | Hx] Hx_id.
    + apply String.eqb_neq in E. congruence.
    + now apply Huniq.
Qed.

Lemma get_none (db : table) (id : string) :
  Objects.get db id = None ->
  forall x, In x db -> String.eqb (hr_id x) id = false.
Proof.
  unfold Objects.get. intros H x Hx.
  exact (find_none _ _ H x Hx).
Qed.

Lemma mark_one_rows (db : table) (a : Py.dict) :
  NoDup (map hr_id db) ->
  HeartRateProcessor.mark_one db a = map (mark_row a) db.
Proof.
  intro Hnd. unfold HeartRateProcessor.mark_one, mark_row.
  destruct (Py.contains "reading_id" a); [|now rewrite map_id].
  destruct (Py.get "reading_id" a) as [[id| | | |]|]; try now rewrite map_id.
  destruct (Py.get "type" a) as [[ty| | | |]|]; try now rewrite map_id.
  destruct (Objects.get db id) as [reading|] eqn:Hget.
  - destruct (get_unique db id reading Hnd Hget) as [Hid Huniq].
    unfold Objects.save. cbn [hr_id]. apply map_ext_in.
    intros x Hx.
    destruct (String.eqb (hr_id x) id) eqn:E.
    + apply String.eqb_eq in E. rewrite (Huniq x Hx E), String.eqb_refl.
      reflexivity.
    + now rewrite Hid, E.
  - rewrite <- (map_id db) at 1. apply map_ext_in.
    intros x Hx. now rewrite (get_none db id Hget x Hx).
Qed.

Lemma mark_row_id (a : Py.dict) (r : HeartRateReading) :
  hr_id (mark_row a r) = hr_id r.
Proof.
  unfold mark_row.
  destruct (Py.contains _ _); [|reflexivity].
  destruct (Py.get "reading_id" a) as [[id| | | |]|]; try reflexivity.
  destruct (Py.get "type" a) as [[ty| | | |]|]; try reflexivity.
  now destruct (String.eqb _ _).
Qed.

Lemma mark_row_erase (a : Py.dict) (r : HeartRateReading) :
  erase (mark_row a r) = erase r.
Proof.
  unfold mark_row.
  destruct (Py.contains _ _); [|reflexivity].
  destruct (Py.get "reading_id" a) as [[id| | | |]|]; try reflexivity.
  destruct (Py.get "type" a) as [[ty| | | |]|]; try reflexivity.
  now destruct (String.eqb _ _).
Qed.

Lemma mark_rows_erase (l : list Py.dict) (r : HeartRateReading) :
  erase (mark_rows l r) = erase r.
Proof.
  unfold mark_rows. revert r.
  induction l as [|a l IH]; intro r; simpl; [reflexivity|].
  now rewrite IH, mark_row_erase.
Qed.

Lemma mark_anomalies_rows (anomalies : list Py.dict) (db : table) :
  NoDup (map hr_id db) ->
  HeartRateProcessor._mark_anomalies_in_database db anomalies
  = map (mark_rows anomalies) db.
Proof.
  unfold HeartRateProcessor._mark_anomalies_in_database, mark_rows.
  revert db. induction anomalies as [|a l IH]; intros db Hnd; simpl.
  - now rewrite map_id.
  - rewrite (mark_one_rows db a Hnd), IH.
    + now rewrite map_map.
    + rewrite map_map.
      erewrite map_ext; [exact Hnd|].
      intro r. apply mark_row_id.
Qed.

(** What a marking does to a row depends on the row's id alone. *)
Lemma mark_row_cases (a : Py.dict) (id : string) :
  (forall r, hr_id r = id -> mark_row a r = r)
  \/ (exists ty, forall r, hr_id r = id -> mark_row a r = set_flag r ty).
Proof.
  unfold mark_row.
  destruct (Py.contains _ _); [|now left].
  destruct (Py.get "reading_id" a) as [[id'| | | |]|]; try now left.
  destruct (Py.get "type" a) as [[ty| | | |]|]; try now left.
  destruct (String.eqb id id') eqn:E.
  - right. exists ty. intros r <-. now rewrite E.
  - left. intros r <-. now rewrite E.
Qed.

Lemma mark_rows_cases (l : list Py.dict) (id : string) :
  (forall r, hr_id r = id -> mark_rows l r = r)
  \/ (exists ty, forall r, hr_id r = id -> mark_rows l r = set_flag r ty).
Proof.
  unfold mark_rows.
  induction l as [|a l IH]; [now left|].
  cbn [fold_left].
  destruct (mark_row_cases a id) as [Ha | (ty0 & Ha)].
  - destruct IH as [IH | (ty & IH)].
    + left. intros r Hr. rewrite (Ha r Hr). now apply IH.
    + right. exists ty. intros r Hr. rewrite (Ha r Hr). now apply IH.
  - right. destruct IH as [IH | (ty & IH)].
    + exists ty0. intros r Hr. rewrite (Ha r Hr). now apply IH.
    + exists ty. intros r Hr. rewrite (Ha r Hr).
      now rewrite (IH (set_flag r ty0) Hr).
Qed.

(** Marking a row again with the same anomalies changes nothing. *)
Lemma mark_rows_idempotent (l : list Py.dict) (r : HeartRateReading) :
  mark_rows l (mark_rows l r) = mark_rows l r.
Proof.
  destruct (mark_rows_cases l (hr_id r)) as [H | (ty & H)].
  - now rewrite !(H r eq_refl).
  - rewrite (H r eq_refl). now rewrite (H (set_flag r ty) eq_refl).
Qed.

(** *** The window and its analysis read no processing field *)

Lemma filter_erase (db : table) (user : N) (t0 t1 : Z) :
  map erase (Objects.filter db user t0 t1)
  = Objects.filter (map erase db) user t0 t1.
Proof.
  unfold Objects.filter.
  induction db as [|r db IH]; simpl; [reflexivity|].
  destruct (_ && _); simpl; now rewrite IH.
Qed.

Lemma insert_by_timestamp_erase (r : HeartRateReading) (l : table) :
  map erase (Objects.insert_by_timestamp r l)
  = Objects.insert_by_timestamp (erase r) (map erase l).
Proof.
  induction l as [|x l IH]; simpl; [reflexivity|].
  destruct (_ <=? _)%Z; simpl; now rewrite ?IH.
Qed.

Lemma order_by_timestamp_erase (l : table) :
  map erase (Objects.order_by_timestamp l)
  = Objects.order_by_timestamp (map erase l).
Proof.
  induction l as [|r l IH]; simpl; [reflexivity|].
  now rewrite insert_by_timestamp_erase, IH.
Qed.

Lemma window_readings_erase now (db : table) user st et wh :
  map erase (window_readings now db user st et wh)
  = window_readings now (map erase db) user st et wh.
Proof.
  unfold window_readings.
  now rewrite order_by_timestamp_erase, filter_erase.
Qed.

Lemma bpm_values_erase (l : table) :
  HeartRateProcessor.bpm_values (map erase l) = HeartRateProcessor.bpm_values l.
Proof. unfold HeartRateProcessor.bpm_values. now rewrite map_map. Qed.

Lemma timestamps_erase (l : table) :
  map hr_timestamp (map erase l) = map hr_timestamp l.
Proof. now rewrite map_map. Qed.

Lemma window_at_erase (l : table) (i n : nat) :
  HeartRateProcessor.window_at (map erase l) i n
  = map erase (HeartRateProcessor.window_at l i n).
Proof.
  unfold HeartRateProcessor.window_at. now rewrite skipn_map, firstn_map.
Qed.

Lemma point_anomalies_erase (l : table) (m s : Q) :
  HeartRateProcessor.point_anomalies (map erase l) m s
  = HeartRateProcessor.point_anomalies l m s.
Proof.
  unfold HeartRateProcessor.point_anomalies.
  induction l as [|r l IH]; simpl; [reflexivity|].
  now rewrite IH.
Qed.

Lemma find_pointwise {A : Type} (f g : A -> bool) (l : list A) :
  (forall x, f x = g x) -> find f l = find g l.
Proof.
  intro E. induction l as [|x l IH]; simpl; [reflexivity|].
  now rewrite E, IH.
Qed.

Lemma detect_patterns_erase `{NumpySqrt} (l : table) (m s : Q) :
  HeartRateProcessor._detect_patterns (map erase l) m s
  = HeartRateProcessor._detect_patterns l m s.
Proof.
  unfold HeartRateProcessor._detect_patterns.
  rewrite length_map.
  destruct (length l <? 20)%nat; [reflexivity|]. cbv zeta.
  rewrite (hrv_issues_from_timestamps l (map erase l) (timestamps_erase l)).
  f_equal.
  assert (E : forall i, HeartRateProcessor.sustained_high (map erase l) m s i
                        = HeartRateProcessor.sustained_high l m s i).
  { intro i. unfold HeartRateProcessor.sustained_high.
    now rewrite window_at_erase, bpm_values_erase. }
  rewrite (find_pointwise _ _ _ E).
  destruct (find _ _) as [i|]; [|reflexivity].
  now rewrite window_at_erase, bpm_values_erase, timestamps_erase.
Qed.

Lemma analysis_erase `{NumpySqrt} (l : table) :
  analysis (map erase l) = analysis l.
Proof.
  unfold analysis.
  now rewrite bpm_values_erase, point_anomalies_erase, detect_patterns_erase.
Qed.

Lemma analysis_same_view `{NumpySqrt} (l l' : table) :
  map erase l' = map erase l -> analysis l' = analysis l.
Proof.
  intro E. now rewrite <- (analysis_erase l'), E, analysis_erase.
Qed.

Lemma detect_anomalies_analysis `{NumpySqrt} now db user st et wh :
  let readings := window_readings now db user st et wh in
  HeartRateProcessor.detect_anomalies now db user st et wh =
  if (length readings <? 10)%nat then Ok ([], db)
  else
    anomalies <- analysis readings ;;
    Ok (anomalies,
        HeartRateProcessor._mark_anomalies_in_database db anomalies).
Proof.
  cbv zeta. rewrite detect_anomalies_unfold. cbv zeta.
  destruct (_ <? 10)%nat; [reflexivity|].
  unfold analysis.
  now destruct (HeartRateProcessor._detect_patterns _ _ _).
Qed.

Lemma reading_ids_app (l1 l2 : list Py.dict) :
  reading_ids (l1 ++ l2) = reading_ids l1 ++ reading_ids l2.
Proof. unfold reading_ids. apply flat_map_app. Qed.

Lemma reading_ids_none (l : list Py.dict) :
  (forall a, In a l -> Py.contains "reading_id" a = false) ->
  reading_ids l = [].
Proof.
  induction l as [|a l IH]; intro H; [reflexivity|].
  unfold reading_ids in *. simpl.
  rewrite IH by (intros b Hb; apply H; now right).
  pose proof (H a (or_introl eq_refl)) as Ha. unfold Py.contains in Ha.
  destruct (Py.get "reading_id" a); [discriminate | reflexivity].
Qed.

Lemma reading_ids_point (l : table) (m s : Q) :
  exists keep : HeartRateReading -> bool,
    reading_ids (HeartRateProcessor.point_anomalies l m s)
    = map hr_id (List.filter keep l).
Proof.
  exists (fun r =>
            Py.Qlt_bool 3 (Qabs (HeartRateProcessor.z_score (hr_bpm r) m s))).
  unfold HeartRateProcessor.point_anomalies.
  induction l as [|r l IH]; [reflexivity|].
  cbn [flat_map List.filter]. rewrite reading_ids_app, IH.
  unfold HeartRateProcessor.point_anomaly at 1.
  destruct (Py.Qlt_bool 3 _); reflexivity.
Qed.

Lemma analysis_reading_ids `{NumpySqrt} (readings : table) (anomalies : list Py.dict) :
  analysis readings = Ok anomalies ->
  exists keep : HeartRateReading -> bool,
    reading_ids anomalies = map hr_id (List.filter keep readings).
Proof.
  unfold analysis.
  destruct (HeartRateProcessor._detect_patterns _ _ _) as [patterns|e] eqn:Hpat;
    cbn [bind]; [|discriminate].
  intro E. inversion E; subst anomalies.
  rewrite reading_ids_app.
  rewrite (reading_ids_none patterns)
    by (intros a Ha; exact (patterns_no_reading_id _ _ _ _ _ Hpat Ha)).
  rewrite app_nil_r. apply reading_ids_point.
Qed.

(** *** No reading is named twice *)

Lemma order_by_timestamp_perm (l : table) :
  Permutation (Objects.order_by_timestamp l) l.
Proof.
  assert (Hins : forall r l, Permutation (Objects.insert_by_timestamp r l) (r :: l)).
  { intros r l0. induction l0 as [|x l0 IH]; simpl; [reflexivity|].
    destruct (_ <=? _)%Z; [reflexivity|].
    rewrite IH. apply perm_swap. }
  induction l as [|r l IH]; simpl; [reflexivity|].
  rewrite Hins. now constructor.
Qed.

Lemma NoDup_map_filter {A B : Type} (f : A -> B) (p : A -> bool) (l : list A) :
  NoDup (map f l) -> NoDup (map f (List.filter p l)).
Proof.
  induction l as [|x l IH]; simpl; intro H; [constructor|].
  inversion H as [|? ? Hnotin Hnd]; subst.
  destruct (p x); simpl; [|now apply IH].
  constructor; [|now apply IH].
  intro Hin. apply Hnotin.
  apply in_map_iff in Hin as (y & Ey & Hy).
  apply filter_In in Hy as [Hy _].
  rewrite <- Ey. now apply in_map.
Qed.

Lemma window_readings_NoDup now (db : table) user st et wh :
  NoDup (map hr_id db) ->
  NoDup (map hr_id (window_readings now db user st et wh)).
Proof.
  intro H. unfold window_readings.
  eapply Permutation_NoDup.
  - symmetry. apply Permutation_map. apply order_by_timestamp_perm.
  - unfold Objects.filter. now apply NoDup_map_filter.
Qed.

(** C3.  When a run of the detector returns, running it a second time over
    the same window of the table that the first run left behind returns
    exactly the same anomaly list and leaves the table exactly as the first
    run left it (a flagged row is flagged the same way, nothing is flagged
    anew); and within a run no reading is named, hence marked, more than
    once.  Rows are identified by their primary key, so ids are distinct.
    (A run that raises has written nothing, so running again is the same
    run.) *)
Theorem detect_anomalies_idempotent `{NumpySqrt}
  (now : Z) (db : table) (user : N) (st et : option Z) (wh : Z)
  (anomalies : list Py.dict) (db1 : table) :
  NoDup (map hr_id db) ->
  HeartRateProcessor.detect_anomalies now db user st et wh = Ok (anomalies, db1) ->
  HeartRateProcessor.detect_anomalies now db1 user st et wh = Ok (anomalies, db1)
  /\ NoDup (reading_ids anomalies).
Proof.
  intros Hnd Hrun1.
  set (readings := window_readings now db user st et wh).
  rewrite detect_anomalies_analysis in Hrun1. cbv zeta in Hrun1.
  fold readings in Hrun1.
  rewrite detect_anomalies_analysis. cbv zeta.
  set (readings' := window_readings now db1 user st et wh).
  destruct (length readings <? 10)%nat eqn:Elen.
  - (* too few readings: nothing reported, nothing written *)
    inversion Hrun1; subst anomalies db1.
    subst readings'. fold readings. rewrite Elen.
    split; [reflexivity | constructor].
  - destruct (analysis readings) as [found|e] eqn:Hana; cbn [bind] in Hrun1;
      [|discriminate].
    rewrite mark_anomalies_rows in Hrun1 by exact Hnd.
    assert (Ha : found = anomalies) by congruence.
    assert (Hdb : db1 = map (mark_rows anomalies) db) by congruence.
    clear Hrun1. subst found.
    assert (Hview : map erase db1 = map erase db).
    { rewrite Hdb, map_map. apply map_ext. intro r. apply mark_rows_erase. }
    assert (Hnd1 : NoDup (map hr_id db1)).
    { replace (map hr_id db1) with (map hr_id (map erase db1))
        by (rewrite map_map; reflexivity).
      rewrite Hview, map_map. exact Hnd. }
    assert (Hread : map erase readings' = map erase readings).
    { unfold readings', readings. now rewrite !window_readings_erase, Hview. }
    assert (Hlen : length readings' = length readings).
    { now rewrite <- (length_map erase readings'), Hread, length_map. }
    rewrite Hlen, Elen, (analysis_same_view _ _ Hread), Hana. cbn [bind].
    split.
    + f_equal. f_equal.
      rewrite mark_anomalies_rows by exact Hnd1.
      rewrite Hdb, map_map.
      apply map_ext. intro r. apply mark_rows_idempotent.
    + destruct (analysis_reading_ids readings anomalies Hana) as (keep & ->).
      apply NoDup_map_filter. now apply window_readings_NoDup.
Qed.

Lemma detect_anomalies_idempotent_witness :
  let S : NumpySqrt := sqrt_approx in
  let db := series 70 200 20 in
  exists anomalies db1,
    (NoDup (map hr_id db)
     /\ HeartRateProcessor.detect_anomalies 0 db 1 (Some 0%Z)
          (Some 10000000000%Z) 24 = Ok (anomalies, db1))
    /\ reading_ids anomalies = ["F"%string]
    /\ HeartRateProcessor.detect_anomalies 0 db1 1 (Some 0%Z)
         (Some 10000000000%Z) 24 = Ok (anomalies, db1).
Proof.
  intros S db.
  assert (Hnd : NoDup (map hr_id db)).
  { vm_compute. repeat (constructor; [simpl; intuition discriminate|]).
    constructor. }
  pose (out := match HeartRateProcessor.detect_anomalies 0 db 1 (Some 0%Z)
                       (Some 10000000000%Z) 24 with
               | Ok p => p
               | Raise _ => ([], [])
               end).
  assert (Hrun : HeartRateProcessor.detect_anomalies 0 db 1 (Some 0%Z)
                   (Some 10000000000%Z) 24 = Ok (fst out, snd out))
    by (vm_compute; reflexivity).
  exists (fst out), (snd out).
  split; [split; [exact Hnd | exact Hrun]|].
  split; [vm_compute; reflexivity|].
  exact (proj1 (@detect_anomalies_idempotent S 0%Z db 1%N (Some 0%Z)
                  (Some 10000000000%Z) 24%Z (fst out) (snd out) Hnd Hrun)).
Defined.

(* ================================================================== *)
(** ** Trend analysis *)
(* ================================================================== *)



(** C9.  With fewer than two data points the trend functions return their
    explicit insufficient-data value, and nothing else: no slope, no
    direction computed from a regression. *)
Theorem trend_needs_two_points `{NumpySqrt}
  (daily_summaries : list DailySummary) (f : HealthAnalyzer.field)
  (bpm_values : list Q) :
  let values := HealthAnalyzer.field_values daily_summaries f in
  (length values < 2)%nat ->
  (length bpm_values < 2)%nat ->
  HealthAnalyzer._extract_trend daily_summaries f
  = [kv "status" (Py.VStr "insufficient_data");
     kv "count" (Py.VInt (Z.of_nat (length values)))]
  /\ HeartRateProcessor._analyze_trend bpm_values
     = [kv "direction" (Py.VStr "insufficient_data");
        kv "strength" (Py.VInt 0)].
Proof.
  intros values Hv Hb. split.
  - unfold HealthAnalyzer._extract_trend. fold values.
    apply Nat.ltb_lt in Hv. now rewrite Hv.
  - unfold HeartRateProcessor._analyze_trend.
    apply Nat.ltb_lt in Hb. now rewrite Hb.
Qed.

Lemma trend_needs_two_points_witness :
  let S : NumpySqrt := sqrt_approx in
  let one_day := summaries_of_steps [4000%Z] in
  ((length (HealthAnalyzer.field_values one_day HealthAnalyzer.f_total_steps) < 2)%nat
   /\ (length [72] < 2)%nat)
  /\ Py.get "status" (HealthAnalyzer._extract_trend one_day HealthAnalyzer.f_total_steps)
     = Some (Py.VStr "insufficient_data")
  /\ Py.get "direction" (HeartRateProcessor._analyze_trend [72])
     = Some (Py.VStr "insufficient_data").
Proof.
  intros S one_day.
  assert (Hv : (length (HealthAnalyzer.field_values one_day
                          HealthAnalyzer.f_total_steps) < 2)%nat)
    by (vm_compute; lia).
  assert (Hb : (length [72] < 2)%nat) by (simpl; lia).
  split; [now split|].
  destruct (@trend_needs_two_points S one_day HealthAnalyzer.f_total_steps
              [72] Hv Hb) as [E1 E2].
  rewrite E1, E2. split; reflexivity.
Defined.



(** [HeartRateProcessor._analyze_trend] labels by slope alone ("up" above
    0.1 per reading, "down" below -0.1): its direction does not depend on
    R-squared.  On the noisy flat week it reports "stable" too. *)
Lemma analyze_trend_direction_by_slope :
  Py.get "direction"
    (HeartRateProcessor._analyze_trend (map inject_Z noisy_flat_steps))
  = Some (Py.VStr "stable")
  /\ Py.get "direction" (HeartRateProcessor._analyze_trend [60; 100; 60; 100; 61])
     = Some (Py.VStr "up")
  /\ snd (regression [60; 100; 60; 100; 61]) <= (3 # 10).
Proof.
  split; [vm_compute; reflexivity|].
  split; [vm_compute; reflexivity|].
  vm_compute. discriminate.
Qed.

(* ================================================================== *)
(** ** SleepProcessor._calculate_sleep_score *)
(* ================================================================== *)

Ltac Qbool_step :=
  match goal with
  | |- context [Qle_bool ?a ?b] =>
      let E := fresh "E" in
      destruct (Qle_bool a b) eqn:E;
      [apply Qle_bool_iff in E | apply Qle_bool_false_iff in E]
  | |- context [Py.Qlt_bool ?a ?b] =>
      let E := fresh "E" in
      destruct (Py.Qlt_bool a b) eqn:E;
      [apply Qlt_bool_iff in E | apply Qlt_bool_false_iff in E]
  end;
  cbn [andb orb negb]; try (exfalso; lra).

Ltac Qbool_cases := repeat Qbool_step; try reflexivity.

Lemma band_table (x a b c d e f : Q) :
  a <= b -> b <= c -> c <= d -> d <= e -> e <= f ->
  (if SleepProcessor.le_le c x d then 100
   else if SleepProcessor.le_lt b x c || SleepProcessor.lt_le d x e then 70
   else if SleepProcessor.le_lt a x b || SleepProcessor.lt_le e x f then 40
   else 20)
  = (if within c x d then 100
     else if within b x e then 70
     else if within a x f then 40
     else 20).
Proof.
  intros Hab Hbc Hcd Hde Hef.
  unfold SleepProcessor.le_le, SleepProcessor.le_lt, SleepProcessor.lt_le, within.
  Qbool_cases.
Qed.

Lemma calculate_sleep_score_weighted (s : SleepSession) :
  SleepProcessor._calculate_sleep_score s
  = match duration_minutes s with
    | Some dm => Ok (Py.round (weighted_sleep_score s dm) 1)
    | None => Raise TypeError
    end.
Proof.
  unfold SleepProcessor._calculate_sleep_score.
  destruct (duration_minutes s) as [dm|]; [|reflexivity].
  cbv zeta. f_equal. apply round_proper; [|reflexivity].
  unfold SleepProcessor.weights, Py.sum. cbn [map fold_left fst snd].
  rewrite (band_table (Py.Zdiv_true dm 60) 5 6 7 9 10 11) by lra.
  rewrite (band_table (Sleep.deep_sleep_percentage s) 5 10 15 25 30 35) by lra.
  rewrite (band_table (Sleep.rem_sleep_percentage s) 10 15 20 25 30 35) by lra.
  unfold weighted_sleep_score, duration_factor, efficiency_factor, deep_factor,
    rem_factor, interruption_factor, effective_efficiency,
    Sleep.total_sleep_minutes.
  ring.
Qed.

(** C5 (as amended).  The sleep score is the weighted sum of the five factor
    tables (duration 0.30, efficiency 0.25, deep sleep 0.20, REM 0.15,
    interruptions 0.10) rounded to one decimal place; the scenario session
    (420 min; deep 90, REM 100, light 210, awake 20; 1 interruption;
    efficiency 95) scores at least 85. *)
Theorem sleep_score_is_rounded_weighted_sum (s : SleepSession) :
  SleepProcessor._calculate_sleep_score s
  = match duration_minutes s with
    | Some dm =>
        Ok (Py.round
              (duration_factor (Py.Zdiv_true dm 60) * (30 # 100)
               + efficiency_factor (effective_efficiency s dm) * (25 # 100)
               + deep_factor (Sleep.deep_sleep_percentage s) * (20 # 100)
               + rem_factor (Sleep.rem_sleep_percentage s) * (15 # 100)
               + interruption_factor (interruptions s) * (10 # 100)) 1)
    | None => Raise TypeError
    end
  /\ exists score,
       SleepProcessor._calculate_sleep_score scenario_session = Ok score
       /\ 85 <= score.
Proof.
  split; [apply calculate_sleep_score_weighted|].
  eexists. split; [reflexivity|]. vm_compute. discriminate.
Qed.

(** C5 (as stated) fails.  The score is not always the weighted sum itself:
    with efficiency 87 and every other factor optimal the weighted sum is
    30 + 21.25 + 20 + 15 + 10 = 96.25 and the score is 96.2. *)
Lemma sleep_score_differs_from_weighted_sum :
  weighted_sleep_score quarter_point_night 480 == (9625 # 100)
  /\ exists score,
       SleepProcessor._calculate_sleep_score quarter_point_night = Ok score
       /\ score == (962 # 10)
       /\ ~ score == weighted_sleep_score quarter_point_night 480.
Proof.
  split; [vm_compute; reflexivity|].
  eexists. split; [reflexivity|].
  split; [vm_compute; reflexivity|].
  vm_compute. discriminate.
Qed.

(** *** The score as a function of the deep-sleep percentage *)

Lemma deep_factor_rising (p q : Q) :
  p <= q -> q <= 25 -> deep_factor p <= deep_factor q.
Proof.
  intros Hpq Hq. unfold deep_factor, within. Qbool_cases.
  all: apply Qle_bool_iff; reflexivity.
Qed.

Lemma deep_factor_falling (p q : Q) :
  25 <= p -> p <= q -> deep_factor q <= deep_factor p.
Proof.
  intros Hp Hpq. unfold deep_factor, within. Qbool_cases.
  all: apply Qle_bool_iff; reflexivity.
Qed.

Lemma efficiency_factor_proper (e e' : Q) :
  e == e' -> efficiency_factor e = efficiency_factor e'.
Proof.
  intro E. unfold efficiency_factor.
  now rewrite !(Qle_bool_proper _ _ (Qeq_refl _) e e' E).
Qed.

Lemma rem_factor_proper (p p' : Q) :
  p == p' -> rem_factor p = rem_factor p'.
Proof.
  intro E. unfold rem_factor, within.
  rewrite !(Qle_bool_proper _ _ (Qeq_refl _) p p' E).
  now rewrite !(Qle_bool_proper p p' E _ _ (Qeq_refl _)).
Qed.

(** C6 (as amended).  Between two sessions that agree on duration, on the
    efficiency the score works with, on the REM percentage and on the number
    of interruptions, the score does not decrease as the deep-sleep
    percentage rises up to 25%, and does not increase as it rises from 25%
    on: it is unimodal in the deep-sleep percentage. *)
Theorem sleep_score_unimodal_in_deep_percentage (s1 s2 : SleepSession) (dm : Z) :
  duration_minutes s1 = Some dm ->
  duration_minutes s2 = Some dm ->
  effective_efficiency s1 dm == effective_efficiency s2 dm ->
  Sleep.rem_sleep_percentage s1 == Sleep.rem_sleep_percentage s2 ->
  interruptions s1 = interruptions s2 ->
  Sleep.deep_sleep_percentage s1 <= Sleep.deep_sleep_percentage s2 ->
  exists score1 score2,
    SleepProcessor._calculate_sleep_score s1 = Ok score1
    /\ SleepProcessor._calculate_sleep_score s2 = Ok score2
    /\ (Sleep.deep_sleep_percentage s2 <= 25 -> score1 <= score2)
    /\ (25 <= Sleep.deep_sleep_percentage s1 -> score2 <= score1).
Proof.
  intros Hd1 Hd2 He Hr Hi Hdeep.
  rewrite !calculate_sleep_score_weighted, Hd1, Hd2.
  do 2 eexists. split; [reflexivity|]. split; [reflexivity|].
  unfold weighted_sleep_score.
  rewrite (efficiency_factor_proper _ _ He), (rem_factor_proper _ _ Hr), Hi.
  split; intro Hb; apply round_mono.
  - pose proof (deep_factor_rising _ _ Hdeep Hb). lra.
  - pose proof (deep_factor_falling _ _ Hb Hdeep). lra.
Qed.

Lemma sleep_score_unimodal_in_deep_percentage_witness :
  let s1 := night 80 0 20 in
  let s2 := night 65 15 20 in
  (duration_minutes s1 = Some 480%Z /\ duration_minutes s2 = Some 480%Z
   /\ effective_efficiency s1 480 == effective_efficiency s2 480
   /\ Sleep.rem_sleep_percentage s1 == Sleep.rem_sleep_percentage s2
   /\ interruptions s1 = interruptions s2
   /\ Sleep.deep_sleep_percentage s1 <= Sleep.deep_sleep_percentage s2
   /\ Sleep.deep_sleep_percentage s2 <= 25)
  /\ exists score1 score2,
       SleepProcessor._calculate_sleep_score s1 = Ok score1
       /\ SleepProcessor._calculate_sleep_score s2 = Ok score2
       /\ score1 <= score2.
Proof.
  intros s1 s2.
  assert (Hd1 : duration_minutes s1 = Some 480%Z) by reflexivity.
  assert (Hd2 : duration_minutes s2 = Some 480%Z) by reflexivity.
  assert (He : effective_efficiency s1 480 == effective_efficiency s2 480)
    by (vm_compute; reflexivity).
  assert (Hr : Sleep.rem_sleep_percentage s1 == Sleep.rem_sleep_percentage s2)
    by (vm_compute; reflexivity).
  assert (Hi : interruptions s1 = interruptions s2) by reflexivity.
  assert (Hdeep : Sleep.deep_sleep_percentage s1 <= Sleep.deep_sleep_percentage s2)
    by (vm_compute; discriminate).
  assert (Hb : Sleep.deep_sleep_percentage s2 <= 25) by (vm_compute; discriminate).
  split; [repeat split; assumption|].
  destruct (sleep_score_unimodal_in_deep_percentage s1 s2 480%Z
              Hd1 Hd2 He Hr Hi Hdeep) as (q1 & q2 & E1 & E2 & Hup & _).
  exists q1, q2. split; [exact E1|]. split; [exact E2|]. exact (Hup Hb).
Defined.

(** C6 (as stated) fails.  The two nights below differ in deep minutes only
    (10 against 12, with light 70 and REM 20).  The deep-sleep percentage
    rises from 10% to about 11.8%, still below the optimal band, yet the score
    falls from 94.0 to 89.5: the extra deep minutes push the REM percentage
    from 20% to about 19.6%, out of its own optimal band. *)
Lemma more_deep_minutes_can_lower_the_score :
  let s1 := night 70 10 20 in
  let s2 := night 70 12 20 in
  Sleep.deep_sleep_percentage s1 < Sleep.deep_sleep_percentage s2
  /\ Sleep.deep_sleep_percentage s2 < 15
  /\ exists score1 score2,
       SleepProcessor._calculate_sleep_score s1 = Ok score1
       /\ SleepProcessor._calculate_sleep_score s2 = Ok score2
       /\ score1 == 94 /\ score2 == (895 # 10)
       /\ ~ score1 <= score2.
Proof.
  intros s1 s2.
  split; [vm_compute; reflexivity|].
  split; [vm_compute; reflexivity|].
  do 2 eexists.
  split; [reflexivity|]. split; [reflexivity|].
  split; [vm_compute; reflexivity|]. split; [vm_compute; reflexivity|].
  vm_compute. intro H. now apply H.
Qed.

(* ================================================================== *)
(** ** Sleep efficiency and duration *)
(* ================================================================== *)





(** Where [save] does derive the efficiency it divides all four stage
    minutes by the duration, awake minutes included, unlike
    [total_sleep_minutes] and the processors: for the stage minutes above
    and a duration of 420 it stores 100, where the processors compute
    95.2. *)
Lemma save_efficiency_counts_awake_minutes :
  exists s' e d p,
    Sleep.save (stages_only (Some 420%Z)) = Ok s'
    /\ sleep_efficiency s' = Some e /\ e == 100
    /\ SleepProcessor._analyze_sleep_efficiency (stages_only (Some 420%Z)) = Ok d
    /\ Py.get "efficiency_percentage" d = Some (Py.VFloat p)
    /\ p == (952 # 10).
Proof.
  do 4 eexists. split; [reflexivity|].
  split; [reflexivity|]. split; [reflexivity|].
  split; [reflexivity|]. split; [reflexivity|].
  vm_compute. reflexivity.
Qed.

(* ================================================================== *)
(** ** HealthAnalyzer._calculate_daily_health_score *)
(* ================================================================== *)

Lemma activity_score_bounds (steps : Z) :
  (0 <= steps)%Z ->
  0 <= Py.min 100 (Py.Zdiv_true steps 10000 * 100) <= 100.
Proof.
  intro H. unfold Py.min.
  assert (Hx : 0 <= Py.Zdiv_true steps 10000 * 100).
  { unfold Py.Zdiv_true.
    assert (0 <= inject_Z steps) by (rewrite Zle_Qle in H; exact H).
    apply Qmult_le_0_compat; [|lra].
    apply Qle_shift_div_l; [reflexivity|]. lra. }
  destruct (Py.Qlt_bool _ _) eqn:E.
  - apply Qlt_bool_iff in E. lra.
  - lra.
Qed.

Lemma or_zero_nonneg (o : option Z) :
  (forall n, o = Some n -> (0 <= n)%Z) -> (0 <= Py.orZ o 0)%Z.
Proof.
  intro H. destruct o as [n|]; simpl; [|lia].
  destruct (n =? 0)%Z; [lia|]. now apply H.
Qed.

Lemma truthy_score_bounds (o : option Q) :
  (forall q, o = Some q -> 0 <= q <= 100) ->
  Py.truthyQ o = true -> 0 <= Py.orQ o 0 <= 100.
Proof.
  intros H Ht. destruct o as [q|]; [|discriminate].
  simpl in *. destruct (Py.Qeq_bool0 q); [discriminate|]. now apply H.
Qed.




(* ================================================================== *)
(** ** Further properties: the regression behind the trend functions *)
(* ================================================================== *)

Lemma np_sum_nonneg {A : Type} (f : A -> Q) (l : list A) :
  (forall x, In x l -> 0 <= f x) -> 0 <= Np.sum (map f l).
Proof.
  induction l as [|x l IH]; intro H; cbn [map].
  - apply Qle_refl.
  - rewrite np_sum_cons.
    assert (0 <= f x) by (apply H; now left).
    assert (0 <= Np.sum (map f l)) by (apply IH; intros y Hy; apply H; now right).
    lra.
Qed.

Lemma np_sum_ge_term {A : Type} (f : A -> Q) (l : list A) (x : A) :
  (forall y, In y l -> 0 <= f y) -> In x l -> f x <= Np.sum (map f l).
Proof.
  induction l as [|y l IH]; intros H Hin; [destruct Hin|].
  cbn [map]. rewrite np_sum_cons.
  assert (Hy : 0 <= f y) by (apply H; now left).
  assert (Hl : 0 <= Np.sum (map f l))
    by (apply np_sum_nonneg; intros z Hz; apply H; now right).
  destruct Hin as [<- | Hin].
  - lra.
  - assert (f x <= Np.sum (map f l))
      by (apply IH; [intros z Hz; apply H; now right | exact Hin]).
    lra.
Qed.

Lemma np_sum_linear {A : Type} (f g : A -> Q) (a b : Q) (l : list A) :
  Np.sum (map (fun x => a * f x + b * g x) l)
  == a * Np.sum (map f l) + b * Np.sum (map g l).
Proof.
  induction l as [|x l IH]; cbn [map].
  - unfold Np.sum. simpl. ring.
  - rewrite !np_sum_cons, IH. ring.
Qed.

Lemma sqr_nonneg (q : Q) : 0 <= q * q.
Proof.
  destruct (Qlt_le_dec q 0) as [H | H].
  - setoid_replace (q * q) with ((- q) * (- q)) by ring.
    apply Qmult_le_0_compat; lra.
  - now apply Qmult_le_0_compat.
Qed.

(** The residuals of the fitted line, written over the pairs (x, y). *)
Lemma sum_over_predictions (g : Q -> Q) (F : Q -> Q -> Q) (x y : list Q) :
  length x = length y ->
  Np.sum (map (fun p => F (fst p) (snd p)) (combine y (map g x)))
  == Np.sum (map (fun p => F (snd p) (g (fst p))) (combine x y)).
Proof.
  revert y. induction x as [|xi x IH]; intros [|yi y] Hlen;
    try discriminate; [reflexivity|].
  cbn [map combine]. rewrite !np_sum_cons. cbn [fst snd].
  rewrite IH by (simpl in Hlen; congruence). reflexivity.
Qed.

Lemma sum_over_first (f : Q -> Q) (x y : list Q) :
  length x = length y ->
  Np.sum (map (fun p => f (fst p)) (combine x y)) == Np.sum (map f x).
Proof.
  revert y. induction x as [|xi x IH]; intros [|yi y] Hlen;
    try discriminate; [reflexivity|].
  cbn [map combine]. rewrite !np_sum_cons. cbn [fst].
  rewrite IH by (simpl in Hlen; congruence). reflexivity.
Qed.

Lemma sum_over_second (f : Q -> Q) (x y : list Q) :
  length x = length y ->
  Np.sum (map (fun p => f (snd p)) (combine x y)) == Np.sum (map f y).
Proof.
  revert y. induction x as [|xi x IH]; intros [|yi y] Hlen;
    try discriminate; [reflexivity|].
  cbn [map combine]. rewrite !np_sum_cons. cbn [snd].
  rewrite IH by (simpl in Hlen; congruence). reflexivity.
Qed.

Lemma regression_unfold (values : list Q) :
  regression values
  = (reg_sxy values / reg_sxx values,
     if negb (Qeq_bool (reg_ss_tot values) 0)
     then 1 - reg_ss_res values / reg_ss_tot values else 0).
Proof. reflexivity. Qed.

Lemma arange_length (n : nat) : length (Np.arange n) = n.
Proof. unfold Np.arange. now rewrite length_map, length_seq. Qed.

(** Residual sum of squares = total - 2 slope sxy + slope^2 sxx. *)
Lemma reg_ss_res_expand (values : list Q) :
  let slope := fst (regression values) in
  reg_ss_res values
  == reg_ss_tot values - 2 * slope * reg_sxy values
     + slope * slope * reg_sxx values.
Proof.
  intro slope. unfold reg_ss_res. cbv zeta. fold slope.
  set (x := Np.arange (length values)).
  set (mx := Np.mean x). set (my := Np.mean values).
  assert (Hlen : length x = length values) by apply arange_length.
  rewrite (sum_over_predictions (fun xi => slope * xi + (my - slope * mx))
             (fun a b => (a - b) * (a - b)) x values Hlen).
  rewrite (np_sum_ext _
             (fun p => 1 * ((snd p - my) * (snd p - my))
                       + (- 2 * slope) * ((fst p - mx) * (snd p - my)
                                          - (slope / 2) * ((fst p - mx) * (fst p - mx)))))
    by (intros p _; cbn [fst snd]; field).
  rewrite np_sum_linear.
  rewrite (np_sum_ext (fun p : Q * Q => (fst p - mx) * (snd p - my)
                                 - slope / 2 * ((fst p - mx) * (fst p - mx)))
             (fun p => 1 * ((fst p - mx) * (snd p - my))
                       + (- (slope / 2)) * ((fst p - mx) * (fst p - mx))))
    by (intros p _; ring).
  rewrite np_sum_linear.
  rewrite (sum_over_second (fun yi => (yi - my) * (yi - my)) x values Hlen).
  rewrite (sum_over_first (fun a => (a - mx) * (a - mx)) x values Hlen).
  unfold reg_ss_tot, reg_sxy, reg_sxx. cbv zeta.
  fold x. fold mx. fold my. field.
Qed.






Lemma forall2_combine {A B : Type} (R : A -> B -> Prop) (x : list A) (y : list B) :
  Forall2 R x y -> forall p, In p (combine x y) -> R (fst p) (snd p).
Proof.
  induction 1 as [|a b x y Hab _ IH]; intros p Hin; [destruct Hin|].
  destruct Hin as [<- | Hin]; [exact Hab | now apply IH].
Qed.

Lemma arange_nonempty_N (values : list Q) :
  (2 <= length values)%nat -> 0 < inject_Z (Z.of_nat (length values)).
Proof.
  intro H. apply length_pos_Q. destruct values; [simpl in H; lia | discriminate].
Qed.

(** With two points or more the positions 0, 1, ... have spread. *)
Lemma reg_sxx_pos (values : list Q) :
  (2 <= length values)%nat -> 0 < reg_sxx values.
Proof.
  intro Hn. unfold reg_sxx. cbv zeta.
  set (x := Np.arange (length values)). set (mx := Np.mean x).
  assert (H0 : In (inject_Z (Z.of_nat 0)) x).
  { unfold x, Np.arange.
    apply (in_map (fun i => inject_Z (Z.of_nat i)) _ 0%nat). apply in_seq. lia. }
  assert (H1 : In (inject_Z (Z.of_nat 1)) x).
  { unfold x, Np.arange.
    apply (in_map (fun i => inject_Z (Z.of_nat i)) _ 1%nat). apply in_seq. lia. }
  change (inject_Z (Z.of_nat 0)) with 0 in H0.
  change (inject_Z (Z.of_nat 1)) with 1 in H1.
  pose proof (np_sum_ge_term (fun a => (a - mx) * (a - mx)) x 0
                (fun y _ => sqr_nonneg (y - mx)) H0) as T0.
  pose proof (np_sum_ge_term (fun a => (a - mx) * (a - mx)) x 1
                (fun y _ => sqr_nonneg (y - mx)) H1) as T1.
  cbv beta in T0, T1.
  set (sxx := Np.sum (map (fun a => (a - mx) * (a - mx)) x)) in *.
  destruct (Qlt_le_dec 0 sxx) as [Hp | Hle]; [exact Hp | exfalso].
  pose proof (sqr_nonneg (0 - mx)) as S0.
  pose proof (sqr_nonneg (1 - mx)) as S1.
  assert (E0 : (0 - mx) * (0 - mx) == 0) by lra.
  assert (E1 : (1 - mx) * (1 - mx) == 0) by lra.
  apply Qmult_integral in E0. apply Qmult_integral in E1.
  destruct E0, E1; lra.
Qed.

Lemma on_line_mean (a b : Q) (values : list Q) :
  (2 <= length values)%nat -> on_line a b values ->
  Np.mean values == a + b * Np.mean (Np.arange (length values)).
Proof.
  intros Hn H. pose proof (arange_nonempty_N values Hn) as HN.
  set (x := Np.arange (length values)) in *.
  assert (Hlen : length x = length values) by apply arange_length.
  assert (Hsum : Np.sum values
                 == a * inject_Z (Z.of_nat (length values)) + b * Np.sum x).
  { assert (E1 : Np.sum values
                 == Np.sum (map (fun p : Q * Q => snd p) (combine x values))).
    { rewrite (sum_over_second (fun y => y) x values Hlen), map_id.
      reflexivity. }
    assert (E2 : Np.sum (map (fun p : Q * Q => snd p) (combine x values))
                 == Np.sum (map (fun p : Q * Q => a * 1 + b * fst p)
                              (combine x values))).
    { apply np_sum_ext. intros p Hp.
      rewrite (forall2_combine _ _ _ H p Hp). ring. }
    assert (E3 : Np.sum (map (fun p : Q * Q => fst p) (combine x values))
                 == Np.sum x).
    { rewrite (sum_over_first (fun y => y) x values Hlen), map_id.
      reflexivity. }
    rewrite E1, E2.
    rewrite (np_sum_linear (fun _ : Q * Q => 1) (fun p => fst p) a b).
    rewrite E3.
    rewrite (np_sum_const (fun _ : Q * Q => 1) 1) by (intros; reflexivity).
    rewrite length_combine, Hlen, Nat.min_id. ring. }
  unfold Np.mean. rewrite Hsum, Hlen. field. lra.
Qed.

Lemma on_line_sxy (a b : Q) (values : list Q) :
  (2 <= length values)%nat -> on_line a b values ->
  reg_sxy values == b * reg_sxx values.
Proof.
  intros Hn H. pose proof (on_line_mean a b values Hn H) as Hm.
  unfold reg_sxy, reg_sxx. cbv zeta.
  set (x := Np.arange (length values)) in *.
  set (mx := Np.mean x) in *. set (my := Np.mean values) in *.
  assert (Hlen : length x = length values) by apply arange_length.
  rewrite (np_sum_ext (fun p : Q * Q => (fst p - mx) * (snd p - my))
             (fun p => b * ((fst p - mx) * (fst p - mx)) + 0 * fst p)).
  - rewrite (np_sum_linear (fun p : Q * Q => (fst p - mx) * (fst p - mx))
               (fun p => fst p) b 0).
    rewrite (sum_over_first (fun a => (a - mx) * (a - mx)) x values Hlen).
    ring.
  - intros p Hp. pose proof (forall2_combine _ _ _ H p Hp) as E.
    cbv beta in E. rewrite E, Hm. ring.
Qed.

Lemma on_line_ss_tot (a b : Q) (values : list Q) :
  (2 <= length values)%nat -> on_line a b values ->
  reg_ss_tot values == b * b * reg_sxx values.
Proof.
  intros Hn H. pose proof (on_line_mean a b values Hn H) as Hm.
  unfold reg_ss_tot, reg_sxx. cbv zeta.
  set (x := Np.arange (length values)) in *.
  set (mx := Np.mean x) in *. set (my := Np.mean values) in *.
  assert (Hlen : length x = length values) by apply arange_length.
  rewrite <- (sum_over_second (fun yi => (yi - my) * (yi - my)) x values Hlen).
  rewrite (np_sum_ext (fun p : Q * Q => (snd p - my) * (snd p - my))
             (fun p => (b * b) * ((fst p - mx) * (fst p - mx)) + 0 * fst p)).
  - rewrite (np_sum_linear (fun p : Q * Q => (fst p - mx) * (fst p - mx))
               (fun p => fst p) (b * b) 0).
    rewrite (sum_over_first (fun a => (a - mx) * (a - mx)) x values Hlen).
    ring.
  - intros p Hp. pose proof (forall2_combine _ _ _ H p Hp) as E.
    cbv beta in E. rewrite E, Hm. ring.
Qed.

Lemma on_line_regression (a b : Q) (values : list Q) :
  (2 <= length values)%nat -> on_line a b values ->
  fst (regression values) == b
  /\ snd (regression values) == (if Qeq_bool b 0 then 0 else 1).
Proof.
  intros Hn H.
  pose proof (reg_sxx_pos values Hn) as Hxx.
  pose proof (on_line_sxy a b values Hn H) as Hxy.
  pose proof (on_line_ss_tot a b values Hn H) as Htot.
  assert (Hslope : fst (regression values) == b).
  { rewrite regression_unfold. cbn [fst]. rewrite Hxy. field. lra. }
  split; [exact Hslope|].
  pose proof (reg_ss_res_expand values) as Hres. cbv zeta in Hres.
  rewrite Hslope, Hxy, Htot in Hres.
  assert (Hres0 : reg_ss_res values == 0) by (rewrite Hres; ring).
  rewrite regression_unfold. cbn [snd].
  destruct (Qeq_bool b 0) eqn:Eb.
  - apply Qeq_bool_iff in Eb.
    assert (E0 : reg_ss_tot values == 0) by (rewrite Htot, Eb; ring).
    apply Qeq_bool_iff in E0. rewrite E0. reflexivity.
  - apply Qeq_bool_neq in Eb.
    assert (NE : ~ reg_ss_tot values == 0).
    { rewrite Htot. intro E. apply Qmult_integral in E. destruct E as [E | E].
      - apply Qmult_integral in E. tauto.
      - lra. }
    destruct (Qeq_bool (reg_ss_tot values) 0) eqn:Et.
    + apply Qeq_bool_iff in Et. contradiction.
    + cbn [negb]. rewrite Hres0. field. exact NE.
Qed.

(** X2.  A series of two or more values that lies exactly on a line
    a + b * i is recovered by the regression: the slope is b and R-squared is
    1 (0 for a flat line), so [_extract_trend] reports it as increasing when
    b > 0, decreasing when b < 0 and stable when b = 0. *)
Theorem exact_line_is_recovered `{NumpySqrt}
  (daily_summaries : list DailySummary) (f : HealthAnalyzer.field) (a b : Q) :
  let values := HealthAnalyzer.field_values daily_summaries f in
  (2 <= length values)%nat ->
  on_line a b values ->
  fst (regression values) == b
  /\ snd (regression values) == (if Qeq_bool b 0 then 0 else 1)
  /\ Py.get "trend_direction" (HealthAnalyzer._extract_trend daily_summaries f)
     = Some (Py.VStr (if Py.Qlt_bool 0 b then "increasing"
                      else if Py.Qlt_bool b 0 then "decreasing"
                      else "stable")).
Proof.
  intros values Hn H0.
  destruct (on_line_regression a b values Hn H0) as [Hs Hr].
  split; [exact Hs|]. split; [exact Hr|].
  unfold HealthAnalyzer._extract_trend. fold values.
  replace (length values <? 2)%nat with false
    by (symmetry; apply Nat.ltb_ge; exact Hn).
  destruct (regression values) as [slope r2]. cbn [fst snd] in Hs, Hr.
  cbn. do 2 f_equal.
  assert (A1 : Py.Qlt_bool 0 slope = Py.Qlt_bool 0 b) by (now rewrite Hs).
  assert (A2 : Py.Qlt_bool slope 0 = Py.Qlt_bool b 0) by (now rewrite Hs).
  rewrite A1, A2.
  destruct (Py.Qlt_bool 0 b) eqn:Ep.
  - apply Qlt_bool_iff in Ep.
    assert (Eb : Qeq_bool b 0 = false).
    { destruct (Qeq_bool b 0) eqn:E; [|reflexivity].
      apply Qeq_bool_iff in E. lra. }
    rewrite Eb in Hr. rewrite Hr. reflexivity.
  - cbn [andb]. destruct (Py.Qlt_bool b 0) eqn:En; [|reflexivity].
    apply Qlt_bool_iff in En.
    assert (Eb : Qeq_bool b 0 = false).
    { destruct (Qeq_bool b 0) eqn:E; [|reflexivity].
      apply Qeq_bool_iff in E. lra. }
    rewrite Eb in Hr. rewrite Hr. reflexivity.
Qed.

Lemma exact_line_is_recovered_witness :
  let ds := summaries_of_steps [1000; 1500; 2000; 2500]%Z in
  let values := HealthAnalyzer.field_values ds HealthAnalyzer.f_total_steps in
  fst (regression values) == 500
  /\ snd (regression values) == 1
  /\ Py.get "trend_direction"
       (@HealthAnalyzer._extract_trend sqrt_approx ds HealthAnalyzer.f_total_steps)
     = Some (Py.VStr "increasing").
Proof.
  intros ds values.
  assert (Hn : (2 <= length values)%nat) by (vm_compute; lia).
  assert (Hl : on_line 1000 500 values).
  { unfold on_line. vm_compute Np.arange. vm_compute values.
    repeat constructor. }
  exact (@exact_line_is_recovered sqrt_approx ds HealthAnalyzer.f_total_steps
           1000 500 Hn Hl).
Defined.

(* ================================================================== *)
(** ** Further properties: SleepSession.save and the sleep score *)
(* ================================================================== *)

Lemma ratio_truthy (total d : Z) :
  (0 < total)%Z -> (0 < d)%Z ->
  Py.truthyQ (Some (Py.Zdiv_true total d * 100)) = true.
Proof.
  intros Ht Hd. unfold Py.truthyQ, Py.Qeq_bool0.
  destruct (Qeq_bool _ 0) eqn:E; [|reflexivity].
  apply Qeq_bool_iff in E. exfalso.
  assert (0 < Py.Zdiv_true total d * 100).
  { unfold Py.Zdiv_true. apply Qmult_lt_0_compat; [|lra].
    apply Qlt_shift_div_l.
    - replace 0 with (inject_Z 0) by reflexivity. now rewrite <- Zlt_Qlt.
    - rewrite Qmult_0_l. replace 0 with (inject_Z 0) by reflexivity.
      now rewrite <- Zlt_Qlt. }
  lra.
Qed.

Lemma band_label_nonempty (q : Q) :
  String.eqb
    (if Qle_bool 85 q then "excellent"
     else if Qle_bool 70 q then "good"
     else if Qle_bool 50 q then "fair" else "poor") "" = false.
Proof.
  destruct (Qle_bool 85 q); [reflexivity|].
  destruct (Qle_bool 70 q); [reflexivity|].
  destruct (Qle_bool 50 q); reflexivity.
Qed.

(** X3.  [SleepSession.save] is idempotent on the fields it derives: saving
    a session that came out of [save] derives nothing anew and raises
    nothing (a derived efficiency is positive, hence kept; a derived category
    is not empty, hence kept; a duration derived as 0 is derived as 0
    again). *)
Theorem sleep_save_idempotent (s s' : SleepSession) :
  Sleep.save s = Ok s' -> Sleep.save s' = Ok s'.
Proof.
  unfold Sleep.save. cbv zeta. intro H.
  match type of H with
  | bind ?c _ = _ => destruct c as [eff|e] eqn:Eeff
  end; cbn [bind] in H; [|discriminate].
  inversion H as [Hs']. clear H.
  cbn [duration_minutes start_time end_time sleep_efficiency awake_minutes
       light_minutes deep_minutes rem_minutes quality_score quality_category
       interruptions].
  set (d1 := if negb (Py.truthyZ (duration_minutes s)) then _ else _) in *.
  (* the duration derived again is the same *)
  assert (Hd : (if negb (Py.truthyZ d1)
                then match start_time s, end_time s with
                     | Some t0, Some t1 =>
                         Some (Py.int_of (total_seconds (t1 - t0) / 60))
                     | _, _ => d1
                     end
                else d1) = d1).
  { destruct (Py.truthyZ d1) eqn:T1; cbn [negb]; [reflexivity|].
    unfold d1 in *.
    destruct (Py.truthyZ (duration_minutes s)) eqn:T0; cbn [negb] in *.
    - congruence.
    - destruct (start_time s), (end_time s); reflexivity. }
  rewrite Hd.
  (* the efficiency derived again is the same *)
  assert (He : (if negb (Py.truthyQ eff)
                then match d1 with
                     | None => Raise TypeError
                     | Some d =>
                         if (0 <? d)%Z
                         then
                           if (0 <? awake_minutes s + light_minutes s
                                    + deep_minutes s + rem_minutes s)%Z
                           then Ok (Some (Py.Zdiv_true
                                            (awake_minutes s + light_minutes s
                                             + deep_minutes s + rem_minutes s)
                                            d * 100))
                           else Ok eff
                         else Ok eff
                     end
                else Ok eff) = Ok eff).
  { destruct (Py.truthyQ eff) eqn:Te; cbn [negb]; [reflexivity|].
    destruct (Py.truthyQ (sleep_efficiency s)) eqn:T0; cbn [negb] in Eeff.
    - inversion Eeff; subst eff. congruence.
    - destruct d1 as [d|]; [|discriminate].
      set (tot := (awake_minutes s + light_minutes s + deep_minutes s
                   + rem_minutes s)%Z) in *.
      destruct (Z.ltb_spec 0 d) as [Epos|Epos]; [|reflexivity].
      destruct (Z.ltb_spec 0 tot) as [Etot|Etot]; [|reflexivity].
      inversion Eeff; subst eff.
      rewrite ratio_truthy in Te by assumption.
      discriminate. }
  rewrite He. cbn [bind]. f_equal. f_equal.
  destruct (Py.truthyQ (quality_score s)); cbn [andb]; [|reflexivity].
  destruct (String.eqb (quality_category s) "") eqn:Ec.
  - rewrite band_label_nonempty. reflexivity.
  - rewrite Ec. reflexivity.
Qed.

Lemma sleep_save_idempotent_witness :
  exists s',
    Sleep.save (stages_only (Some 420%Z)) = Ok s' /\ Sleep.save s' = Ok s'.
Proof.
  pose (s' := match Sleep.save (stages_only (Some 420%Z)) with
              | Ok r => r
              | Raise _ => stages_only None
              end).
  exists s'.
  assert (E : Sleep.save (stages_only (Some 420%Z)) = Ok s') by reflexivity.
  split; [exact E|].
  exact (sleep_save_idempotent (stages_only (Some 420%Z)) s' E).
Defined.

(** X4.  A session without stored efficiency whose four stage counts (awake
    included) add up to its positive duration comes out of [save] with
    efficiency 100, however much of the night was spent awake; the
    efficiency analysis of the saved session then reports 100 and
    "excellent". *)
Theorem saved_efficiency_is_100_when_stages_fill_the_night
  (s : SleepSession) (d : Z) :
  Py.truthyQ (sleep_efficiency s) = false ->
  duration_minutes s = Some d ->
  (0 < d)%Z ->
  (awake_minutes s + light_minutes s + deep_minutes s + rem_minutes s = d)%Z ->
  exists s' e report p,
    Sleep.save s = Ok s'
    /\ awake_minutes s' = awake_minutes s
    /\ sleep_efficiency s' = Some e /\ e == 100
    /\ SleepProcessor._analyze_sleep_efficiency s' = Ok report
    /\ Py.get "efficiency_percentage" report = Some (Py.VFloat p) /\ p == 100
    /\ Py.get "status" report = Some (Py.VStr "excellent").
Proof.
  intros Heff Hd Hpos Hsum.
  assert (Htr : Py.truthyZ (Some d) = true).
  { unfold Py.truthyZ. destruct (Z.eqb_spec d 0); [lia | reflexivity]. }
  assert (E100 : Py.Zdiv_true d d * 100 == 100).
  { unfold Py.Zdiv_true. field. intro E.
    assert (0 < inject_Z d)
      by (replace 0 with (inject_Z 0) by reflexivity; now rewrite <- Zlt_Qlt).
    lra. }
  assert (Ht : Py.truthyQ (Some (Py.Zdiv_true d d * 100)) = true)
    by (now apply ratio_truthy).
  assert (Hsave : Sleep.save s
                  = Ok (mkSleep (start_time s) (end_time s) (Some d)
                          (awake_minutes s) (light_minutes s) (deep_minutes s)
                          (rem_minutes s) (quality_score s)
                          (if Py.truthyQ (quality_score s)
                              && String.eqb (quality_category s) ""
                           then
                             let q := Py.orQ (quality_score s) 0 in
                             if Qle_bool 85 q then "excellent"%string
                             else if Qle_bool 70 q then "good"%string
                             else if Qle_bool 50 q then "fair"%string
                             else "poor"%string
                           else quality_category s)
                          (interruptions s)
                          (Some (Py.Zdiv_true d d * 100)))).
  { unfold Sleep.save. cbv zeta. rewrite Heff, Hd, Htr. cbn [negb].
    rewrite Hsum. replace (0 <? d)%Z with true by (symmetry; now apply Z.ltb_lt).
    cbn [bind]. reflexivity. }
  assert (Hor : Py.orQ (Some (Py.Zdiv_true d d * 100)) 0
                == 100).
  { unfold Py.orQ. unfold Py.truthyQ in Ht.
    destruct (Py.Qeq_bool0 _); [discriminate | exact E100]. }
  eexists. exists (Py.Zdiv_true d d * 100). 
  exists [kv "efficiency_percentage"
            (Py.VFloat (Py.round (Py.orQ (Some (Py.Zdiv_true d d * 100)) 0) 1));
          kv "status" (Py.VStr "excellent");
          kv "message" (Py.VStr "Very efficient sleep");
          kv "time_in_bed_minutes" (Py.VInt d);
          kv "actual_sleep_minutes"
            (Py.VInt (light_minutes s + deep_minutes s + rem_minutes s))].
  exists (Py.round (Py.orQ (Some (Py.Zdiv_true d d * 100)) 0) 1).
  split; [exact Hsave|]. split; [reflexivity|].
  split; [reflexivity|]. split; [exact E100|].
  split.
  - unfold SleepProcessor._analyze_sleep_efficiency.
    cbn [sleep_efficiency duration_minutes]. rewrite Ht. cbn [bind].
    assert (H90 : Qle_bool 90 (Py.orQ (Some (Py.Zdiv_true d d * 100)) 0) = true).
    { apply Qle_bool_iff. rewrite Hor. lra. }
    rewrite H90. reflexivity.
  - split; [reflexivity|]. split; [|reflexivity].
    rewrite (round_proper _ _ Hor 1%nat 1%nat eq_refl).
    vm_compute. reflexivity.
Qed.

Lemma saved_efficiency_is_100_when_stages_fill_the_night_witness :
  let s := mkSleep None None (Some 480%Z) 200 180 50 50 None "" 0 None in
  exists s' e report p,
    Sleep.save s = Ok s'
    /\ awake_minutes s' = 200%Z
    /\ sleep_efficiency s' = Some e /\ e == 100
    /\ SleepProcessor._analyze_sleep_efficiency s' = Ok report
    /\ Py.get "efficiency_percentage" report = Some (Py.VFloat p) /\ p == 100
    /\ Py.get "status" report = Some (Py.VStr "excellent").
Proof.
  intro s.
  exact (saved_efficiency_is_100_when_stages_fill_the_night s 480%Z
           eq_refl eq_refl eq_refl eq_refl).
Defined.

Lemma weighted_sleep_score_bounds (s : SleepSession) (dm : Z) :
  (43 # 2) <= weighted_sleep_score s dm <= 100.
Proof.
  unfold weighted_sleep_score.
  assert (H1 : 20 <= duration_factor (Py.Zdiv_true dm 60) <= 100).
  { unfold duration_factor. repeat destruct (within _ _ _); lra. }
  assert (H2 : 30 <= efficiency_factor (effective_efficiency s dm) <= 100).
  { unfold efficiency_factor. repeat destruct (Qle_bool _ _); lra. }
  assert (H3 : 20 <= deep_factor (Sleep.deep_sleep_percentage s) <= 100).
  { unfold deep_factor. repeat destruct (within _ _ _); lra. }
  assert (H4 : 20 <= rem_factor (Sleep.rem_sleep_percentage s) <= 100).
  { unfold rem_factor. repeat destruct (within _ _ _); lra. }
  assert (H5 : 10 <= interruption_factor (interruptions s) <= 100).
  { unfold interruption_factor. repeat destruct (_ <=? _)%Z; lra. }
  lra.
Qed.

(** X5.  Whenever the duration is set, [_calculate_sleep_score] returns a
    score between 21.5 and 100: no session, however bad, scores below 21.5
    (every factor table has a positive floor), and both ends are reached. *)
Theorem sleep_score_between_21_5_and_100 (s : SleepSession) (dm : Z) :
  duration_minutes s = Some dm ->
  exists q,
    SleepProcessor._calculate_sleep_score s = Ok q
    /\ (43 # 2) <= q <= 100.
Proof.
  intro Hd. rewrite calculate_sleep_score_weighted, Hd.
  eexists. split; [reflexivity|].
  destruct (weighted_sleep_score_bounds s dm) as [Hlo Hhi].
  split.
  - apply Qle_trans with (Py.round (43 # 2) 1).
    + vm_compute. discriminate.
    + now apply round_mono.
  - apply Qle_trans with (Py.round 100 1).
    + now apply round_mono.
    + vm_compute. discriminate.
Qed.

Lemma sleep_score_between_21_5_and_100_witness :
  (exists q,
     SleepProcessor._calculate_sleep_score
       (mkSleep None None (Some 0%Z) 0 0 0 0 None "" 11 None) = Ok q
     /\ (43 # 2) <= q <= 100)
  /\ (exists q,
        SleepProcessor._calculate_sleep_score scenario_session = Ok q
        /\ (43 # 2) <= q <= 100).
Proof.
  split.
  - exact (sleep_score_between_21_5_and_100
             (mkSleep None None (Some 0%Z) 0 0 0 0 None "" 11 None) 0%Z eq_refl).
  - exact (sleep_score_between_21_5_and_100 scenario_session 420%Z eq_refl).
Defined.

(** Both ends of the range are reached. *)
Lemma sleep_score_range_is_tight :
  (exists q,
     SleepProcessor._calculate_sleep_score
       (mkSleep None None (Some 0%Z) 0 0 0 0 None "" 11 None) = Ok q
     /\ q == (43 # 2))
  /\ (exists q,
        SleepProcessor._calculate_sleep_score scenario_session = Ok q
        /\ q == 100).
Proof.
  split; eexists; (split; [reflexivity | vm_compute; reflexivity]).
Qed.

(* ================================================================== *)
(** ** Further properties: when detect_anomalies fails *)
(* ================================================================== *)




(* ================================================================== *)
(** ** HeartRateProcessor.calculate_heart_rate_zones *)
(* ================================================================== *)












Lemma add_at_keys (k : string) (v : Q) (d : list (string * Q)) :
  map fst (HeartRateProcessor.add_at k v d) = map fst d.
Proof.
  induction d as [|[k' x] d IH]; [reflexivity|].
  cbn [HeartRateProcessor.add_at]. destruct (String.eqb k k'); cbn [map fst].
  - reflexivity.
  - now rewrite IH.
Qed.



Lemma zone_step_keys d r n :
  map fst (HeartRateProcessor.zone_step d r n) = map fst d.
Proof.
  unfold HeartRateProcessor.zone_step. cbv zeta.
  destruct (HeartRateProcessor.zone_of _); [apply add_at_keys | reflexivity].
Qed.



Lemma zone_loop_unfold r n rest d :
  HeartRateProcessor.zone_loop (r :: n :: rest) d
  = HeartRateProcessor.zone_loop (n :: rest)
      (HeartRateProcessor.zone_step d r n).
Proof. reflexivity. Qed.


Lemma zone_loop_keys (readings : table) d :
  map fst (HeartRateProcessor.zone_loop readings d) = map fst d.
Proof.
  revert d. induction readings as [|r rs IH]; intro d; [reflexivity|].
  destruct rs as [|n rest]; [reflexivity|].
  rewrite zone_loop_unfold, IH. apply zone_step_keys.
Qed.














(** Nine of the ten minutes of a steady 120 bpm are counted, all in zone 2;
    the same ten minutes at 185 bpm count nowhere. *)
Lemma zones_of_steady_readings :
  entry (HeartRateProcessor.calculate_heart_rate_zones (steady_readings 120)
           1%N 0 600000000) "time_in_zones_minutes" "zone_2_aerobic"
  = Some (Py.round 9 1)
  /\ entry (HeartRateProcessor.calculate_heart_rate_zones (steady_readings 185)
              1%N 0 600000000) "time_in_zones_minutes" "zone_5_maximum"
     = Some (Py.round 0 1).
Proof. split; vm_compute; reflexivity. Qed.

(* ================================================================== *)
(** ** SleepProcessor.analyze_sleep_session *)
(* ================================================================== *)

Lemma band_choice {A : Type} (x a b c d e f : Q) (v1 v2 v3 v4 : A) :
  a <= b -> b <= c -> c <= d -> d <= e -> e <= f ->
  (if SleepProcessor.le_le c x d then v1
   else if SleepProcessor.le_lt b x c || SleepProcessor.lt_le d x e then v2
   else if SleepProcessor.le_lt a x b || SleepProcessor.lt_le e x f then v3
   else v4)
  = (if within c x d then v1
     else if within b x e then v2
     else if within a x f then v3
     else v4).
Proof.
  intros Hab Hbc Hcd Hde Hef.
  unfold SleepProcessor.le_le, SleepProcessor.le_lt, SleepProcessor.lt_le, within.
  Qbool_cases.
Qed.

Lemma get_of_dict (k : string) (d : Py.dict) :
  Obj.get k (Obj.of_dict d) = option_map PVal (Py.get k d).
Proof.
  unfold Obj.of_dict. cbn [Obj.get].
  induction d as [|[k' v] d IH]; [reflexivity|].
  cbn [map Obj.lookup Py.get fst snd].
  destruct (String.eqb k k'); [reflexivity | exact IH].
Qed.

(** The stage analysis of a session with sleep in it and its duration set:
    the labels of deep and REM sleep are those of the score's factors. *)
Lemma stage_analysis_labels (s : SleepSession) (dm : Z) :
  duration_minutes s = Some dm ->
  Sleep.total_sleep_minutes s <> 0%Z ->
  exists stage evaluations,
    SleepProcessor._analyze_sleep_stages s = Ok stage
    /\ Obj.get "evaluations" stage = Some evaluations
    /\ Obj.get "status" (Obj.get_or_empty "deep" evaluations)
       = Some (Obj.str (label_of_factor
                          (deep_factor (Sleep.deep_sleep_percentage s))))
    /\ Obj.get "status" (Obj.get_or_empty "rem" evaluations)
       = Some (Obj.str (label_of_factor
                          (rem_factor (Sleep.rem_sleep_percentage s)))).
Proof.
  intros Hd Ht. unfold SleepProcessor._analyze_sleep_stages. cbv zeta.
  rewrite Hd.
  destruct (Z.eqb_spec (Sleep.total_sleep_minutes s) 0) as [E | _];
    [contradiction|].
  rewrite (band_choice (Sleep.deep_sleep_percentage s) 5 10 15 25 30 35) by lra.
  rewrite (band_choice (Sleep.rem_sleep_percentage s) 10 15 20 25 30 35) by lra.
  eexists. eexists. split; [reflexivity|].
  split; [reflexivity|].
  unfold Obj.get_or_empty.
  cbn [Obj.get Obj.lookup String.eqb Ascii.eqb Bool.eqb].
  unfold deep_factor, rem_factor. split.
  - destruct (within 15 _ 25); [reflexivity|].
    destruct (within 10 _ 30); [reflexivity|].
    destruct (within 5 _ 35); reflexivity.
  - destruct (within 20 _ 25); [reflexivity|].
    destruct (within 15 _ 30); [reflexivity|].
    destruct (within 10 _ 35); reflexivity.
Qed.

Lemma stage_analysis_no_sleep (s : SleepSession) :
  Sleep.total_sleep_minutes s = 0%Z ->
  exists stage,
    SleepProcessor._analyze_sleep_stages s = Ok stage
    /\ Obj.get "evaluations" stage = None.
Proof.
  intro Ht. unfold SleepProcessor._analyze_sleep_stages. cbv zeta.
  rewrite Ht. cbn [Z.eqb]. eexists. split; reflexivity.
Qed.

Lemma efficiency_analysis_label (s : SleepSession) (dm : Z) :
  duration_minutes s = Some dm ->
  exists report,
    SleepProcessor._analyze_sleep_efficiency s = Ok report
    /\ Py.get "status" report
       = Some (Py.VStr (label_of_factor
                          (efficiency_factor (effective_efficiency s dm)))).
Proof.
  intro Hd. unfold SleepProcessor._analyze_sleep_efficiency. rewrite Hd.
  assert (E : (if Py.truthyQ (sleep_efficiency s)
               then Ok (Py.orQ (sleep_efficiency s) 0)
               else Ok (if (0 <? dm)%Z
                        then Py.Zdiv_true (Sleep.total_sleep_minutes s) dm * 100
                        else 0))
              = Ok (effective_efficiency s dm)).
  { unfold effective_efficiency, Py.truthyQ, Py.orQ, Sleep.total_sleep_minutes.
    destruct (sleep_efficiency s) as [q|]; [|reflexivity].
    destruct (Py.Qeq_bool0 q); reflexivity. }
  rewrite E. cbn [bind]. unfold efficiency_factor.
  destruct (Qle_bool 90 _); [eexists; split; reflexivity|].
  destruct (Qle_bool 85 _); [eexists; split; reflexivity|].
  destruct (Qle_bool 75 _); eexists; split; reflexivity.
Qed.

Lemma heart_rate_status `{NumpySqrt} (db : table) (row : SleepSessionRow) :
  Obj.is_str
    (Obj.get "resting_hr_status"
       (SleepProcessor._analyze_heart_rate_during_sleep db row)) "elevated"
  = match SleepProcessor.sleep_readings db row with
    | [] => false
    | readings =>
        Py.Qlt_bool 70 (Np.mean (map inject_Z (map hr_bpm readings)))
    end.
Proof.
  unfold SleepProcessor._analyze_heart_rate_during_sleep. cbv zeta.
  destruct (SleepProcessor.sleep_readings db row) as [|r rs]; [reflexivity|].
  destruct (Py.Qlt_bool 70 _).
  - destruct (Py.Qlt_bool _ 5); [reflexivity|].
    destruct (Py.Qlt_bool 15 _); reflexivity.
  - destruct (Py.Qlt_bool _ 40);
      (destruct (Py.Qlt_bool _ 5); [reflexivity|]);
      destruct (Py.Qlt_bool 15 _); reflexivity.
Qed.

Lemma label_poor_deep (p : Q) :
  String.eqb (label_of_factor (deep_factor p)) "poor" = true
  <-> (p < 5 \/ 35 < p).
Proof.
  unfold deep_factor, within.
  destruct (Qle_bool 15 p) eqn:E1; [apply Qle_bool_iff in E1
                                   | apply Qle_bool_false_iff in E1];
  destruct (Qle_bool p 25) eqn:E2; [apply Qle_bool_iff in E2
                                   | apply Qle_bool_false_iff in E2
                                   | apply Qle_bool_iff in E2
                                   | apply Qle_bool_false_iff in E2];
  cbn [andb];
  repeat match goal with
         | |- context [Qle_bool ?a p] =>
             let E := fresh "E" in
             destruct (Qle_bool a p) eqn:E;
             [apply Qle_bool_iff in E | apply Qle_bool_false_iff in E]
         | |- context [Qle_bool p ?a] =>
             let E := fresh "E" in
             destruct (Qle_bool p a) eqn:E;
             [apply Qle_bool_iff in E | apply Qle_bool_false_iff in E]
         end; cbn [andb];
  (split; [intro Hx; try (vm_compute in Hx; discriminate); lra
          | intro Hx; try reflexivity; exfalso; lra]).
Qed.

Lemma label_poor_efficiency (e : Q) :
  String.eqb (label_of_factor (efficiency_factor e)) "poor" = true
  <-> e < 75.
Proof.
  unfold efficiency_factor.
  repeat match goal with
         | |- context [Qle_bool ?a e] =>
             let E := fresh "E" in
             destruct (Qle_bool a e) eqn:E;
             [apply Qle_bool_iff in E | apply Qle_bool_false_iff in E]
         end;
  (split; [intro Hx; try (vm_compute in Hx; discriminate); lra
          | intro Hx; try reflexivity; exfalso; lra]).
Qed.

(** What [analyze_sleep_session] returns for a session whose duration is
    set: the types of the issues and the categories of the recommendations,
    in terms of the session. *)
Lemma analysis_lists `{NumpySqrt} (db : table) (row : SleepSessionRow) (dm : Z) :
  let s := session row in
  duration_minutes s = Some dm ->
  exists analysis,
    SleepProcessor.analyze_sleep_session db row = Ok analysis
    /\ issue_types analysis
       = (if (60 <? awake_minutes s)%Z || (10 <? interruptions s)%Z
          then ["potential_insomnia"%string] else [])
         ++ (if negb (Sleep.total_sleep_minutes s =? 0)%Z
                && String.eqb
                     (label_of_factor
                        (deep_factor (Sleep.deep_sleep_percentage s))) "poor"
             then ["insufficient_deep_sleep"%string] else [])
         ++ (if String.eqb
                  (label_of_factor
                     (efficiency_factor (effective_efficiency s dm))) "poor"
             then ["low_sleep_efficiency"%string] else [])
         ++ (if was_restless row then ["restless_sleep"%string] else [])
    /\ recommendation_categories analysis
       = (if negb (Sleep.total_sleep_minutes s =? 0)%Z
             && negb (Qle_bool 70
                        (deep_factor (Sleep.deep_sleep_percentage s)))
          then ["deep_sleep"%string] else [])
         ++ (if negb (Sleep.total_sleep_minutes s =? 0)%Z
                && negb (Qle_bool 70
                           (rem_factor (Sleep.rem_sleep_percentage s)))
             then ["rem_sleep"%string] else [])
         ++ (if negb (Qle_bool 70
                        (efficiency_factor (effective_efficiency s dm)))
             then ["efficiency"%string] else [])
         ++ (match SleepProcessor.sleep_readings db row with
             | [] => []
             | readings =>
                 if Py.Qlt_bool 70 (Np.mean (map inject_Z (map hr_bpm readings)))
                 then ["heart_rate"%string] else []
             end)
    /\ status_of analysis "efficiency_analysis" None
       = Some (Obj.str (label_of_factor
                          (efficiency_factor (effective_efficiency s dm))))
    /\ (Sleep.total_sleep_minutes s <> 0%Z ->
        status_of analysis "stage_analysis" (Some "deep"%string)
        = Some (Obj.str (label_of_factor
                           (deep_factor (Sleep.deep_sleep_percentage s))))
        /\ status_of analysis "stage_analysis" (Some "rem"%string)
           = Some (Obj.str (label_of_factor
                              (rem_factor (Sleep.rem_sleep_percentage s))))).
Proof.
  intros s Hd.
  destruct (efficiency_analysis_label s dm Hd) as (effd & Heff & Hstatus).
  pose proof (heart_rate_status db row) as Hhr.
  assert (Hscore : exists q,
             (if Py.truthyQ (quality_score s)
              then Ok (Py.orQ (quality_score s) 0)
              else SleepProcessor._calculate_sleep_score s) = Ok q).
  { destruct (Py.truthyQ (quality_score s)); [eexists; reflexivity|].
    rewrite calculate_sleep_score_weighted, Hd. eexists; reflexivity. }
  destruct Hscore as (q & Hq).
  assert (Heffst : Obj.get "status" (Obj.of_dict effd)
                   = Some (Obj.str (label_of_factor
                             (efficiency_factor (effective_efficiency s dm))))).
  { rewrite get_of_dict, Hstatus. reflexivity. }
  set (le := label_of_factor (efficiency_factor (effective_efficiency s dm))) in *.
  assert (Hfp : forall l,
             SleepProcessor.fair_or_poor (Some (Obj.str (label_of_factor l)))
             = negb (Qle_bool 70 l)).
  { intro l. unfold SleepProcessor.fair_or_poor, label_of_factor, Obj.is_str, Obj.str.
    destruct (Qle_bool 100 l) eqn:E100.
    - apply Qle_bool_iff in E100.
      assert (E70 : Qle_bool 70 l = true) by (apply Qle_bool_iff; lra).
      rewrite E70. reflexivity.
    - destruct (Qle_bool 70 l); [reflexivity|].
      destruct (Qle_bool 40 l); reflexivity. }
  assert (Hfpe : SleepProcessor.fair_or_poor (Some (Obj.str le))
                 = negb (Qle_bool 70 (efficiency_factor (effective_efficiency s dm))))
    by apply Hfp.
  destruct (Z.eq_dec (Sleep.total_sleep_minutes s) 0) as [Ht | Ht].
  - (* no sleep recorded *)
    destruct (stage_analysis_no_sleep s Ht) as (stage & Hstage & Hev).
    exists (PDict
              ([("overall_score"%string, Obj.float q);
                ("stage_analysis"%string, stage);
                ("efficiency_analysis"%string, Obj.of_dict effd);
                ("consistency_analysis"%string, PDict []);
                ("recommendations"%string,
                 PList (SleepProcessor._generate_sleep_recommendations stage
                          (Obj.of_dict effd)
                          (SleepProcessor._analyze_heart_rate_during_sleep db row)));
                ("heart_rate_analysis"%string,
                 SleepProcessor._analyze_heart_rate_during_sleep db row)]
               ++ [("issues"%string,
                    PList (SleepProcessor._detect_sleep_issues row
                             (PDict
                                [("overall_score"%string, Obj.float q);
                                 ("stage_analysis"%string, stage);
                                 ("efficiency_analysis"%string, Obj.of_dict effd);
                                 ("consistency_analysis"%string, PDict []);
                                 ("recommendations"%string,
                                  PList (SleepProcessor._generate_sleep_recommendations
                                           stage (Obj.of_dict effd)
                                           (SleepProcessor._analyze_heart_rate_during_sleep db row)));
                                 ("heart_rate_analysis"%string,
                                  SleepProcessor._analyze_heart_rate_during_sleep db row)])))])).
    split.
    { unfold SleepProcessor.analyze_sleep_session. cbv zeta. fold s.
      rewrite Hq, Hstage, Heff. reflexivity. }
    replace (Sleep.total_sleep_minutes s =? 0)%Z with true
      by (symmetry; now apply Z.eqb_eq).
    cbn [negb andb app].
    split; [|split; [|split]].
    + unfold issue_types, listed.
      cbn [Obj.get Obj.lookup app String.eqb Ascii.eqb Bool.eqb].
      unfold SleepProcessor._detect_sleep_issues. cbv zeta.
      unfold Obj.get_or_empty.
      cbn [Obj.get Obj.lookup app String.eqb Ascii.eqb Bool.eqb].
      rewrite Hev, Heffst. fold s.
      unfold Obj.is_str, Obj.str.
      rewrite !flat_map_app.
      destruct ((60 <? awake_minutes s)%Z || (10 <? interruptions s)%Z);
        destruct (String.eqb le "poor");
        destruct (was_restless row); reflexivity.
    + unfold recommendation_categories, listed.
      cbn [Obj.get Obj.lookup app String.eqb Ascii.eqb Bool.eqb].
      unfold SleepProcessor._generate_sleep_recommendations. cbv zeta.
      rewrite Hev, Heffst, Hfpe, Hhr.
      rewrite !flat_map_app.
      destruct (negb (Qle_bool 70 _));
        destruct (SleepProcessor.sleep_readings db row) as [|r rs];
        try reflexivity;
        destruct (Py.Qlt_bool 70 _); reflexivity.
    + unfold status_of.
      cbn [Obj.get Obj.lookup app String.eqb Ascii.eqb Bool.eqb].
      exact Heffst.
    + intro Hne. contradiction.
  - (* some sleep recorded *)
    destruct (stage_analysis_labels s dm Hd Ht)
      as (stage & evals & Hstage & Hev & Hdeep & Hrem).
    exists (PDict
              ([("overall_score"%string, Obj.float q);
                ("stage_analysis"%string, stage);
                ("efficiency_analysis"%string, Obj.of_dict effd);
                ("consistency_analysis"%string, PDict []);
                ("recommendations"%string,
                 PList (SleepProcessor._generate_sleep_recommendations stage
                          (Obj.of_dict effd)
                          (SleepProcessor._analyze_heart_rate_during_sleep db row)));
                ("heart_rate_analysis"%string,
                 SleepProcessor._analyze_heart_rate_during_sleep db row)]
               ++ [("issues"%string,
                    PList (SleepProcessor._detect_sleep_issues row
                             (PDict
                                [("overall_score"%string, Obj.float q);
                                 ("stage_analysis"%string, stage);
                                 ("efficiency_analysis"%string, Obj.of_dict effd);
                                 ("consistency_analysis"%string, PDict []);
                                 ("recommendations"%string,
                                  PList (SleepProcessor._generate_sleep_recommendations
                                           stage (Obj.of_dict effd)
                                           (SleepProcessor._analyze_heart_rate_during_sleep db row)));
                                 ("heart_rate_analysis"%string,
                                  SleepProcessor._analyze_heart_rate_during_sleep db row)])))])).
    split.
    { unfold SleepProcessor.analyze_sleep_session. cbv zeta. fold s.
      rewrite Hq, Hstage, Heff. reflexivity. }
    replace (Sleep.total_sleep_minutes s =? 0)%Z with false
      by (symmetry; now apply Z.eqb_neq).
    cbn [negb andb app].
    set (ld := label_of_factor (deep_factor (Sleep.deep_sleep_percentage s))) in *.
    set (lr := label_of_factor (rem_factor (Sleep.rem_sleep_percentage s))) in *.
    assert (Hfpd : SleepProcessor.fair_or_poor (Some (Obj.str ld))
                   = negb (Qle_bool 70 (deep_factor (Sleep.deep_sleep_percentage s))))
      by apply Hfp.
    assert (Hfpr : SleepProcessor.fair_or_poor (Some (Obj.str lr))
                   = negb (Qle_bool 70 (rem_factor (Sleep.rem_sleep_percentage s))))
      by apply Hfp.
    split; [|split; [|split]].
    + unfold issue_types, listed.
      cbn [Obj.get Obj.lookup app String.eqb Ascii.eqb Bool.eqb].
      unfold SleepProcessor._detect_sleep_issues. cbv zeta.
      unfold Obj.get_or_empty at 1 3.
      cbn [Obj.get Obj.lookup app String.eqb Ascii.eqb Bool.eqb].
      rewrite Hev, Hdeep, Heffst. fold s.
      unfold Obj.is_str, Obj.str.
      rewrite !flat_map_app.
      destruct ((60 <? awake_minutes s)%Z || (10 <? interruptions s)%Z);
        destruct (String.eqb ld "poor");
        destruct (String.eqb le "poor");
        destruct (was_restless row); reflexivity.
    + unfold recommendation_categories, listed.
      cbn [Obj.get Obj.lookup app String.eqb Ascii.eqb Bool.eqb].
      unfold SleepProcessor._generate_sleep_recommendations. cbv zeta.
      rewrite Hev, Hdeep, Hrem, Heffst, Hfpd, Hfpr, Hfpe, Hhr.
      rewrite !flat_map_app.
      destruct (negb (Qle_bool 70 (deep_factor _)));
        destruct (negb (Qle_bool 70 (rem_factor _)));
        destruct (negb (Qle_bool 70 (efficiency_factor _)));
        destruct (SleepProcessor.sleep_readings db row) as [|r rs];
        try reflexivity;
        destruct (Py.Qlt_bool 70 _); reflexivity.
    + unfold status_of.
      cbn [Obj.get Obj.lookup app String.eqb Ascii.eqb Bool.eqb].
      exact Heffst.
    + intros _. unfold status_of.
      cbn [Obj.get Obj.lookup app String.eqb Ascii.eqb Bool.eqb].
      unfold Obj.get_or_empty at 2 4. rewrite Hev. split; assumption.
Qed.

Lemma label_poor_low (l : Q) :
  String.eqb (label_of_factor l) "poor" = true -> Qle_bool 70 l = false.
Proof.
  unfold label_of_factor.
  destruct (Qle_bool 100 l); [discriminate|].
  destruct (Qle_bool 70 l); [discriminate|]. reflexivity.
Qed.

(** X9.  [analyze_sleep_session] raises exactly on sessions without a
    duration for which it has to compute with it (no stored quality score,
    or some sleep minutes recorded, or no stored efficiency), and then with
    a TypeError; on every session whose duration is set it returns. *)
Theorem analyze_sleep_session_fails_exactly_without_duration `{NumpySqrt}
  (db : table) (row : SleepSessionRow) :
  let s := session row in
  ((exists e, SleepProcessor.analyze_sleep_session db row = Raise e)
   <-> duration_minutes s = None
       /\ (Py.truthyQ (quality_score s) = false
           \/ Sleep.total_sleep_minutes s <> 0%Z
           \/ Py.truthyQ (sleep_efficiency s) = false))
  /\ (forall e, SleepProcessor.analyze_sleep_session db row = Raise e ->
                e = TypeError).
Proof.
  intro s.
  destruct (duration_minutes s) as [dm|] eqn:Hd.
  - destruct (analysis_lists db row dm Hd) as (analysis & Hrun & _).
    rewrite Hrun. split; [split|].
    + intros [e E]. discriminate.
    + intros [E _]. discriminate.
    + intros e E. discriminate.
  - unfold SleepProcessor.analyze_sleep_session. cbv zeta. fold s.
    unfold SleepProcessor._calculate_sleep_score,
      SleepProcessor._analyze_sleep_stages,
      SleepProcessor._analyze_sleep_efficiency. cbv zeta. rewrite Hd.
    destruct (Py.truthyQ (quality_score s)) eqn:Hq; cbn [bind].
    + destruct (Z.eqb_spec (Sleep.total_sleep_minutes s) 0) as [Ht | Ht];
        cbn [bind].
      * destruct (Py.truthyQ (sleep_efficiency s)) eqn:He; cbn [bind].
        -- destruct (if Qle_bool 90 _ then _ else _) as [status message].
           cbn [bind]. split; [split|].
           ++ intros [e E]. discriminate.
           ++ intros [_ [E | [E | E]]]; [discriminate | contradiction
                                        | discriminate].
           ++ intros e E. discriminate.
        -- split; [split|].
           ++ intros _. split; [reflexivity | right; right; reflexivity].
           ++ intros _. now exists TypeError.
           ++ intros e E. congruence.
      * split; [split|].
        -- intros _. split; [reflexivity | right; left; exact Ht].
        -- intros _. now exists TypeError.
        -- intros e E. congruence.
    + split; [split|].
      * intros _. split; [reflexivity | left; reflexivity].
      * intros _. now exists TypeError.
      * intros e E. congruence.
Qed.

(** X10.  For a session whose duration is set, the issues that
    [analyze_sleep_session] reports are: 'insufficient_deep_sleep' exactly
    when sleep was recorded and the deep-sleep share is below 5% or above 35%
    (too much deep sleep is reported under the same name);
    'low_sleep_efficiency' exactly when the efficiency used is below 75;
    'potential_insomnia' exactly when awake minutes exceed 60 or
    interruptions exceed 10; 'restless_sleep' exactly when the session is
    flagged restless. *)
Theorem sleep_issues_characterised `{NumpySqrt}
  (db : table) (row : SleepSessionRow) (dm : Z) :
  let s := session row in
  duration_minutes s = Some dm ->
  exists analysis,
    SleepProcessor.analyze_sleep_session db row = Ok analysis
    /\ (In "insufficient_deep_sleep"%string (issue_types analysis)
        <-> Sleep.total_sleep_minutes s <> 0%Z
            /\ (Sleep.deep_sleep_percentage s < 5
                \/ 35 < Sleep.deep_sleep_percentage s))
    /\ (In "low_sleep_efficiency"%string (issue_types analysis)
        <-> effective_efficiency s dm < 75)
    /\ (In "potential_insomnia"%string (issue_types analysis)
        <-> (60 < awake_minutes s \/ 10 < interruptions s)%Z)
    /\ (In "restless_sleep"%string (issue_types analysis)
        <-> was_restless row = true).
Proof.
  intros s Hd.
  destruct (analysis_lists db row dm Hd) as (analysis & Hrun & Hissues & _).
  fold s in Hissues.
  exists analysis. split; [exact Hrun|]. rewrite Hissues.
  pose proof (label_poor_deep (Sleep.deep_sleep_percentage s)) as Hdeep.
  pose proof (label_poor_efficiency (effective_efficiency s dm)) as Heff.
  destruct (String.eqb (label_of_factor (deep_factor _)) "poor");
  destruct (String.eqb (label_of_factor (efficiency_factor _)) "poor");
  destruct (Z.eqb_spec (Sleep.total_sleep_minutes s) 0) as [Ht | Ht];
  destruct (Z.ltb_spec 60 (awake_minutes s));
  destruct (Z.ltb_spec 10 (interruptions s));
  destruct (was_restless row);
  cbn [negb andb orb app In];
  (split; [|split; [|split]]);
  (split; intro Hx;
   repeat match goal with
          | H : _ \/ _ |- _ => destruct H
          | H : False |- _ => destruct H
          | H : _ /\ _ |- _ => destruct H
          end;
   try discriminate; try reflexivity; try contradiction; try lia;
   try (left; reflexivity);
   try (right; left; reflexivity);
   try (right; right; left; reflexivity);
   try (right; right; right; left; reflexivity);
   try (split; [assumption | apply Hdeep; reflexivity]);
   try (apply Heff; reflexivity);
   try (exfalso;
        match goal with
        | H : ?p < 5 |- _ =>
            assert (false = true) by (apply Hdeep; left; exact H); discriminate
        | H : 35 < ?p |- _ =>
            assert (false = true) by (apply Hdeep; right; exact H); discriminate
        | H : ?e < 75 |- _ =>
            assert (false = true) by (apply Heff; exact H); discriminate
        end)).
Qed.

Lemma sleep_issues_characterised_witness :
  exists analysis,
    @SleepProcessor.analyze_sleep_session sqrt_approx [] deep_heavy_night
    = Ok analysis
    /\ In "insufficient_deep_sleep"%string (issue_types analysis).
Proof.
  destruct (@sleep_issues_characterised sqrt_approx [] deep_heavy_night 480%Z
              eq_refl) as (analysis & Hrun & Hdeep & _).
  exists analysis. split; [exact Hrun|].
  apply Hdeep. split; [discriminate|].
  right. vm_compute. reflexivity.
Defined.

(** X11.  For a session whose duration is set, every stage or efficiency
    issue comes with its recommendation: when 'insufficient_deep_sleep' is
    among the issues, 'deep_sleep' is among the recommendations, and when
    'low_sleep_efficiency' is, 'efficiency' is.  The 'heart_rate'
    recommendation is given exactly when the user has readings with context
    'sleep' within the session and their mean is above 70 bpm. *)
Theorem sleep_issues_come_with_recommendations `{NumpySqrt}
  (db : table) (row : SleepSessionRow) (dm : Z) :
  let s := session row in
  duration_minutes s = Some dm ->
  exists analysis,
    SleepProcessor.analyze_sleep_session db row = Ok analysis
    /\ (In "insufficient_deep_sleep"%string (issue_types analysis) ->
        In "deep_sleep"%string (recommendation_categories analysis))
    /\ (In "low_sleep_efficiency"%string (issue_types analysis) ->
        In "efficiency"%string (recommendation_categories analysis))
    /\ (In "heart_rate"%string (recommendation_categories analysis)
        <-> SleepProcessor.sleep_readings db row <> []
            /\ 70 < Np.mean (map inject_Z
                               (map hr_bpm (SleepProcessor.sleep_readings db row)))).
Proof.
  intros s Hd.
  destruct (analysis_lists db row dm Hd)
    as (analysis & Hrun & Hissues & Hrecs & _).
  fold s in Hissues, Hrecs.
  exists analysis. split; [exact Hrun|]. rewrite Hissues, Hrecs.
  pose proof (label_poor_low (deep_factor (Sleep.deep_sleep_percentage s)))
    as Hdeep.
  pose proof (label_poor_low (efficiency_factor (effective_efficiency s dm)))
    as Heff.
  split; [|split].
  - destruct (String.eqb (label_of_factor (deep_factor _)) "poor").
    + rewrite (Hdeep eq_refl).
      destruct (negb (Sleep.total_sleep_minutes s =? 0)%Z); cbn [negb andb].
      * intros _. now left.
      * intro Hx. exfalso. revert Hx.
        repeat match goal with
               | |- context [if ?c then _ else _] => destruct c
               end; cbn [app In]; intuition discriminate.
    + intro Hx. exfalso. revert Hx. rewrite andb_false_r.
      repeat match goal with
             | |- context [if ?c then _ else _] => destruct c
             end; cbn [app In]; intuition discriminate.
  - destruct (String.eqb (label_of_factor (efficiency_factor _)) "poor").
    + rewrite (Heff eq_refl). cbn [negb]. intros _.
      apply in_or_app. right. apply in_or_app. right. now left.
    + intro Hx. exfalso. revert Hx.
      repeat match goal with
             | |- context [if ?c then _ else _] => destruct c
             end; cbn [app In]; intuition discriminate.
  - destruct (SleepProcessor.sleep_readings db row) as [|r rs] eqn:Er.
    + split.
      * intro Hx. exfalso. revert Hx.
        repeat match goal with
               | |- context [if ?c then _ else _] => destruct c
               end; cbn [app In]; intuition discriminate.
      * intros [Hne _]. now contradiction Hne.
    + destruct (Py.Qlt_bool 70 _) eqn:E.
      * apply Qlt_bool_iff in E. split.
        -- intros _. split; [discriminate | exact E].
        -- intros _. apply in_or_app. right. apply in_or_app. right.
           apply in_or_app. right. now left.
      * apply Qlt_bool_false_iff in E. split.
        -- intro Hx. exfalso. revert Hx.
           repeat match goal with
                  | |- context [if ?c then _ else _] => destruct c
                  end; cbn [app In]; intuition discriminate.
        -- intros [_ Hlt]. exfalso. lra.
Qed.

Lemma sleep_issues_come_with_recommendations_witness :
  exists analysis,
    @SleepProcessor.analyze_sleep_session sqrt_approx (sleep_bpm [72; 75; 78]%Z)
      deep_heavy_night = Ok analysis
    /\ In "heart_rate"%string (recommendation_categories analysis).
Proof.
  destruct (@sleep_issues_come_with_recommendations sqrt_approx
              (sleep_bpm [72; 75; 78]%Z) deep_heavy_night 480%Z eq_refl)
    as (analysis & Hrun & _ & _ & Hhr).
  exists analysis. split; [exact Hrun|].
  apply Hhr. split; [vm_compute; discriminate | vm_compute; reflexivity].
Defined.

(** X12.  The labels of [analyze_sleep_session] and the factors of
    [_calculate_sleep_score] use the same bands: for a session with a
    duration and some sleep recorded, the status reported for deep sleep,
    for REM sleep and for efficiency is the label of the factor the score
    gives that quantity (100: excellent; 70 or 85: good; 40 or 60: fair;
    20 or 30: poor), and the score of that session is the rounded weighted
    sum of those factors. *)
Theorem sleep_labels_agree_with_score_factors `{NumpySqrt}
  (db : table) (row : SleepSessionRow) (dm : Z) :
  let s := session row in
  duration_minutes s = Some dm ->
  Sleep.total_sleep_minutes s <> 0%Z ->
  exists analysis,
    SleepProcessor.analyze_sleep_session db row = Ok analysis
    /\ status_of analysis "stage_analysis" (Some "deep"%string)
       = Some (Obj.str (label_of_factor
                          (deep_factor (Sleep.deep_sleep_percentage s))))
    /\ status_of analysis "stage_analysis" (Some "rem"%string)
       = Some (Obj.str (label_of_factor
                          (rem_factor (Sleep.rem_sleep_percentage s))))
    /\ status_of analysis "efficiency_analysis" None
       = Some (Obj.str (label_of_factor
                          (efficiency_factor (effective_efficiency s dm))))
    /\ SleepProcessor._calculate_sleep_score s
       = Ok (Py.round (weighted_sleep_score s dm) 1).
Proof.
  intros s Hd Ht.
  destruct (analysis_lists db row dm Hd)
    as (analysis & Hrun & _ & _ & Heff & Hstage).
  fold s in Heff, Hstage. destruct (Hstage Ht) as [Hdeep Hrem].
  exists analysis. split; [exact Hrun|].
  split; [exact Hdeep|]. split; [exact Hrem|]. split; [exact Heff|].
  rewrite calculate_sleep_score_weighted, Hd. reflexivity.
Qed.

Lemma sleep_labels_agree_with_score_factors_witness :
  exists analysis,
    @SleepProcessor.analyze_sleep_session sqrt_approx [] deep_heavy_night
    = Ok analysis
    /\ status_of analysis "stage_analysis" (Some "deep"%string)
       = Some (Obj.str "poor")
    /\ status_of analysis "stage_analysis" (Some "rem"%string)
       = Some (Obj.str "fair")
    /\ status_of analysis "efficiency_analysis" None
       = Some (Obj.str "excellent").
Proof.
  assert (Ht : Sleep.total_sleep_minutes (session deep_heavy_night) <> 0%Z)
    by discriminate.
  destruct (@sleep_labels_agree_with_score_factors sqrt_approx []
              deep_heavy_night 480%Z eq_refl Ht)
    as (analysis & Hrun & Hdeep & Hrem & Heff & _).
  exists analysis. split; [exact Hrun|].
  split; [exact Hdeep|]. split; [exact Hrem|]. exact Heff.
Defined.

(* ================================================================== *)
(** ** models.py: HealthGoal.save and Activity.save *)
(* ================================================================== *)

Lemma map_fixed {A : Type} (f : A -> A) (l : list A) :
  (forall x, In x l -> f x = x) -> map f l = l.
Proof.
  intro H. rewrite <- (map_id l) at 2. now apply map_ext_in.
Qed.

Lemma filter_none {A : Type} (p : A -> bool) (l : list A) :
  (forall x, In x l -> p x = false) -> List.filter p l = [].
Proof.
  induction l as [|y l IH]; intro H; [reflexivity|].
  cbn [List.filter]. rewrite (H y (or_introl eq_refl)).
  apply IH. intros x Hx. apply H. now right.
Qed.

Lemma filter_unique (db : Goal.goals) (x : HealthGoal) :
  NoDup (map goal_id db) -> In x db ->
  List.filter (fun y => String.eqb (goal_id y) (goal_id x)) db = [x].
Proof.
  induction db as [|y db IH]; intros Hnd Hin; [destruct Hin|].
  inversion Hnd as [|? ? Hnotin Hnd']; subst.
  cbn [List.filter]. destruct Hin as [-> | Hin].
  - rewrite String.eqb_refl. f_equal.
    apply filter_none.
    intros z Hz. apply String.eqb_neq. intro E.
    apply Hnotin. rewrite <- E. now apply in_map.
  - destruct (String.eqb_spec (goal_id y) (goal_id x)) as [E | _].
    + exfalso. apply Hnotin. rewrite E. now apply in_map.
    + now apply IH.
Qed.

Lemma filter_map_length {A : Type} (p : A -> bool) (f : A -> A) (l : list A) :
  (forall y, p (f y) = true -> p y = true) ->
  (length (List.filter p (map f l)) <= length (List.filter p l))%nat.
Proof.
  intro H. induction l as [|y l IH]; [apply Nat.le_refl|].
  cbn [map List.filter].
  destruct (p (f y)) eqn:E.
  - rewrite (H y E). cbn [length]. lia.
  - destruct (p y); cbn [length]; lia.
Qed.

Lemma unset_ids (db : Goal.goals) (self : HealthGoal) :
  map goal_id (Goal.unset_other_primaries db self) = map goal_id db.
Proof.
  unfold Goal.unset_other_primaries. rewrite map_map. apply map_ext.
  intro g. now destruct (_ && _ && _).
Qed.

Lemma unset_others (db : Goal.goals) (self y : HealthGoal) :
  In y (Goal.unset_other_primaries db self) ->
  goal_id y <> goal_id self ->
  N.eqb (goal_user y) (goal_user self) && is_primary y = false.
Proof.
  unfold Goal.unset_other_primaries. intros Hin Hne.
  apply in_map_iff in Hin. destruct Hin as (g & <- & _).
  destruct (N.eqb (goal_user g) (goal_user self)) eqn:Eu;
    destruct (is_primary g) eqn:Ep;
    destruct (String.eqb_spec (goal_id g) (goal_id self)) as [Ei | Ei];
    cbn [andb negb Goal.with_primary goal_user is_primary goal_id] in *;
    rewrite ?Eu, ?Ep; try reflexivity; try contradiction.
Qed.

Lemma write_ids (db : Goal.goals) (self : HealthGoal) :
  NoDup (map goal_id db) -> NoDup (map goal_id (Goal.write db self)).
Proof.
  intro Hnd. unfold Goal.write.
  destruct (existsb _ db) eqn:E.
  - rewrite map_map.
    replace (map (fun g => goal_id (if String.eqb (goal_id g) (goal_id self)
                                     then self else g)) db)
      with (map goal_id db); [exact Hnd|].
    apply map_ext. intro g.
    destruct (String.eqb_spec (goal_id g) (goal_id self)); congruence.
  - rewrite map_app. cbn [map].
    apply NoDup_app; [exact Hnd | repeat constructor; intros [] |].
    intros i Hi [<- | []].
    apply in_map_iff in Hi. destruct Hi as (g & Eg & Hg).
    assert (Ex : existsb (fun g => String.eqb (goal_id g) (goal_id self)) db
                 = true).
    { apply existsb_exists. exists g. split; [exact Hg|].
      rewrite Eg. apply String.eqb_refl. }
    congruence.
Qed.

Lemma write_rows (db : Goal.goals) (self y : HealthGoal) :
  In y (Goal.write db self) ->
  y = self \/ (goal_id y <> goal_id self /\ In y db).
Proof.
  unfold Goal.write. destruct (existsb _ db) eqn:E.
  - intro Hin. apply in_map_iff in Hin. destruct Hin as (g & Hg & Hin).
    destruct (String.eqb_spec (goal_id g) (goal_id self)) as [Ei | Ei].
    + left. now symmetry.
    + right. subst y. now split.
  - intro Hin. apply in_app_or in Hin. destruct Hin as [Hin | [<- | []]].
    + right. split; [|exact Hin]. intro Ei.
      assert (Ex : existsb (fun g => String.eqb (goal_id g) (goal_id self)) db
                   = true).
      { apply existsb_exists. exists y. split; [exact Hin|].
        rewrite Ei. apply String.eqb_refl. }
      congruence.
    + now left.
Qed.

Lemma write_has (db : Goal.goals) (self : HealthGoal) :
  In self (Goal.write db self).
Proof.
  unfold Goal.write. destruct (existsb _ db) eqn:E.
  - apply existsb_exists in E. destruct E as (g & Hg & Eg).
    apply in_map_iff. exists g. rewrite Eg. now split.
  - apply in_or_app. right. now left.
Qed.

(** The instance that [save] writes. *)
Lemma goal_save_unfold (now : Z) (db : Goal.goals) (self : HealthGoal) :
  let saved := fst (Goal.save now db self) in
  Goal.save now db self
  = (saved,
     Goal.write (if is_primary self
                 then Goal.unset_other_primaries db saved else db) saved)
  /\ goal_id saved = goal_id self
  /\ goal_user saved = goal_user self
  /\ is_primary saved = is_primary self
  /\ target_value saved = target_value self
  /\ current_value saved = current_value self.
Proof.
  unfold Goal.save. cbv zeta.
  destruct (negb (is_completed self) && Qle_bool 100 _); cbn [fst];
    repeat split; reflexivity.
Qed.

(** X13.  [HealthGoal.save] keeps at most one primary goal per user: after
    a goal is saved as primary it is the only primary goal of its user,
    whatever the table held before, and saving any goal never raises the
    number of primary goals of a user above one.  Primary keys stay
    distinct. *)
Theorem one_primary_goal_per_user (now : Z) (db : Goal.goals) (self : HealthGoal) :
  NoDup (map goal_id db) ->
  let saved := fst (Goal.save now db self) in
  let db' := snd (Goal.save now db self) in
  NoDup (map goal_id db')
  /\ (is_primary self = true -> primary_goals db' (goal_user self) = [saved])
  /\ (forall user,
        (length (primary_goals db user) <= 1)%nat ->
        (length (primary_goals db' user) <= 1)%nat).
Proof.
  intros Hnd saved db'.
  destruct (goal_save_unfold now db self) as (Hsave & Hid & Huser & Hprim & _).
  fold saved in Hsave, Hid, Huser, Hprim.
  assert (Hdb' : db' = Goal.write (if is_primary self
                                   then Goal.unset_other_primaries db saved
                                   else db) saved)
    by (unfold db'; now rewrite Hsave).
  assert (Hnd' : NoDup (map goal_id db')).
  { rewrite Hdb'. apply write_ids.
    destruct (is_primary self); [now rewrite unset_ids | exact Hnd]. }
  assert (Hone : is_primary self = true ->
                 primary_goals db' (goal_user self) = [saved]).
  { intro Hp. rewrite Hp in Hdb'.
    rewrite <- (filter_unique db' saved Hnd')
      by (rewrite Hdb'; apply write_has).
    unfold primary_goals. apply filter_ext_in. intros y Hy.
    rewrite Hdb' in Hy. apply write_rows in Hy.
    destruct Hy as [-> | [Hne Hy]].
    - rewrite Huser, Hprim, Hp, N.eqb_refl, String.eqb_refl. reflexivity.
    - rewrite <- Huser, (unset_others db saved y Hy Hne).
      symmetry. now apply String.eqb_neq. }
  split; [exact Hnd'|]. split; [exact Hone|].
  intros user Hle.
  destruct (is_primary self) eqn:Hp.
  - destruct (N.eqb_spec (goal_user self) user) as [<- | Hu].
    + rewrite (Hone eq_refl). cbn [length]. lia.
    + (* the saved goal belongs to another user *)
      assert (Hps : N.eqb (goal_user saved) user && is_primary saved = false).
      { rewrite Huser. apply andb_false_iff. left. now apply N.eqb_neq. }
      eapply Nat.le_trans; [|exact Hle].
      rewrite Hdb'. unfold primary_goals, Goal.write.
      destruct (existsb _ _).
      * eapply Nat.le_trans.
        -- apply filter_map_length. intros y.
           destruct (String.eqb (goal_id y) (goal_id saved));
             [rewrite Hps; discriminate | exact (fun H => H)].
        -- unfold Goal.unset_other_primaries. apply filter_map_length.
           intros y. destruct (_ && _ && _); [|exact (fun H => H)].
           cbn [Goal.with_primary goal_user is_primary].
           rewrite andb_false_r. discriminate.
      * rewrite filter_app. cbn [List.filter]. rewrite Hps, app_nil_r.
        unfold Goal.unset_other_primaries. apply filter_map_length.
        intros y. destruct (_ && _ && _); [|exact (fun H => H)].
        cbn [Goal.with_primary goal_user is_primary].
        rewrite andb_false_r. discriminate.
  - assert (Hps : N.eqb (goal_user saved) user && is_primary saved = false)
      by (rewrite Hprim; apply andb_false_r).
    eapply Nat.le_trans; [|exact Hle].
    rewrite Hdb'. unfold primary_goals, Goal.write.
    destruct (existsb _ _).
    + apply filter_map_length. intros y.
      destruct (String.eqb (goal_id y) (goal_id saved));
        [rewrite Hps; discriminate | exact (fun H => H)].
    + rewrite filter_app. cbn [List.filter]. rewrite Hps, app_nil_r. lia.
Qed.

Lemma one_primary_goal_per_user_witness :
  let saved := fst (Goal.save 7 two_goals third_goal) in
  let db' := snd (Goal.save 7 two_goals third_goal) in
  NoDup (map goal_id db')
  /\ primary_goals db' 1%N = [saved]
  /\ (length (primary_goals db' 1%N) <= 1)%nat.
Proof.
  intros saved db'.
  assert (Hnd : NoDup (map goal_id two_goals)).
  { repeat constructor; cbn; intuition discriminate. }
  destruct (one_primary_goal_per_user 7 two_goals third_goal Hnd)
    as (H1 & H2 & H3).
  split; [exact H1|]. split; [exact (H2 eq_refl)|].
  apply H3. vm_compute. lia.
Defined.

(** X14.  Saving a goal again changes nothing, whenever it happens: the
    instance and the table that [HealthGoal.save] leaves are a fixed point
    of [save], so [completed_at] keeps the time of the first save that
    found the goal complete.  With a positive target the stored progress is
    at most 100, and a goal that is completed stays completed, with its
    completion time, even when its progress falls below 100. *)
Theorem goal_save_idempotent (now now' : Z) (db : Goal.goals) (self : HealthGoal) :
  let saved := fst (Goal.save now db self) in
  let db' := snd (Goal.save now db self) in
  Goal.save now' db' saved = (saved, db')
  /\ (0 < target_value self -> progress_percentage saved <= 100)
  /\ (is_completed self = true ->
      is_completed saved = true /\ completed_at saved = completed_at self).
Proof.
  intros saved db'.
  destruct (goal_save_unfold now db self)
    as (Hsave & Hid & Huser & Hprim & Htarget & Hcurrent).
  fold saved in Hsave, Hid, Huser, Hprim, Htarget, Hcurrent.
  assert (Hdb' : db' = Goal.write (if is_primary self
                                   then Goal.unset_other_primaries db saved
                                   else db) saved)
    by (unfold db'; now rewrite Hsave).
  (* the instance is not changed by a second save *)
  assert (Hself : fst (Goal.save now' db' saved) = saved).
  { unfold saved, Goal.save. cbv zeta.
    destruct (Py.Qlt_bool 0 (target_value self)) eqn:Et.
    - destruct (is_completed self) eqn:Ec; cbn [negb andb fst].
      + cbn [target_value current_value is_completed]. rewrite Et.
        cbn [negb andb fst]. reflexivity.
      + destruct (Qle_bool 100 _) eqn:E100; cbn [fst].
        * cbn [target_value current_value is_completed]. rewrite Et.
          cbn [negb andb fst]. reflexivity.
        * cbn [target_value current_value is_completed]. rewrite Et, E100.
          cbn [negb andb fst]. reflexivity.
    - destruct (is_completed self) eqn:Ec; cbn [negb andb fst].
      + cbn [target_value current_value is_completed progress_percentage].
        rewrite Et. cbn [negb andb fst]. reflexivity.
      + destruct (Qle_bool 100 _) eqn:E100; cbn [fst].
        * cbn [target_value current_value is_completed progress_percentage].
          rewrite Et. cbn [negb andb fst]. reflexivity.
        * cbn [target_value current_value is_completed progress_percentage].
          rewrite Et, E100. cbn [negb andb fst]. reflexivity. }
  split; [|split].
  - destruct (goal_save_unfold now' db' saved) as (Hsave2 & _).
    rewrite Hself in Hsave2. rewrite Hsave2. f_equal.
    rewrite Hprim.
    assert (Hun : (if is_primary self
                   then Goal.unset_other_primaries db' saved else db') = db').
    { destruct (is_primary self) eqn:Hp; [|reflexivity].
      unfold Goal.unset_other_primaries. apply map_fixed. intros y Hy.
      rewrite Hdb' in Hy. apply write_rows in Hy.
      destruct Hy as [-> | [Hne Hy]].
      - rewrite String.eqb_refl, andb_false_r. reflexivity.
      - rewrite (unset_others db saved y Hy Hne). reflexivity. }
    rewrite Hun. unfold Goal.write at 1.
    assert (Hex : existsb (fun g => String.eqb (goal_id g) (goal_id saved)) db'
                  = true).
    { apply existsb_exists. exists saved. split.
      - rewrite Hdb'. apply write_has.
      - apply String.eqb_refl. }
    rewrite Hex. apply map_fixed. intros y Hy.
    rewrite Hdb' in Hy. apply write_rows in Hy.
    destruct Hy as [-> | [Hne _]].
    + now rewrite String.eqb_refl.
    + apply String.eqb_neq in Hne. now rewrite Hne.
  - intro Ht. unfold saved, Goal.save. cbv zeta.
    apply Qlt_bool_iff in Ht. rewrite Ht.
    assert (Py.min 100 (current_value self / target_value self * 100) <= 100).
    { unfold Py.min. destruct (Py.Qlt_bool _ 100) eqn:E.
      - apply Qlt_bool_iff in E. lra.
      - lra. }
    destruct (negb (is_completed self) && _); cbn [fst progress_percentage];
      assumption.
  - intro Hc. unfold saved, Goal.save. cbv zeta. rewrite Hc.
    cbn [negb andb fst is_completed completed_at]. now split.
Qed.

Lemma goal_save_idempotent_witness :
  let saved := fst (Goal.save 7 two_goals third_goal) in
  let db' := snd (Goal.save 7 two_goals third_goal) in
  Goal.save 99 db' saved = (saved, db')
  /\ progress_percentage saved <= 100
  /\ completed_at saved = Some 7%Z.
Proof.
  intros saved db'.
  destruct (goal_save_idempotent 7 99 two_goals third_goal) as (H1 & H2 & _).
  split; [exact H1|]. split; [apply H2; reflexivity | reflexivity].
Defined.



(* ================================================================== *)
(** ** HealthAnalyzer._check_recent_anomalies after detect_anomalies *)
(* ================================================================== *)

Lemma insert_desc_in (r x : HeartRateReading) (l : table) :
  In x (Objects.insert_by_timestamp_desc r l) <-> x = r \/ In x l.
Proof.
  induction l as [|y l IH]; cbn [Objects.insert_by_timestamp_desc].
  - cbn. intuition.
  - destruct (_ <=? _)%Z; cbn [In] in *; intuition.
Qed.

Lemma order_desc_in (x : HeartRateReading) (l : table) :
  In x (Objects.order_by_timestamp_desc l) <-> In x l.
Proof.
  induction l as [|y l IH]; cbn [Objects.order_by_timestamp_desc]; [tauto|].
  rewrite insert_desc_in, IH. cbn [In]. intuition.
Qed.

Lemma set_flag_mark_row (a : Py.dict) (r : HeartRateReading) (ty : string) :
  set_flag (mark_row a r) ty = set_flag r ty.
Proof.
  unfold mark_row.
  destruct (Py.contains _ _); [|reflexivity].
  destruct (Py.get "reading_id" a) as [[id| | | |]|]; try reflexivity.
  destruct (Py.get "type" a) as [[ty'| | | |]|]; try reflexivity.
  now destruct (String.eqb _ _).
Qed.

(** A marked row carries the type of one of the anomalies that name a
    reading. *)
Lemma mark_rows_type (P : string -> Prop) (l : list Py.dict)
  (r : HeartRateReading) :
  (forall a id ty, In a l ->
     Py.get "reading_id" a = Some (Py.VStr id) ->
     Py.get "type" a = Some (Py.VStr ty) -> P ty) ->
  mark_rows l r = r
  \/ exists ty, P ty /\ mark_rows l r = set_flag r ty.
Proof.
  unfold mark_rows. revert r.
  induction l as [|a l IH]; intros r HP; [now left|].
  cbn [fold_left].
  assert (HPl : forall a0 id ty, In a0 l ->
                  Py.get "reading_id" a0 = Some (Py.VStr id) ->
                  Py.get "type" a0 = Some (Py.VStr ty) -> P ty).
  { intros a0 id ty Hin. apply HP. now right. }
  destruct (IH (mark_row a r) HPl) as [E | (ty & Hty & E)].
  - rewrite E. unfold mark_row.
    destruct (Py.contains _ _); [|now left].
    destruct (Py.get "reading_id" a) as [[id| | | |]|] eqn:Eid; try now left.
    destruct (Py.get "type" a) as [[ty| | | |]|] eqn:Ety; try now left.
    destruct (String.eqb _ _); [|now left].
    right. exists ty. split; [|reflexivity].
    apply (HP a id ty); [now left | exact Eid | exact Ety].
  - right. exists ty. split; [exact Hty|].
    rewrite E. apply set_flag_mark_row.
Qed.

(** The anomalies of a returning run that name a reading are point
    anomalies, typed high or low. *)
Lemma named_anomaly_types `{NumpySqrt} (readings : table) (m s : Q)
  (patterns : list Py.dict) (a : Py.dict) (id ty : string) :
  HeartRateProcessor._detect_patterns readings m s = Ok patterns ->
  In a (HeartRateProcessor.point_anomalies readings m s ++ patterns) ->
  Py.get "reading_id" a = Some (Py.VStr id) ->
  Py.get "type" a = Some (Py.VStr ty) ->
  ty = "high_heart_rate"%string \/ ty = "low_heart_rate"%string.
Proof.
  intros Hpat Hin Hid Hty. apply in_app_or in Hin. destruct Hin as [Hin | Hin].
  - apply in_point_anomalies in Hin. destruct Hin as (r & _ & Hin).
    destruct (point_anomaly_cases r m s) as [[_ E] | (_ & a' & E & _ & _ & Ht)].
    + rewrite E in Hin. destruct Hin.
    + rewrite E in Hin. destruct Hin as [<- | []].
      rewrite Ht in Hty. inversion Hty.
      destruct (Py.Qlt_bool 0 _); [now left | now right].
  - pose proof (patterns_no_reading_id readings m s patterns a Hpat Hin) as Hno.
    unfold Py.contains in Hno. rewrite Hid in Hno. discriminate.
Qed.

(** X16.  The severity that [detect_anomalies] assigns never reaches the
    alerts.  [_check_recent_anomalies] rates a flagged reading 'high' only
    if its stored anomaly type contains 'critical', and the detector stores
    the types 'high_heart_rate' and 'low_heart_rate' only: on a table whose
    stored types do not contain 'critical', every alert raised after a run
    of the detector has severity 'medium', also for the readings that the
    detector itself rated 'critical'. *)
Theorem detector_severity_never_reaches_alerts `{NumpySqrt}
  (now : Z) (db : table) (user : N) (st et : option Z) (wh : Z)
  (anomalies : list Py.dict) (db1 : table) (now' : Z) (user' : N) :
  NoDup (map hr_id db) ->
  (forall r, In r db ->
     HealthAnalyzer.contains_critical (hr_anomaly_type r) = false) ->
  HeartRateProcessor.detect_anomalies now db user st et wh
  = Ok (anomalies, db1) ->
  forall alert,
    In alert (HealthAnalyzer._check_recent_anomalies now' db1 user') ->
    Obj.get "severity" alert = Some (Obj.str "medium").
Proof.
  intros Hnd Hclean Hrun alert Halert.
  assert (Hrows : forall r1, In r1 db1 ->
            HealthAnalyzer.contains_critical (hr_anomaly_type r1) = false).
  { rewrite detect_anomalies_unfold in Hrun. cbv zeta in Hrun.
    destruct (_ <? 10)%nat.
    - inversion Hrun; subst. exact Hclean.
    - destruct (HeartRateProcessor._detect_patterns _ _ _) as [patterns|e]
        eqn:Hpat; cbn [bind] in Hrun; [|discriminate].
      inversion Hrun; subst anomalies db1. clear Hrun.
      rewrite (mark_anomalies_rows _ db Hnd).
      intros r1 Hr1. apply in_map_iff in Hr1. destruct Hr1 as (r & <- & Hr).
      destruct (mark_rows_type
                  (fun ty => ty = "high_heart_rate"%string
                             \/ ty = "low_heart_rate"%string)
                  _ r
                  (fun a id ty Hin Hid Hty =>
                     named_anomaly_types _ _ _ patterns a id ty Hpat Hin Hid Hty))
        as [E | (ty & [-> | ->] & E)]; rewrite E.
      + now apply Hclean.
      + reflexivity.
      + reflexivity. }
  unfold HealthAnalyzer._check_recent_anomalies in Halert. cbv zeta in Halert.
  apply in_map_iff in Halert. destruct Halert as (r1 & <- & Hr1).
  apply (proj1 (order_desc_in _ _)) in Hr1.
  apply filter_In in Hr1. destruct Hr1 as [Hr1 _].
  cbn [Obj.get Obj.lookup String.eqb Ascii.eqb Bool.eqb].
  now rewrite (Hrows r1 Hr1).
Qed.

Lemma detector_severity_never_reaches_alerts_witness :
  let S : NumpySqrt := sqrt_approx in
  let db := series 70 200 20 in
  exists anomalies db1 spike,
    HeartRateProcessor.detect_anomalies 1200000000 db 1%N None None 24
    = Ok (anomalies, db1)
    /\ In spike anomalies
    /\ Py.get "severity" spike = Some (Py.VStr "critical")
    /\ HealthAnalyzer._check_recent_anomalies 1200000000 db1 1%N <> []
    /\ forall alert,
         In alert (HealthAnalyzer._check_recent_anomalies 1200000000 db1 1%N) ->
         Obj.get "severity" alert = Some (Obj.str "medium").
Proof.
  intros S db.
  pose (out := match HeartRateProcessor.detect_anomalies 1200000000 db 1%N
                       None None 24 with
               | Ok p => p
               | Raise _ => ([], [])
               end).
  assert (Hrun : HeartRateProcessor.detect_anomalies 1200000000 db 1%N
                   None None 24 = Ok (fst out, snd out))
    by (vm_compute; reflexivity).
  assert (Hnd : NoDup (map hr_id db)).
  { vm_compute. repeat constructor; cbn; intuition discriminate. }
  assert (Hclean : forall r, In r db ->
            HealthAnalyzer.contains_critical (hr_anomaly_type r) = false).
  { intros r Hr. unfold db, series in Hr. apply in_map_iff in Hr.
    destruct Hr as (i & <- & _). reflexivity. }
  exists (fst out), (snd out), (hd [] (fst out)).
  split; [exact Hrun|].
  split; [vm_compute; left; reflexivity|].
  split; [vm_compute; reflexivity|].
  split; [vm_compute; discriminate|].
  exact (@detector_severity_never_reaches_alerts S 1200000000 db 1%N None None
           24 (fst out) (snd out) 1200000000 1%N Hnd Hclean Hrun).
Defined.

(* ================================================================== *)
(** ** HeartRateProcessor.get_heart_rate_trends *)
(* ================================================================== *)

Lemma np_sum_app (l1 l2 : list Q) :
  Np.sum (l1 ++ l2) == Np.sum l1 + Np.sum l2.
Proof.
  induction l1 as [|x l1 IH]; cbn [app].
  - change (Np.sum []) with 0. ring.
  - rewrite !np_sum_cons, IH. ring.
Qed.

Lemma np_sum_rev (l : list Q) : Np.sum (rev l) == Np.sum l.
Proof.
  induction l as [|x l IH]; [reflexivity|].
  cbn [rev]. rewrite np_sum_app, !np_sum_cons, IH.
  change (Np.sum []) with 0. ring.
Qed.

Lemma combine_app_same {A B : Type} (a c : list A) (b d : list B) :
  length a = length b ->
  combine (a ++ c) (b ++ d) = combine a b ++ combine c d.
Proof.
  revert b. induction a as [|x a IH]; intros [|y b] H; try discriminate;
    [reflexivity|].
  cbn [app combine]. f_equal. apply IH. now inversion H.
Qed.

Lemma combine_rev_rev {A B : Type} (a : list A) (b : list B) :
  length a = length b ->
  combine (rev a) (rev b) = rev (combine a b).
Proof.
  revert b. induction a as [|x a IH]; intros [|y b] H; try discriminate;
    [reflexivity|].
  cbn [rev combine]. rewrite combine_app_same by (rewrite !length_rev; now inversion H).
  rewrite IH by now inversion H. reflexivity.
Qed.

Lemma combine_map_left {A B C : Type} (f : A -> C) (a : list A) (b : list B) :
  combine (map f a) b = map (fun q => (f (fst q), snd q)) (combine a b).
Proof.
  revert b. induction a as [|x a IH]; intros [|y b]; try reflexivity.
  cbn [map combine fst snd]. now rewrite IH.
Qed.

Lemma rev_seq_0 (n : nat) :
  rev (seq 0 n) = map (fun i => (n - 1 - i)%nat) (seq 0 n).
Proof.
  induction n as [|n IH]; [reflexivity|].
  rewrite seq_S at 1. cbn [plus]. rewrite rev_app_distr. cbn [rev app].
  rewrite IH. cbn [seq map]. f_equal; [lia|].
  rewrite <- seq_shift, map_map. apply map_ext. intro i. lia.
Qed.

(** Sums over the pairs (position, value), for the series and its
    reversal. *)
Lemma sum_by_position (F : Q -> Q -> Q) (values : list Q) :
  Np.sum (map (fun p => F (fst p) (snd p))
            (combine (Np.arange (length values)) values))
  == Np.sum (map (fun q => F (inject_Z (Z.of_nat (fst q))) (snd q))
               (combine (seq 0 (length values)) values)).
Proof.
  unfold Np.arange. rewrite combine_map_left, map_map. reflexivity.
Qed.

Lemma sum_by_position_rev (F : Q -> Q -> Q) (values : list Q) :
  Np.sum (map (fun p => F (fst p) (snd p))
            (combine (Np.arange (length values)) (rev values)))
  == Np.sum (map (fun q => F (inject_Z (Z.of_nat (length values - 1 - fst q)))
                              (snd q))
               (combine (seq 0 (length values)) values)).
Proof.
  set (n := length values).
  rewrite <- (rev_involutive (Np.arange n)).
  rewrite combine_rev_rev
    by (rewrite length_rev, arange_length; reflexivity).
  rewrite map_rev, np_sum_rev.
  unfold Np.arange. rewrite <- map_rev, rev_seq_0, map_map.
  rewrite combine_map_left, map_map. reflexivity.
Qed.

Lemma position_in_range (values : list Q) (q : nat * Q) :
  In q (combine (seq 0 (length values)) values) ->
  (fst q < length values)%nat.
Proof.
  intro H. destruct q as [i y]. apply in_combine_l in H.
  apply in_seq in H. cbn [fst]. lia.
Qed.

Lemma mirror_position (n i : nat) :
  (i < n)%nat ->
  inject_Z (Z.of_nat (n - 1 - i))
  == inject_Z (Z.of_nat n) - 1 - inject_Z (Z.of_nat i).
Proof.
  intro H. replace (Z.of_nat (n - 1 - i)) with (Z.of_nat n - 1 - Z.of_nat i)%Z
    by lia.
  unfold Zminus. rewrite !inject_Z_plus, !inject_Z_opp. reflexivity.
Qed.

(** The mean of the positions 0 .. n-1. *)
Lemma mean_arange (values : list Q) :
  values <> [] ->
  2 * Np.mean (Np.arange (length values))
  == inject_Z (Z.of_nat (length values)) - 1.
Proof.
  intro Hne. pose proof (length_pos_Q values Hne) as HN.
  set (n := length values) in *. set (N := inject_Z (Z.of_nat n)) in *.
  assert (Hsum : Np.sum (Np.arange n)
                 == N * (N - 1) - Np.sum (Np.arange n)).
  { rewrite <- (np_sum_rev (Np.arange n)) at 1.
    unfold Np.arange at 1. rewrite <- map_rev, rev_seq_0, map_map.
    rewrite (np_sum_ext _ (fun i => (N - 1) * 1
                                    + (- (1)) * inject_Z (Z.of_nat i))).
    - rewrite (np_sum_linear (fun _ => 1) (fun i => inject_Z (Z.of_nat i))).
      rewrite (np_sum_const (fun _ : nat => 1) 1) by (intros; reflexivity).
      rewrite length_seq. fold N. unfold Np.arange. ring.
    - intros i Hi. apply in_seq in Hi.
      rewrite mirror_position by lia. fold N. ring. }
  unfold Np.mean. rewrite arange_length. fold N.
  assert (Hs : Np.sum (Np.arange n) == N * (N - 1) * (1 # 2)).
  { set (P := N * (N - 1)) in *. set (S := Np.sum (Np.arange n)) in *. lra. }
  rewrite Hs. field. lra.
Qed.

Lemma np_mean_rev (l : list Q) : Np.mean (rev l) == Np.mean l.
Proof. unfold Np.mean. now rewrite np_sum_rev, length_rev. Qed.

Lemma reg_sxx_rev (values : list Q) : reg_sxx (rev values) = reg_sxx values.
Proof. unfold reg_sxx. now rewrite length_rev. Qed.

Lemma reg_ss_tot_rev (values : list Q) :
  reg_ss_tot (rev values) == reg_ss_tot values.
Proof.
  unfold reg_ss_tot.
  rewrite map_rev, np_sum_rev.
  apply np_sum_ext. intros y _. now rewrite np_mean_rev.
Qed.

Lemma reg_sxy_rev (values : list Q) :
  reg_sxy (rev values) == - reg_sxy values.
Proof.
  destruct values as [|v0 vs] eqn:Ev; [reflexivity|].
  rewrite <- Ev in *.
  assert (Hne : values <> []) by (rewrite Ev; discriminate).
  pose proof (mean_arange values Hne) as Hmx.
  unfold reg_sxy. cbv zeta. rewrite length_rev.
  set (mx := Np.mean (Np.arange (length values))) in *.
  rewrite (sum_by_position_rev
             (fun a y => (a - mx) * (y - Np.mean (rev values))) values).
  rewrite (sum_by_position
             (fun a y => (a - mx) * (y - Np.mean values)) values).
  rewrite (np_sum_ext _
             (fun q : nat * Q =>
                (- (1)) * ((inject_Z (Z.of_nat (fst q)) - mx)
                           * (snd q - Np.mean values))
                + 0 * snd q)).
  - rewrite (np_sum_linear
               (fun q : nat * Q => (inject_Z (Z.of_nat (fst q)) - mx)
                                   * (snd q - Np.mean values))
               (fun q => snd q) (- (1)) 0).
    ring.
  - intros q Hq. apply position_in_range in Hq.
    rewrite mirror_position by exact Hq.
    rewrite np_mean_rev.
    setoid_replace (inject_Z (Z.of_nat (length values)) - 1
                    - inject_Z (Z.of_nat (fst q)) - mx)
      with (- (inject_Z (Z.of_nat (fst q)) - mx)) by lra.
    ring.
Qed.

(** Reading a series backwards flips the sign of the slope and keeps
    R-squared. *)
Lemma regression_rev (values : list Q) :
  fst (regression (rev values)) == - fst (regression values)
  /\ snd (regression (rev values)) == snd (regression values).
Proof.
  assert (Hslope : fst (regression (rev values)) == - fst (regression values)).
  { rewrite !regression_unfold. cbn [fst].
    rewrite reg_sxx_rev, reg_sxy_rev. unfold Qdiv. ring. }
  split; [exact Hslope|].
  pose proof (reg_ss_res_expand (rev values)) as Hr1.
  pose proof (reg_ss_res_expand values) as Hr2.
  cbv zeta in Hr1, Hr2.
  rewrite Hslope, reg_sxy_rev, reg_sxx_rev, reg_ss_tot_rev in Hr1.
  assert (Hres : reg_ss_res (rev values) == reg_ss_res values)
    by (rewrite Hr1, Hr2; ring).
  rewrite !regression_unfold. cbn [snd].
  pose proof (reg_ss_tot_rev values) as Htot.
  destruct (Qeq_bool (reg_ss_tot values) 0) eqn:E.
  - apply Qeq_bool_iff in E.
    assert (E' : Qeq_bool (reg_ss_tot (rev values)) 0 = true)
      by (apply Qeq_bool_iff; now rewrite Htot).
    rewrite E'. reflexivity.
  - apply Qeq_bool_neq in E.
    destruct (Qeq_bool (reg_ss_tot (rev values)) 0) eqn:E'.
    + apply Qeq_bool_iff in E'. rewrite Htot in E'. contradiction.
    + cbn [negb]. rewrite Hres, Htot. reflexivity.
Qed.

Lemma insert_desc_descending (r : HeartRateReading) (l : table) :
  descending l -> descending (Objects.insert_by_timestamp_desc r l).
Proof.
  induction l as [|x l IH]; intro H; [exact I|].
  cbn [Objects.insert_by_timestamp_desc].
  destruct (Z.leb_spec (hr_timestamp x) (hr_timestamp r)) as [Hle | Hgt].
  - split; assumption.
  - destruct l as [|y l].
    + cbn. split; [lia | exact I].
    + destruct H as [Hxy Hrest]. specialize (IH Hrest).
      cbn [Objects.insert_by_timestamp_desc] in *.
      destruct (hr_timestamp y <=? hr_timestamp r)%Z.
      * split; [lia | exact IH].
      * split; [exact Hxy | exact IH].
Qed.

Lemma order_desc_descending (l : table) :
  descending (Objects.order_by_timestamp_desc l).
Proof.
  induction l as [|r l IH]; [exact I|].
  cbn [Objects.order_by_timestamp_desc]. now apply insert_desc_descending.
Qed.

Lemma dates_of_nonempty (rows : table) :
  rows <> [] -> HeartRateProcessor.dates_of rows <> [].
Proof.
  destruct rows as [|r rows]; [congruence|]. intros _.
  unfold HeartRateProcessor.dates_of. cbn [map fold_right].
  generalize (fold_right HeartRateProcessor.insert_date []
                (map (fun r0 => date_of (hr_timestamp r0)) rows)).
  intros l. destruct l as [|x l]; cbn [HeartRateProcessor.insert_date];
    [discriminate|].
  destruct (_ <? _)%Z; [discriminate|].
  destruct (_ =? _)%Z; discriminate.
Qed.

(** X17.  [get_heart_rate_trends] analyses the trend of the readings in the
    order the query returns them, which is the model's default ordering,
    newest first; [_analyze_trend] therefore sees the series backwards in
    time.  Reading a series backwards flips the sign of the regression slope
    and keeps R-squared, so a heart rate that rises over time by more than
    0.1 bpm per reading is reported with direction 'down'. *)
Theorem heart_rate_trend_is_read_backwards `{NumpySqrt}
  (now : Z) (db : table) (user : N) (days : Z) (metric : string) :
  let readings := trend_readings now db user days in
  let newest_first := HeartRateProcessor.bpm_values readings in
  let chronological := rev newest_first in
  readings <> [] ->
  Obj.get "trend_analysis"
    (HeartRateProcessor.get_heart_rate_trends now db user days metric)
  = Some (Obj.of_dict (HeartRateProcessor._analyze_trend newest_first))
  /\ descending readings
  /\ fst (regression newest_first) == - fst (regression chronological)
  /\ snd (regression newest_first) == snd (regression chronological)
  /\ ((2 <= length readings)%nat ->
      (1 # 10) < fst (regression chronological) ->
      Py.get "direction" (HeartRateProcessor._analyze_trend newest_first)
      = Some (Py.VStr "down")).
Proof.
  intros readings newest_first chronological Hne.
  assert (Hrev : rev chronological = newest_first)
    by (unfold chronological; apply rev_involutive).
  destruct (regression_rev chronological) as [Hs Hr]. rewrite Hrev in Hs, Hr.
  split; [|split; [|split; [|split]]].
  - unfold HeartRateProcessor.get_heart_rate_trends. cbv zeta.
    fold (trend_readings now db user days). fold readings.
    assert (Hrows : List.filter
                      (fun r => N.eqb (hr_user r) user
                                && Objects.in_range (date_of now - days)%Z
                                     (date_of now) (date_of (hr_timestamp r)))
                      db <> []).
    { intro E. apply Hne. unfold readings, trend_readings. now rewrite E. }
    pose proof (dates_of_nonempty _ Hrows) as Hdates.
    destruct (HeartRateProcessor.dates_of _) as [|d ds]; [congruence|].
    cbn [map]. destruct readings as [|r rs] eqn:Er; [congruence|].
    cbn [Obj.get Obj.lookup String.eqb Ascii.eqb Bool.eqb].
    unfold newest_first, HeartRateProcessor.bpm_values.
    now rewrite map_map.
  - apply order_desc_descending.
  - exact Hs.
  - exact Hr.
  - intros Hn Hrise.
    unfold HeartRateProcessor._analyze_trend.
    replace (length newest_first <? 2)%nat with false.
    2:{ symmetry. apply Nat.ltb_ge. unfold newest_first,
          HeartRateProcessor.bpm_values. now rewrite length_map. }
    destruct (regression newest_first) as [slope r2]. cbn [fst snd] in Hs, Hr.
    assert (E1 : Py.Qlt_bool (1 # 10) slope = false)
      by (apply Qlt_bool_false_iff; lra).
    assert (E2 : Py.Qlt_bool slope (- (1 # 10)) = true)
      by (apply Qlt_bool_iff; lra).
    rewrite E1, E2. reflexivity.
Qed.

Lemma heart_rate_trend_is_read_backwards_witness :
  let db := hourly [60; 62; 64; 66; 68; 70]%Z in
  let readings := trend_readings 21600000000 db 1%N 7 in
  rev (HeartRateProcessor.bpm_values readings) = [60; 62; 64; 66; 68; 70]
  /\ fst (regression (rev (HeartRateProcessor.bpm_values readings))) == 2
  /\ Py.get "direction"
       (HeartRateProcessor._analyze_trend (HeartRateProcessor.bpm_values readings))
     = Some (Py.VStr "down").
Proof.
  intros db readings.
  assert (Hne : readings <> []) by (vm_compute; discriminate).
  destruct (@heart_rate_trend_is_read_backwards sqrt_approx 21600000000 db 1%N
              7 "avg_heart_rate" Hne) as (_ & _ & _ & _ & Hdown).
  split; [vm_compute; reflexivity|].
  split; [vm_compute; reflexivity|].
  apply Hdown; [vm_compute; lia | vm_compute; reflexivity].
Defined.

(* ================================================================== *)
(** ** HealthAnalyzer._calculate_consistency_scores *)
(* ================================================================== *)

Lemma consistency_entry (std scale half : Q) :
  0 <= std -> 0 < scale -> half == scale * (1 # 2) ->
  let score := Py.max 0 (100 - std / scale * 100) in
  0 <= score <= 100
  /\ (if Py.Qlt_bool std half then "high"%string
      else if Py.Qlt_bool std scale then "medium"%string else "low"%string)
     = (if Py.Qlt_bool 50 score then "high"%string
        else if Py.Qlt_bool 0 score then "medium"%string else "low"%string).
Proof.
  intros Hstd Hscale Hhalf score.
  set (x := 100 - std / scale * 100) in *.
  assert (Hr0 : 0 <= std / scale) by (apply Qle_shift_div_l; lra).
  assert (Hx : x <= 100) by (unfold x; lra).
  assert (Hhigh : std < half <-> 50 < x).
  { unfold x. split; intro Hlt.
    - assert (std / scale < (1 # 2)) by (apply Qlt_shift_div_r; lra). lra.
    - assert (Hq : std / scale < (1 # 2)) by lra.
      assert (E : std / scale * scale == std) by (field; lra).
      assert (Hm : std / scale * scale < (1 # 2) * scale)
        by (apply Qmult_lt_compat_r; assumption).
      rewrite E in Hm. lra. }
  assert (Hmed : std < scale <-> 0 < x).
  { unfold x. split; intro Hlt.
    - assert (std / scale < 1) by (apply Qlt_shift_div_r; lra). lra.
    - assert (Hq : std / scale < 1) by lra.
      assert (E : std / scale * scale == std) by (field; lra).
      assert (Hm : std / scale * scale < 1 * scale)
        by (apply Qmult_lt_compat_r; assumption).
      rewrite E in Hm. lra. }
  unfold score, Py.max.
  destruct (Py.Qlt_bool 0 x) eqn:E0;
    [apply Qlt_bool_iff in E0 | apply Qlt_bool_false_iff in E0].
  - split; [lra|].
    assert (E0b : Py.Qlt_bool 0 x = true) by (now apply Qlt_bool_iff).
    destruct (Py.Qlt_bool std half) eqn:E1;
      [apply Qlt_bool_iff in E1 | apply Qlt_bool_false_iff in E1].
    + assert (E2 : Py.Qlt_bool 50 x = true)
        by (apply Qlt_bool_iff; now apply Hhigh).
      now rewrite E2.
    + assert (E2 : Py.Qlt_bool 50 x = false).
      { apply Qlt_bool_false_iff. destruct (Qlt_le_dec 50 x) as [H50 | H50];
          [|exact H50]. apply Hhigh in H50. lra. }
      assert (E3 : Py.Qlt_bool std scale = true)
        by (apply Qlt_bool_iff; now apply Hmed).
      now rewrite E2, E3, E0b.
  - split; [lra|].
    assert (E1 : Py.Qlt_bool std half = false).
    { apply Qlt_bool_false_iff. destruct (Qlt_le_dec std half) as [H | H];
        [|exact H]. apply Hhigh in H. lra. }
    assert (E3 : Py.Qlt_bool std scale = false).
    { apply Qlt_bool_false_iff. destruct (Qlt_le_dec std scale) as [H | H];
        [|exact H]. apply Hmed in H. lra. }
    rewrite E1, E3. reflexivity.
Qed.

Lemma np_std_nonneg `{S : NumpySqrt} `{!NumpySqrtLaws S} (l : list Q) :
  0 <= Np.std l.
Proof. unfold Np.std. apply np_sqrt_nonneg. Qed.

(** One entry of the consistency dict. *)
Lemma consistency_lookup (metric k stdkey : string) (std scale half : Q)
  (rest : list (string * pyobj)) (score : Q) :
  0 <= std -> 0 < scale -> half == scale * (1 # 2) ->
  String.eqb metric k = true ->
  String.eqb "score" stdkey = false ->
  String.eqb "interpretation" stdkey = false ->
  let c :=
    PDict
      ((k, PDict [("score"%string,
                   Obj.float (Py.max 0 (100 - std / scale * 100)));
                  (stdkey, Obj.float (Py.round std 1));
                  ("interpretation"%string,
                   Obj.str (if Py.Qlt_bool std half then "high"
                            else if Py.Qlt_bool std scale then "medium"
                            else "low"))]) :: rest) in
  entry c metric "score" = Some score ->
  0 <= score <= 100
  /\ Obj.get "interpretation" (Obj.get_or_empty metric c)
     = Some (Obj.str (if Py.Qlt_bool 50 score then "high"
                      else if Py.Qlt_bool 0 score then "medium" else "low")).
Proof.
  intros Hstd Hscale Hhalf Hk Hs1 Hs2 c.
  destruct (consistency_entry std scale half Hstd Hscale Hhalf) as [Hb Hl].
  cbv zeta in Hb, Hl.
  unfold c, entry, Obj.get_or_empty. cbn [Obj.get Obj.lookup]. rewrite Hk.
  cbn [Obj.get Obj.lookup]. rewrite Hs2.
  cbn [String.eqb Ascii.eqb Bool.eqb Obj.float].
  intro E. inversion E; subst score. split; [exact Hb|].
  now rewrite Hl.
Qed.

Lemma consistency_skip (metric k f : string) (v : pyobj)
  (rest : list (string * pyobj)) :
  String.eqb metric k = false ->
  entry (PDict ((k, v) :: rest)) metric f = entry (PDict rest) metric f
  /\ Obj.get_or_empty metric (PDict ((k, v) :: rest))
     = Obj.get_or_empty metric (PDict rest).
Proof.
  intro E. unfold entry, Obj.get_or_empty. cbn [Obj.get Obj.lookup].
  rewrite E. split; reflexivity.
Qed.

Ltac consistency_walk :=
  cbn [app] in *;
  lazymatch goal with
  | H : entry (PDict []) _ _ = Some _ |- _ => discriminate H
  | H : entry (PDict ((?k, ?v) :: ?rest)) ?metric _ = Some _ |- _ =>
      let E := fresh "E" in
      destruct (String.eqb metric k) eqn:E;
      [ refine (consistency_lookup metric k _ _ _ _ rest _ _ _ _ E _ _ H);
        first [ apply np_std_nonneg | reflexivity ]
      | destruct (consistency_skip metric k "score" v rest E) as [Hs1 Hs2];
        rewrite Hs1 in H; rewrite Hs2; clear Hs1 Hs2;
        consistency_walk ]
  end.

(** X18.  Every consistency score that [_calculate_consistency_scores]
    reports (steps, sleep, bedtime) lies between 0 and 100, and the
    interpretation reported with it is a function of the score: 'high'
    exactly when the score is above 50, 'low' exactly when it is 0, 'medium'
    in between. *)
Theorem consistency_scores_are_coherent `{S : NumpySqrt} `{!NumpySqrtLaws S}
  (daily_summaries : list DailySummary) (sleep_sessions : list SleepSessionRow)
  (user : N) (consistency : pyobj) (metric : string) (score : Q) :
  HealthAnalyzer._calculate_consistency_scores daily_summaries sleep_sessions
    user = Some consistency ->
  entry consistency metric "score" = Some score ->
  0 <= score <= 100
  /\ Obj.get "interpretation" (Obj.get_or_empty metric consistency)
     = Some (Obj.str (if Py.Qlt_bool 50 score then "high"
                      else if Py.Qlt_bool 0 score then "medium" else "low")).
Proof.
  unfold HealthAnalyzer._calculate_consistency_scores. cbv zeta.
  set (steps_values :=
         flat_map
           (fun s => if Py.truthyZ (total_steps s)
                     then [inject_Z (Py.orZ (total_steps s) 0)] else [])
           daily_summaries).
  set (sleep_values :=
         flat_map
           (fun s => if Py.truthyZ (sleep_duration_minutes s)
                     then [inject_Z (Py.orZ (sleep_duration_minutes s) 0)]
                     else [])
           daily_summaries).
  clearbody steps_values sleep_values.
  destruct daily_summaries as [|first rest]; [discriminate|].
  set (sessions := flat_map _ sleep_sessions). clearbody sessions.
  intros Hrun Hentry. inversion Hrun; subst consistency. clear Hrun.
  destruct steps_values as [|s0 sl];
    destruct sleep_values as [|d0 dl];
    destruct sessions as [|b0 bl];
    consistency_walk.
Qed.

Lemma consistency_scores_are_coherent_witness :
  let week := week_of [(8000, 420); (8200, 400); (7900, 500); (12000, 300)]%Z in
  exists consistency steps_score sleep_score,
    @HealthAnalyzer._calculate_consistency_scores sqrt_approx week [] 1%N
    = Some consistency
    /\ entry consistency "steps" "score" = Some steps_score
    /\ 0 <= steps_score <= 100
    /\ Obj.get "interpretation" (Obj.get_or_empty "steps" consistency)
       = Some (Obj.str "medium")
    /\ entry consistency "sleep" "score" = Some sleep_score
    /\ 0 <= sleep_score <= 100
    /\ Obj.get "interpretation" (Obj.get_or_empty "sleep" consistency)
       = Some (Obj.str "medium").
Proof.
  intro week.
  pose (c := match @HealthAnalyzer._calculate_consistency_scores sqrt_approx
                     week [] 1%N with
             | Some c => c
             | None => PDict []
             end).
  assert (Hrun : @HealthAnalyzer._calculate_consistency_scores sqrt_approx
                   week [] 1%N = Some c) by (vm_compute; reflexivity).
  pose (s1 := match entry c "steps" "score" with Some q => q | None => 0 end).
  pose (s2 := match entry c "sleep" "score" with Some q => q | None => 0 end).
  assert (H1 : entry c "steps" "score" = Some s1) by (vm_compute; reflexivity).
  assert (H2 : entry c "sleep" "score" = Some s2) by (vm_compute; reflexivity).
  destruct (@consistency_scores_are_coherent sqrt_approx _ week [] 1%N c
              "steps" s1 Hrun H1) as [B1 L1].
  destruct (@consistency_scores_are_coherent sqrt_approx _ week [] 1%N c
              "sleep" s2 Hrun H2) as [B2 L2].
  exists c, s1, s2.
  split; [exact Hrun|]. split; [exact H1|]. split; [exact B1|].
  split; [rewrite L1; vm_compute; reflexivity|].
  split; [exact H2|]. split; [exact B2|].
  rewrite L2. vm_compute. reflexivity.
Defined.

(* ================================================================== *)
(** ** HealthAnalyzer._analyze_overall_health_insights *)
(* ================================================================== *)

(** The heart sub-score is at least 50, so the score of a day with in-range
    inputs is at least 10. *)
Lemma daily_health_score_floor (d : DailySummary) :
  (forall n, total_steps d = Some n -> (0 <= n)%Z) ->
  (forall q, sleep_score d = Some q -> 0 <= q <= 100) ->
  (forall q, recovery_score d = Some q -> 0 <= q <= 100) ->
  10 <= HealthAnalyzer._calculate_daily_health_score d <= 100.
Proof.
  intros Hsteps Hsleep Hrec.
  unfold HealthAnalyzer._calculate_daily_health_score. cbv zeta.
  apply (round_bounds _ 10 100).
  unfold HealthAnalyzer.weights, Py.sum. cbn [map fold_left fst snd].
  pose proof (activity_score_bounds _ (or_zero_nonneg _ Hsteps)) as Ha.
  set (a := Py.min 100 _) in *.
  match goal with
  | |- _ <= 0 + a * _ + ?s * _ + ?h * _ + ?r * _ <= _ =>
      assert (Hs : 0 <= s <= 100);
      [| assert (Hh : 50 <= h <= 100);
         [| assert (Hr : 0 <= r <= 100);
            [| set (s' := s) in *; set (h' := h) in *; set (r' := r) in *;
               change (inject_Z 10) with 10; change (inject_Z 100) with 100;
               lra ] ] ]
  end.
  - destruct (Py.truthyQ (sleep_score d)) eqn:E.
    + now apply truthy_score_bounds.
    + destruct (Py.truthyZ (sleep_duration_minutes d)); cbv iota;
        [|split; lra].
      destruct (HealthAnalyzer.le_le _ _ _); cbv iota; [split; lra|].
      destruct (_ || _); cbv iota; [split; lra|].
      destruct (_ || _); cbv iota; split; lra.
  - destruct (Py.truthyZ (resting_heart_rate d)); cbv iota; [|split; lra].
    destruct (_ <? 60)%Z; cbv iota; [split; lra|].
    destruct (_ <? 70)%Z; cbv iota; [split; lra|].
    destruct (_ <? 80)%Z; cbv iota; split; lra.
  - destruct (Py.truthyQ (recovery_score d)) eqn:E.
    + now apply truthy_score_bounds.
    + cbv iota. split; lra.
Qed.

(** X19.  For a day whose stored sub-scores are within 0..100 and whose step
    count is not negative, the guard [if health_score:] of
    [_analyze_overall_health_insights] never skips: the score is at least 10
    (the heart sub-score alone contributes 10), it is stored as the
    summary's overall score, and exactly one scored insight is produced,
    first in the list, typed 'achievement' from 80, 'progress' from 60 and
    'recommendation' below; an 'info' insight follows exactly when the
    summary is not complete. *)
Theorem overall_insight_is_always_produced (row : DailySummaryRow) :
  let d := summary row in
  (forall n, total_steps d = Some n -> (0 <= n)%Z) ->
  (forall q, sleep_score d = Some q -> 0 <= q <= 100) ->
  (forall q, recovery_score d = Some q -> 0 <= q <= 100) ->
  let score := HealthAnalyzer._calculate_daily_health_score d in
  let insights := fst (HealthAnalyzer._analyze_overall_health_insights row) in
  let saved := snd (HealthAnalyzer._analyze_overall_health_insights row) in
  10 <= score <= 100
  /\ overall_score (summary saved) = Some score
  /\ is_complete saved = is_complete row
  /\ length insights = (if is_complete row then 1 else 2)%nat
  /\ exists scored,
       nth_error insights 0 = Some scored
       /\ Obj.get "type" scored
          = Some (Obj.str (if Qle_bool 80 score then "achievement"
                           else if Qle_bool 60 score then "progress"
                           else "recommendation"))
       /\ entry scored "data_points" "score" = Some (Py.round score 1).
Proof.
  intros d Hsteps Hsleep Hrec score insights saved.
  pose proof (daily_health_score_floor d Hsteps Hsleep Hrec) as Hb.
  fold score in Hb. split; [exact Hb|].
  assert (Hnz : Qeq_bool score 0 = false).
  { destruct (Qeq_bool score 0) eqn:E; [|reflexivity].
    apply Qeq_bool_iff in E. lra. }
  unfold insights, saved, HealthAnalyzer._analyze_overall_health_insights.
  cbv zeta. fold d. fold score. rewrite Hnz. cbn [negb].
  destruct (Qle_bool 80 score); [|destruct (Qle_bool 60 score)];
    cbn [fst snd summary is_complete overall_score];
    (split; [reflexivity|]); (split; [reflexivity|]);
    (split; [destruct (is_complete row); reflexivity|]);
    eexists; (split; [reflexivity|]); split; reflexivity.
Qed.

Lemma overall_insight_is_always_produced_witness :
  let row := mkSummaryRow (mkSummary 0 (Some 0%Z) None (Some 95%Z) None
                             (Some (1 # 100)) (Some (1 # 100)) None) 1%N true in
  let score := HealthAnalyzer._calculate_daily_health_score (summary row) in
  let insights := fst (HealthAnalyzer._analyze_overall_health_insights row) in
  score == 10
  /\ length insights = 1%nat
  /\ exists scored,
       nth_error insights 0 = Some scored
       /\ Obj.get "type" scored = Some (Obj.str "recommendation").
Proof.
  intros row score insights.
  assert (H1 : forall n, total_steps (summary row) = Some n -> (0 <= n)%Z).
  { intros n E. inversion E. lia. }
  assert (H2 : forall q, sleep_score (summary row) = Some q -> 0 <= q <= 100).
  { intros q E. inversion E. split; lra. }
  assert (H3 : forall q, recovery_score (summary row) = Some q -> 0 <= q <= 100).
  { intros q E. inversion E. split; lra. }
  destruct (overall_insight_is_always_produced row H1 H2 H3)
    as (_ & _ & _ & Hlen & scored & Hnth & Htype & _).
  split; [vm_compute; reflexivity|]. split; [exact Hlen|].
  exists scored. split; [exact Hnth | exact Htype].
Defined.

(* ================================================================== *)
(** ** HealthAnalyzer.analyze_health_trends *)
(* ================================================================== *)

Lemma std_of_one `{S : NumpySqrt} `{!NumpySqrtLaws S} (x : Q) :
  Np.std [x] == 0.
Proof.
  unfold Np.std. rewrite <- np_sqrt_zero. apply np_sqrt_proper.
  apply (np_var_const (fun y : Q => y) x [x]); [discriminate|].
  intros y [<- | []]. reflexivity.
Qed.

Lemma extract_trend_of_one `{NumpySqrt} (d : DailySummary)
  (f : HealthAnalyzer.field) :
  Py.get "status" (HealthAnalyzer._extract_trend [d] f)
  = Some (Py.VStr "insufficient_data")
  /\ HealthAnalyzer.direction_is (HealthAnalyzer._extract_trend [d] f)
       "increasing" = false
  /\ HealthAnalyzer.direction_is (HealthAnalyzer._extract_trend [d] f)
       "decreasing" = false.
Proof.
  unfold HealthAnalyzer._extract_trend, HealthAnalyzer.field_values.
  cbn [flat_map]. rewrite app_nil_r.
  destruct (HealthAnalyzer.getattr d f); repeat split; reflexivity.
Qed.

(** X20.  With a single daily summary in the period, whose step count is not
    zero, [analyze_health_trends] has too little data for any trend (every
    metric reports 'insufficient_data', the overall trend is 'stable', no
    strength, area or recommendation is listed), and still reports the
    insight 'Consistent Activity Level': the standard deviation of one value
    is 0, which it reads as highly consistent. *)
Theorem one_day_of_data_counts_as_consistent `{S : NumpySqrt} `{!NumpySqrtLaws S}
  (now : Z) (db : list DailySummaryRow) (sleep_sessions : list SleepSessionRow)
  (user : N) (days : Z) (d : DailySummary) :
  period_summaries now db user days = [d] ->
  Py.truthyZ (total_steps d) = true ->
  exists report,
    HealthAnalyzer.analyze_health_trends now db sleep_sessions user days
    = Some report
    /\ (forall metric,
          In metric ["steps"; "sleep_duration"; "heart_rate"; "overall_score"]%string ->
          reported_trend report metric "status"
          = Some (Obj.str "insufficient_data"))
    /\ summary_entry report "overall_trend" = Some (Obj.str "stable")
    /\ summary_list report "key_strengths" = []
    /\ summary_list report "areas_for_improvement" = []
    /\ summary_list report "recommendations" = []
    /\ In "Consistent Activity Level"%string (insight_titles report).
Proof.
  intros Hperiod Hsteps.
  unfold HealthAnalyzer.analyze_health_trends. cbv zeta.
  fold (period_summaries now db user days). rewrite Hperiod.
  destruct (extract_trend_of_one d HealthAnalyzer.f_total_steps)
    as (S1 & I1 & D1).
  destruct (extract_trend_of_one d HealthAnalyzer.f_sleep_duration_minutes)
    as (S2 & I2 & D2).
  destruct (extract_trend_of_one d HealthAnalyzer.f_avg_heart_rate)
    as (S3 & I3 & D3).
  destruct (extract_trend_of_one d HealthAnalyzer.f_overall_score)
    as (S4 & I4 & D4).
  set (t1 := HealthAnalyzer._extract_trend [d] HealthAnalyzer.f_total_steps) in *.
  set (t2 := HealthAnalyzer._extract_trend [d]
               HealthAnalyzer.f_sleep_duration_minutes) in *.
  set (t3 := HealthAnalyzer._extract_trend [d] HealthAnalyzer.f_avg_heart_rate) in *.
  set (t4 := HealthAnalyzer._extract_trend [d] HealthAnalyzer.f_overall_score) in *.
  (* the consistency of the steps *)
  assert (Hcons : exists rest std,
            HealthAnalyzer._calculate_consistency_scores [d] sleep_sessions user
            = Some (PDict
                      (("steps"%string,
                        PDict [("score"%string,
                                Obj.float (Py.max 0 (100 - std / 2000 * 100)));
                               ("std"%string, Obj.float (Py.round std 1));
                               ("interpretation"%string, Obj.str "high")])
                       :: rest))).
  { unfold HealthAnalyzer._calculate_consistency_scores. cbv zeta.
    cbn [flat_map]. rewrite Hsteps. cbn [app].
    assert (E : Py.Qlt_bool (Np.std [inject_Z (Py.orZ (total_steps d) 0)]) 1000
                = true).
    { apply Qlt_bool_iff. rewrite std_of_one. reflexivity. }
    rewrite E. eexists. eexists. reflexivity. }
  destruct Hcons as (rest & std & Hcons). rewrite Hcons.
  eexists. split; [reflexivity|].
  split; [|split; [|split; [|split; [|split]]]].
  - intros metric Hin. unfold reported_trend, Obj.get_or_empty.
    cbn [Obj.get Obj.lookup String.eqb Ascii.eqb Bool.eqb map fst snd].
    cbn [In] in Hin.
    destruct Hin as [<- | [<- | [<- | [<- | []]]]];
      cbn [Obj.get Obj.lookup String.eqb Ascii.eqb Bool.eqb];
      rewrite get_of_dict.
    + now rewrite S1.
    + now rewrite S2.
    + now rewrite S3.
    + now rewrite S4.
  - unfold summary_entry, Obj.get_or_empty.
    cbn [Obj.get Obj.lookup String.eqb Ascii.eqb Bool.eqb].
    unfold HealthAnalyzer._generate_trend_summary. cbv zeta.
    cbn [List.filter fst snd]. rewrite I1, I2, I3, I4, D1, D2, D3, D4.
    reflexivity.
  - unfold summary_list, summary_entry, Obj.get_or_empty.
    cbn [Obj.get Obj.lookup String.eqb Ascii.eqb Bool.eqb].
    unfold HealthAnalyzer._generate_trend_summary. cbv zeta.
    unfold HealthAnalyzer.trend_of.
    cbn [Obj.get Obj.lookup String.eqb Ascii.eqb Bool.eqb].
    rewrite I1, I2. reflexivity.
  - unfold summary_list, summary_entry, Obj.get_or_empty.
    cbn [Obj.get Obj.lookup String.eqb Ascii.eqb Bool.eqb].
    unfold HealthAnalyzer._generate_trend_summary. cbv zeta.
    unfold HealthAnalyzer.trend_of.
    cbn [Obj.get Obj.lookup String.eqb Ascii.eqb Bool.eqb].
    rewrite I3, D1. reflexivity.
  - unfold summary_list, summary_entry, Obj.get_or_empty.
    cbn [Obj.get Obj.lookup String.eqb Ascii.eqb Bool.eqb].
    unfold HealthAnalyzer._generate_trend_summary. cbv zeta.
    unfold HealthAnalyzer.trend_of.
    cbn [Obj.get Obj.lookup String.eqb Ascii.eqb Bool.eqb].
    rewrite I3, D1. reflexivity.
  - unfold insight_titles, listed.
    cbn [Obj.get Obj.lookup String.eqb Ascii.eqb Bool.eqb].
    unfold HealthAnalyzer._generate_trend_insights. cbv zeta.
    unfold HealthAnalyzer.trend_of, Obj.get_or_empty.
    cbn [Obj.get Obj.lookup String.eqb Ascii.eqb Bool.eqb Obj.is_str Obj.str].
    rewrite I1, D1, I2. cbn [andb app].
    apply in_flat_map.
    exists (HealthAnalyzer.trend_insight "pattern" "activity"
              "Consistent Activity Level"
              "You maintain very consistent daily step counts." (8 # 10)).
    split; now left.
Qed.

Lemma one_day_of_data_counts_as_consistent_witness :
  let db := [mkSummaryRow (mkSummary 10 (Some 8000%Z) (Some 70) (Some 60%Z)
                             (Some 450%Z) None None None) 1%N true] in
  exists report,
    @HealthAnalyzer.analyze_health_trends sqrt_approx 950400000000 db [] 1%N 30
    = Some report
    /\ summary_entry report "overall_trend" = Some (Obj.str "stable")
    /\ In "Consistent Activity Level"%string (insight_titles report).
Proof.
  intro db.
  assert (Hp : period_summaries 950400000000 db 1%N 30
               = [mkSummary 10 (Some 8000%Z) (Some 70) (Some 60%Z)
                    (Some 450%Z) None None None]) by reflexivity.
  destruct (@one_day_of_data_counts_as_consistent sqrt_approx _ 950400000000
              db [] 1%N 30 _ Hp eq_refl)
    as (report & Hrun & _ & Hstable & _ & _ & _ & Hin).
  exists report. split; [exact Hrun|]. split; [exact Hstable | exact Hin].
Defined.

Lemma reported_direction (trends : list (string * Py.dict)) (rest : list (string * pyobj))
  (metric direction : string) (trend : Py.dict) :
  Obj.lookup metric trends = Some trend ->
  (Obj.get "trend_direction"
     (Obj.get_or_empty metric
        (PDict (map (fun mt => (fst mt, Obj.of_dict (snd mt))) trends)))
   = Some (Obj.str direction))
  <-> HealthAnalyzer.direction_is trend direction = true.
Proof.
  intro Hl. unfold Obj.get_or_empty. cbn [Obj.get].
  assert (E : Obj.lookup metric
                (map (fun mt : string * Py.dict => (fst mt, Obj.of_dict (snd mt)))
                   trends)
              = Some (Obj.of_dict trend)).
  { revert Hl. induction trends as [|[k t] l IH]; [discriminate|].
    cbn [map Obj.lookup fst snd]. destruct (String.eqb metric k).
    - intro E. inversion E. reflexivity.
    - exact IH. }
  rewrite E, get_of_dict. unfold HealthAnalyzer.direction_is, Obj.str.
  destruct (Py.get "trend_direction" trend) as [[d| | | |]|]; cbn [option_map];
    split; intro H; try discriminate.
  - inversion H. apply String.eqb_refl.
  - apply String.eqb_eq in H. now subst.
Qed.

Lemma reported_direction_in (items : list (string * pyobj))
  (trends : list (string * Py.dict)) (metric direction : string)
  (trend : Py.dict) :
  Obj.lookup "trends" items
  = Some (PDict (map (fun mt => (fst mt, Obj.of_dict (snd mt))) trends)) ->
  Obj.lookup metric trends = Some trend ->
  (reported_trend (PDict items) metric "trend_direction"
   = Some (Obj.str direction))
  <-> HealthAnalyzer.direction_is trend direction = true.
Proof.
  intros Ht Hl. unfold reported_trend.
  unfold Obj.get_or_empty at 2. cbn [Obj.get]. rewrite Ht.
  now apply reported_direction.
Qed.

Lemma direction_exclusive (trend : Py.dict) :
  HealthAnalyzer.direction_is trend "decreasing" = true ->
  HealthAnalyzer.direction_is trend "increasing" = false.
Proof.
  unfold HealthAnalyzer.direction_is.
  destruct (Py.get "trend_direction" trend) as [[d| | | |]|]; try discriminate.
  intro H. apply String.eqb_eq in H. subst d. reflexivity.
Qed.

(** X21.  In the summary of [analyze_health_trends] the heart rate can only
    count against the user: an overall trend 'improving' always rests on an
    increasing trend of steps, sleep duration or overall score, whereas a
    decreasing heart rate, with none of those three increasing, makes the
    overall trend 'declining', and does so without any area for improvement
    or recommendation about the heart rate.  Each area for improvement
    comes with one recommendation. *)
Theorem heart_rate_only_counts_against `{NumpySqrt}
  (now : Z) (db : list DailySummaryRow) (sleep_sessions : list SleepSessionRow)
  (user : N) (days : Z) :
  period_summaries now db user days <> [] ->
  exists report,
    HealthAnalyzer.analyze_health_trends now db sleep_sessions user days
    = Some report
    /\ let increasing metric :=
         reported_trend report metric "trend_direction"
         = Some (Obj.str "increasing") in
       let decreasing metric :=
         reported_trend report metric "trend_direction"
         = Some (Obj.str "decreasing") in
       (summary_entry report "overall_trend" = Some (Obj.str "improving") ->
        increasing "steps"%string \/ increasing "sleep_duration"%string
        \/ increasing "overall_score"%string)
       /\ (decreasing "heart_rate"%string ->
           ~ increasing "steps"%string ->
           ~ increasing "sleep_duration"%string ->
           ~ increasing "overall_score"%string ->
           summary_entry report "overall_trend" = Some (Obj.str "declining")
           /\ ~ In "Managing heart rate levels"%string
                  (summary_list report "areas_for_improvement")
           /\ ~ In "Consider stress management techniques"%string
                  (summary_list report "recommendations"))
       /\ length (summary_list report "recommendations")
          = length (summary_list report "areas_for_improvement").
Proof.
  intro Hne. unfold HealthAnalyzer.analyze_health_trends. cbv zeta.
  fold (period_summaries now db user days).
  destruct (period_summaries now db user days) as [|d0 ds] eqn:Hp;
    [congruence|].
  set (dsum := d0 :: ds) in *.
  set (t1 := HealthAnalyzer._extract_trend dsum HealthAnalyzer.f_total_steps).
  set (t2 := HealthAnalyzer._extract_trend dsum
               HealthAnalyzer.f_sleep_duration_minutes).
  set (t3 := HealthAnalyzer._extract_trend dsum HealthAnalyzer.f_avg_heart_rate).
  set (t4 := HealthAnalyzer._extract_trend dsum HealthAnalyzer.f_overall_score).
  set (trends := [("steps"%string, t1); ("sleep_duration"%string, t2);
                  ("heart_rate"%string, t3); ("overall_score"%string, t4)]).
  assert (Hc : exists c,
             HealthAnalyzer._calculate_consistency_scores dsum sleep_sessions
               user = Some c).
  { unfold HealthAnalyzer._calculate_consistency_scores, dsum. cbv zeta.
    eexists. reflexivity. }
  destruct Hc as (c & Hc). rewrite Hc.
  eexists. split; [reflexivity|].
  pose proof (direction_exclusive t1) as X1.
  pose proof (direction_exclusive t3) as X3.
  cbv zeta.
  match goal with
  | |- context [reported_trend (PDict ?items) _ _] =>
      rewrite (reported_direction_in items trends "steps" "increasing" t1
                 eq_refl eq_refl),
        (reported_direction_in items trends "sleep_duration" "increasing" t2
           eq_refl eq_refl),
        (reported_direction_in items trends "overall_score" "increasing" t4
           eq_refl eq_refl),
        (reported_direction_in items trends "heart_rate" "decreasing" t3
           eq_refl eq_refl)
  end.
  unfold summary_list, summary_entry, Obj.get_or_empty.
  cbn [Obj.get Obj.lookup String.eqb Ascii.eqb Bool.eqb].
  fold trends.
  unfold HealthAnalyzer._generate_trend_summary. cbv zeta.
  unfold HealthAnalyzer.trend_of, trends, Obj.get_or_empty.
  cbn [Obj.get Obj.lookup String.eqb Ascii.eqb Bool.eqb List.filter fst snd
       negb andb].
  destruct (HealthAnalyzer.direction_is t1 "increasing") eqn:I1;
  destruct (HealthAnalyzer.direction_is t2 "increasing") eqn:I2;
  destruct (HealthAnalyzer.direction_is t3 "increasing") eqn:I3;
  destruct (HealthAnalyzer.direction_is t4 "increasing") eqn:I4;
  destruct (HealthAnalyzer.direction_is t1 "decreasing") eqn:D1;
  destruct (HealthAnalyzer.direction_is t2 "decreasing") eqn:D2;
  destruct (HealthAnalyzer.direction_is t3 "decreasing") eqn:D3;
  destruct (HealthAnalyzer.direction_is t4 "decreasing") eqn:D4;
  try (specialize (X1 eq_refl); discriminate X1);
  try (specialize (X3 eq_refl); discriminate X3);
  cbn [negb andb List.filter length Nat.ltb Nat.leb existsb String.eqb
       Ascii.eqb Bool.eqb orb app map flat_map In];
  (split; [|split]);
  try reflexivity;
  try (intro Hx; discriminate Hx);
  try (intros _; tauto);
  try (intros Hx; try discriminate Hx; intros; exfalso; tauto);
  try (intros _ _ _ _; split; [reflexivity|]; split; intro Hx;
       vm_compute in Hx;
       repeat match goal with
              | H : _ \/ _ |- _ => destruct H
              | H : False |- _ => destruct H
              | H : _ = _ |- _ => discriminate H
              end).
Qed.

Lemma heart_rate_only_counts_against_witness :
  exists report,
    @HealthAnalyzer.analyze_health_trends sqrt_approx 345600000000
      falling_heart_rate [] 1%N 30 = Some report
    /\ reported_trend report "heart_rate" "trend_direction"
       = Some (Obj.str "decreasing")
    /\ summary_entry report "overall_trend" = Some (Obj.str "declining")
    /\ ~ In "Managing heart rate levels"%string
           (summary_list report "areas_for_improvement").
Proof.
  assert (Hne : period_summaries 345600000000 falling_heart_rate 1%N 30 <> [])
    by (vm_compute; discriminate).
  destruct (@heart_rate_only_counts_against sqrt_approx 345600000000
              falling_heart_rate [] 1%N 30 Hne)
    as (report & Hrun & _ & Hdecl & _).
  pose (r := match @HealthAnalyzer.analyze_health_trends sqrt_approx
                     345600000000 falling_heart_rate [] 1%N 30 with
             | Some r => r
             | None => PDict []
             end).
  assert (Hr : @HealthAnalyzer.analyze_health_trends sqrt_approx 345600000000
                 falling_heart_rate [] 1%N 30 = Some r)
    by (vm_compute; reflexivity).
  assert (E : report = r) by congruence.
  assert (Hd : reported_trend report "heart_rate" "trend_direction"
               = Some (Obj.str "decreasing"))
    by (rewrite E; vm_compute; reflexivity).
  assert (H1 : reported_trend report "steps" "trend_direction"
               <> Some (Obj.str "increasing"))
    by (rewrite E; vm_compute; discriminate).
  assert (H2 : reported_trend report "sleep_duration" "trend_direction"
               <> Some (Obj.str "increasing"))
    by (rewrite E; vm_compute; discriminate).
  assert (H4 : reported_trend report "overall_score" "trend_direction"
               <> Some (Obj.str "increasing"))
    by (rewrite E; vm_compute; discriminate).
  destruct (Hdecl Hd H1 H2 H4) as (Ho & Ha & _).
  exists report. split; [exact Hrun|]. split; [exact Hd|].
  split; [exact Ho | exact Ha].
Defined.

(* ================================================================== *)
(** ** HeartRateProcessor.calculate_resting_heart_rate *)
(* ================================================================== *)

Lemma date_of_le_midnight (t day : Z) :
  (t <= HeartRateProcessor.midnight day)%Z -> (date_of t <= day)%Z.
Proof.
  unfold date_of, HeartRateProcessor.midnight. intro H.
  apply Z.div_le_upper_bound; lia.
Qed.

Lemma resting_readings_dates (db : table) (user : N) (date : Z)
  (r : HeartRateReading) :
  In r (HeartRateProcessor.resting_readings db user date) ->
  In r db /\ (date_of (hr_timestamp r) <= date)%Z.
Proof.
  unfold HeartRateProcessor.resting_readings. cbv zeta. intro H.
  apply (Permutation_in _ (order_by_timestamp_perm _)) in H.
  apply filter_In in H. destruct H as [Hin H]. split; [exact Hin|].
  apply andb_prop in H. destruct H as [H _].
  apply andb_prop in H. destruct H as [_ H].
  unfold Objects.in_range in H. apply andb_prop in H. destruct H as [_ H].
  apply Z.leb_le in H. now apply date_of_le_midnight.
Qed.

(** Before the oldest reading there is nothing to average. *)
Lemma resting_readings_before (db : table) (user : N) (date m : Z) :
  (forall r, In r db -> (m <= date_of (hr_timestamp r))%Z) ->
  (date < m)%Z ->
  HeartRateProcessor.resting_readings db user date = [].
Proof.
  intros Hm Hlt.
  destruct (HeartRateProcessor.resting_readings db user date) as [|r rs] eqn:E;
    [reflexivity|].
  assert (Hin : In r (HeartRateProcessor.resting_readings db user date))
    by (rewrite E; now left).
  apply resting_readings_dates in Hin. destruct Hin as [Hin Hd].
  specialize (Hm r Hin). lia.
Qed.

Lemma resting_fuel_enough (db : table) (user : N) (m : Z) :
  (forall r, In r db -> (m <= date_of (hr_timestamp r))%Z) ->
  forall fuel date,
    (Z.to_nat (date - m + 1) < fuel)%nat ->
    exists result,
      forall fuel', (fuel <= fuel')%nat ->
        HeartRateProcessor.resting_heart_rate_on fuel' db user date
        = Some result.
Proof.
  intros Hm. induction fuel as [|fuel IH]; intros date Hfuel; [lia|].
  destruct (Z.ltb_spec date m) as [Hlt | Hge].
  - exists None. intros [|fuel'] Hle; [lia|].
    cbn [HeartRateProcessor.resting_heart_rate_on]. cbv zeta.
    now rewrite (resting_readings_before db user date m Hm Hlt).
  - destruct (IH (date - 1)%Z) as (previous & Hprev); [lia|].
    destruct (length (HeartRateProcessor.resting_readings db user date) <? 5)%nat
      eqn:E5.
    + exists None. intros [|fuel'] Hle; [lia|].
      cbn [HeartRateProcessor.resting_heart_rate_on]. cbv zeta.
      now rewrite E5.
    + eexists. intros [|fuel'] Hle; [lia|].
      cbn [HeartRateProcessor.resting_heart_rate_on]. cbv zeta.
      rewrite E5, (Hprev fuel') by lia. reflexivity.
Qed.

Lemma earliest_le (l : list Z) (d x : Z) :
  In x l -> (fold_right Z.min d l <= x)%Z.
Proof.
  induction l as [|y l IH]; intro H; [destruct H|].
  cbn [fold_right]. destruct H as [<- | H]; [lia|].
  specialize (IH H). lia.
Qed.

(** X22.  The chain of calls of [calculate_resting_heart_rate] to the
    previous day ends: it stops at the first day with fewer than five
    resting readings, at the latest on the day before the oldest reading.
    With one unit of fuel per day back to the oldest reading (and one more)
    the function returns, and more fuel does not change what it returns. *)
Theorem resting_heart_rate_terminates (now : Z) (db : table) (user : N)
  (date : option Z) :
  let day := match date with Some d => d | None => date_of now end in
  forall fuel,
    (HeartRateProcessor.days_back db day <= fuel)%nat ->
    HeartRateProcessor.resting_heart_rate_on fuel db user day
    = Some (HeartRateProcessor.calculate_resting_heart_rate now db user date).
Proof.
  intros day fuel Hfuel.
  set (m := fold_right Z.min day (map (fun r => date_of (hr_timestamp r)) db)).
  assert (Hm : forall r, In r db -> (m <= date_of (hr_timestamp r))%Z).
  { intros r Hr. apply earliest_le.
    apply (in_map (fun r => date_of (hr_timestamp r))). exact Hr. }
  destruct (resting_fuel_enough db user m Hm
              (HeartRateProcessor.days_back db day) day) as (result & Hres).
  { unfold HeartRateProcessor.days_back. fold m. lia. }
  unfold HeartRateProcessor.calculate_resting_heart_rate. fold day.
  rewrite (Hres (HeartRateProcessor.days_back db day)) by lia.
  now apply Hres.
Qed.

Lemma resting_heart_rate_terminates_witness :
  let db := night_before 3 [52; 50; 55; 60; 51; 58]%Z
            ++ night_before 2 [54; 56; 53; 61; 59; 57]%Z in
  let day := 3%Z in
  HeartRateProcessor.resting_heart_rate_on 100 db 1%N day
  = Some (HeartRateProcessor.calculate_resting_heart_rate 0 db 1%N (Some 3%Z)).
Proof.
  intros db day.
  assert (H : (HeartRateProcessor.days_back db day <= 100)%nat)
    by (vm_compute; lia).
  exact (resting_heart_rate_terminates 0 db 1%N (Some 3%Z) 100%nat H).
Defined.

Lemma insert_sorted_length (x : Z) (l : list Z) :
  length (HeartRateProcessor.insert_sorted x l) = S (length l).
Proof.
  induction l as [|y l IH]; [reflexivity|].
  cbn [HeartRateProcessor.insert_sorted]. destruct (x <=? y)%Z; cbn [length];
    [reflexivity | now rewrite IH].
Qed.

Lemma sorted_length (l : list Z) :
  length (HeartRateProcessor.sorted l) = length l.
Proof.
  induction l as [|x l IH]; [reflexivity|].
  unfold HeartRateProcessor.sorted in *. cbn [fold_right].
  now rewrite insert_sorted_length, IH.
Qed.

Lemma np_sum_inject (l : list Z) :
  Np.sum (map inject_Z l) == inject_Z (fold_right Z.add 0%Z l).
Proof.
  induction l as [|x l IH]; [reflexivity|].
  cbn [map fold_right]. rewrite np_sum_cons, IH, inject_Z_plus. reflexivity.
Qed.

Lemma round_fifths (k : Z) :
  Py.round (inject_Z k / 5) 1 == inject_Z k / 5.
Proof.
  unfold Py.round. cbv zeta.
  assert (E : inject_Z k / 5 * inject_Z (10 ^ Z.of_nat 1) == inject_Z (2 * k)).
  { change (inject_Z (10 ^ Z.of_nat 1)) with 10. rewrite inject_Z_mult.
    change (inject_Z 2) with 2. field. }
  rewrite (round_half_even_proper _ _ E), round_half_even_Z.
  change (inject_Z (10 ^ Z.of_nat 1)) with 10. rewrite inject_Z_mult.
  change (inject_Z 2) with 2. field.
Qed.

(** X23.  The resting heart rate that [calculate_resting_heart_rate] reports
    is exactly the mean of the five lowest resting readings of the day:
    rounding to one decimal loses nothing, since a mean of five integers is
    a whole number of fifths.  The reported confidence lies between 0.25 and
    1. *)
Theorem resting_heart_rate_is_exact_mean (fuel : nat) (db : table) (user : N)
  (date : Z) (report : pyobj) :
  HeartRateProcessor.resting_heart_rate_on fuel db user date
  = Some (Some report) ->
  (exists value,
     float_at report "value" = Some value
     /\ value == Np.mean (map inject_Z (five_lowest db user date))
     /\ value * 5 == inject_Z (fold_right Z.add 0%Z (five_lowest db user date)))
  /\ length (five_lowest db user date) = 5%nat
  /\ (exists confidence,
        float_at report "confidence" = Some confidence
        /\ (1 # 4) <= confidence <= 1).
Proof.
  destruct fuel as [|fuel]; [discriminate|].
  cbn [HeartRateProcessor.resting_heart_rate_on]. cbv zeta.
  fold (five_lowest db user date).
  destruct (Nat.ltb_spec
              (length (HeartRateProcessor.resting_readings db user date)) 5)
    as [Hlt | Hge]; [discriminate|].
  destruct (HeartRateProcessor.resting_heart_rate_on fuel db user (date - 1))
    as [previous|]; [|discriminate].
  intro E. inversion E; subst report. clear E.
  assert (Hlen : length (five_lowest db user date) = 5%nat).
  { unfold five_lowest. rewrite length_firstn, sorted_length, length_map. lia. }
  assert (Hmean : Np.mean (map inject_Z (five_lowest db user date))
                  == inject_Z (fold_right Z.add 0%Z (five_lowest db user date))
                     / 5).
  { unfold Np.mean. rewrite np_sum_inject, length_map, Hlen. reflexivity. }
  split; [|split; [exact Hlen|]].
  - eexists. split; [reflexivity|].
    assert (Hr : Py.round (Np.mean (map inject_Z (five_lowest db user date))) 1
                 == Np.mean (map inject_Z (five_lowest db user date))).
    { rewrite (round_proper _ _ Hmean 1%nat 1%nat eq_refl), Hmean.
      apply round_fifths. }
    split; [exact Hr|]. rewrite Hr, Hmean. field.
  - eexists. split; [reflexivity|].
    set (n := length (HeartRateProcessor.resting_readings db user date)) in *.
    assert (Hn : 5 <= inject_Z (Z.of_nat n)).
    { change 5 with (inject_Z 5). rewrite <- Zle_Qle. lia. }
    unfold Py.min, Py.Zdiv_true. change (inject_Z 20) with 20.
    destruct (Py.Qlt_bool _ 1) eqn:E1.
    + apply Qlt_bool_iff in E1. split; [|lra].
      apply Qle_shift_div_l; lra.
    + split; lra.
Qed.

Lemma resting_heart_rate_is_exact_mean_witness :
  let db := night_before 3 [52; 50; 55; 60; 51; 58]%Z in
  exists report value,
    HeartRateProcessor.resting_heart_rate_on 10 db 1%N 3 = Some (Some report)
    /\ float_at report "value" = Some value
    /\ value * 5 == 266.
Proof.
  intro db.
  pose (report := match HeartRateProcessor.resting_heart_rate_on 10 db 1%N 3 with
                  | Some (Some r) => r
                  | _ => PDict []
                  end).
  assert (Hrun : HeartRateProcessor.resting_heart_rate_on 10 db 1%N 3
                 = Some (Some report)) by (vm_compute; reflexivity).
  destruct (resting_heart_rate_is_exact_mean 10 db 1%N 3 report Hrun)
    as ((value & Hv & _ & H5) & _).
  exists report, value. split; [exact Hrun|]. split; [exact Hv|].
  rewrite H5. vm_compute. reflexivity.
Defined.

(* ================================================================== *)
(** ** SleepProcessor.analyze_sleep_patterns *)
(* ================================================================== *)

(** Reading back a list of strings. *)
Lemma strings_of_str_list (l : list string) :
  flat_map (fun item => match item with
                        | PVal (Py.VStr s) => [s]
                        | _ => []
                        end) (map Obj.str l) = l.
Proof.
  induction l as [|x l IH]; [reflexivity|].
  cbn [map flat_map Obj.str app]. now rewrite IH.
Qed.

(** What [analyze_sleep_patterns] returns when it returns on a period with
    sessions. *)
Lemma sleep_patterns_report `{NumpySqrt} (now : Z) (db : list SleepSessionRow)
  (user : N) (days : Z) (report : pyobj) :
  SleepProcessor.period_sessions now db user days <> [] ->
  SleepProcessor.analyze_sleep_patterns now db user days = Some report ->
  let sessions := SleepProcessor.period_sessions now db user days in
  let durations := period_durations now db user days in
  let avg_efficiency :=
    SleepProcessor.avg_or_0 (SleepProcessor.non_null sleep_efficiency sessions) in
  exists avg_duration duration_std bedtime_variation,
    entry report "overview" "average_efficiency"
    = Some (Py.round avg_efficiency 1)
    /\ entry report "overview" "sleep_debt_hours"
       = Some (Py.round
                 (Py.sum (map (fun d => Py.max 0 ((75 # 10) - Py.Zdiv_true d 60))
                            durations)) 1)
    /\ length durations = length sessions
    /\ strings_at report "recommendations"
       = SleepProcessor._generate_pattern_recommendations avg_duration
           avg_efficiency duration_std bedtime_variation.
Proof.
  intros Hne. unfold SleepProcessor.analyze_sleep_patterns. cbv zeta.
  fold (period_durations now db user days).
  destruct (SleepProcessor.period_sessions now db user days) as [|s0 ss] eqn:Hs;
    [congruence|].
  destruct (Nat.eqb_spec (length (period_durations now db user days))
              (length (s0 :: ss))) as [Hd | Hd]; cbn [negb orb];
    [|discriminate].
  destruct (negb (length (SleepProcessor.non_null end_time (s0 :: ss))
                  =? length (s0 :: ss))%nat); [discriminate|].
  intro E. inversion E; subst report. clear E.
  exists (SleepProcessor.avg_or_0
            (map inject_Z (period_durations now db user days))),
         (if (1 <? length (period_durations now db user days))%nat
          then Np.std (map inject_Z (period_durations now db user days))
          else 0),
         (SleepProcessor._calculate_time_variation (map fst (s0 :: ss))).
  split; [reflexivity|]. split; [reflexivity|]. split; [exact Hd|].
  unfold strings_at.
  cbn [Obj.get Obj.lookup String.eqb Ascii.eqb Bool.eqb].
  apply strings_of_str_list.
Qed.

Lemma non_null_none {A : Type} (column : SleepSession -> option A)
  (rows : list (Z * SleepSessionRow)) :
  (forall r, In r rows -> column (session (snd r)) = None) ->
  SleepProcessor.non_null column rows = [].
Proof.
  induction rows as [|r rows IH]; intro H; [reflexivity|].
  unfold SleepProcessor.non_null in *. cbn [flat_map].
  rewrite (H r (or_introl eq_refl)). cbn [app].
  apply IH. intros x Hx. apply H. now right.
Qed.

(** X24.  A missing efficiency reads as efficiency 0: when no session of
    the period stores a sleep efficiency, [analyze_sleep_patterns] reports an
    average efficiency of 0 and recommends improving sleep efficiency. *)
Theorem missing_efficiency_reads_as_zero `{NumpySqrt}
  (now : Z) (db : list SleepSessionRow) (user : N) (days : Z) (report : pyobj) :
  SleepProcessor.period_sessions now db user days <> [] ->
  SleepProcessor.analyze_sleep_patterns now db user days = Some report ->
  (forall r, In r (SleepProcessor.period_sessions now db user days) ->
             sleep_efficiency (session (snd r)) = None) ->
  entry report "overview" "average_efficiency" = Some (Py.round 0 1)
  /\ In "Improve sleep efficiency by creating a better sleep environment and routine."%string
       (strings_at report "recommendations").
Proof.
  intros Hne Hrun Hnone.
  destruct (sleep_patterns_report now db user days report Hne Hrun)
    as (ad & ds & bv & Heff & _ & _ & Hrecs).
  rewrite (non_null_none sleep_efficiency _ Hnone) in Heff, Hrecs.
  cbn [SleepProcessor.avg_or_0] in Heff, Hrecs.
  split; [exact Heff|]. rewrite Hrecs.
  unfold SleepProcessor._generate_pattern_recommendations.
  apply in_or_app. right. apply in_or_app. left. now left.
Qed.

Lemma missing_efficiency_reads_as_zero_witness :
  let db := three_nights [480; 470; 490]%Z in
  exists report,
    @SleepProcessor.analyze_sleep_patterns sqrt_approx 345600000000 db 1%N 14
    = Some report
    /\ entry report "overview" "average_efficiency" = Some (Py.round 0 1)
    /\ In "Improve sleep efficiency by creating a better sleep environment and routine."%string
         (strings_at report "recommendations").
Proof.
  intro db.
  pose (report := match @SleepProcessor.analyze_sleep_patterns sqrt_approx
                          345600000000 db 1%N 14 with
                  | Some r => r
                  | None => PDict []
                  end).
  assert (Hrun : @SleepProcessor.analyze_sleep_patterns sqrt_approx
                   345600000000 db 1%N 14 = Some report)
    by (vm_compute; reflexivity).
  assert (Hne : SleepProcessor.period_sessions 345600000000 db 1%N 14 <> [])
    by (vm_compute; discriminate).
  assert (Hnone : forall r,
            In r (SleepProcessor.period_sessions 345600000000 db 1%N 14) ->
            sleep_efficiency (session (snd r)) = None).
  { intros r Hr. vm_compute in Hr.
    repeat (destruct Hr as [<- | Hr]; [reflexivity|]). destruct Hr. }
  exists report. split; [exact Hrun|].
  exact (@missing_efficiency_reads_as_zero sqrt_approx 345600000000 db 1%N 14
           report Hne Hrun Hnone).
Defined.



